(** * Edu-Manage: grade, attendance and enrollment consistency

    A shallow embedding of the consistency rules of the Edu-Manage learning
    management system: the Mongoose pre-save hooks of [Enrollment.js],
    [Submission.js] and [Grade.js], the grading, attendance and GPA
    computations of the route handlers, and the enrollment ledger and the
    course-grade latch that the routes implement; then the in-memory models
    of [MockModels.js], [mockDb.js] and [MockUserModel.js], the virtual
    properties of the assignment model and the authorization middleware.

    A JavaScript number that is stored and compared is kept as its exact
    value ([Js.Number]: a rational or one of the IEEE-754 special values), and
    comparisons are exact.  The arithmetic of the handlers and hooks is that
    of binary64, on Rocq's primitive floats ([Js64], [Binary64]).  Counters
    that only ever hold small non-negative integers ([currentEnrollment],
    [totalClasses], ...) are integers of [Z]. *)

From Stdlib Require Import ZArith QArith Qreduction Lqa Floats.
From stdpp Require Import gmap strings pretty.

(** ** JavaScript numbers *)

Module Js.

Inductive Number : Type :=
  | Fin (q : Q)
  | PosInfinity
  | NegInfinity
  | NaN.

(** [a + b] *)
Definition add (a b : Number) : Number :=
  match a, b with
  | NaN, _ | _, NaN => NaN
  | Fin x, Fin y => Fin (Qred (x + y))
  | PosInfinity, NegInfinity | NegInfinity, PosInfinity => NaN
  | PosInfinity, _ | _, PosInfinity => PosInfinity
  | NegInfinity, _ | _, NegInfinity => NegInfinity
  end.

(** The order of two numbers; [None] when either is [NaN]. *)
Definition cmp (a b : Number) : option comparison :=
  match a, b with
  | NaN, _ | _, NaN => None
  | Fin x, Fin y => Some (x ?= y)%Q
  | PosInfinity, PosInfinity | NegInfinity, NegInfinity => Some Eq
  | PosInfinity, _ | _, NegInfinity => Some Gt
  | NegInfinity, _ | _, PosInfinity => Some Lt
  end.

(** [a >= b] *)
Definition geb (a b : Number) : bool :=
  match cmp a b with
  | Some (Gt | Eq) => true
  | _ => false
  end.

(** Truthiness of a number in a condition: [0] and [NaN] are falsy. *)
Definition truthy (a : Number) : bool :=
  match a with
  | Fin x => negb (Qeq_bool x 0)
  | NaN => false
  | _ => true
  end.

(** Numeric equality: finite numbers are compared as rationals. *)
Definition eqv (a b : Number) : Prop :=
  match a, b with
  | Fin x, Fin y => x == y
  | PosInfinity, PosInfinity | NegInfinity, NegInfinity | NaN, NaN => True
  | _, _ => False
  end.

End Js.

Declare Scope js_scope.
Delimit Scope js_scope with js.
Bind Scope js_scope with Js.Number.
Notation "a + b" := (Js.add a b) : js_scope.
Notation "a >=? b" := (Js.geb a b) (at level 70) : js_scope.
Notation "a ≈ b" := (Js.eqv a b) (at level 70) : js_scope.

Import Js(Number, Fin, PosInfinity, NegInfinity, NaN).

(** ** Binary64 arithmetic *)

(** The divisions, products, sums and differences of the handlers and hooks
    are those of binary64, on Rocq's primitive floats.  A number that is
    stored and then only compared is kept as its exact value: every finite
    float is a rational, and a literal is the float nearest to it. *)
Module Js64.

(** A counter as a float (exact up to 2^53 in absolute value). *)
Definition ofZ (z : Z) : float :=
  if (z <? 0)%Z then (- PrimFloat.of_uint63 (Uint63.of_Z (- z)))%float
  else PrimFloat.of_uint63 (Uint63.of_Z z).

(** The exact value of a float. *)
Definition ofFloat (x : float) : Number :=
  match Prim2SF x with
  | S754_zero _ => Fin 0
  | S754_infinity false => PosInfinity
  | S754_infinity true => NegInfinity
  | S754_nan => NaN
  | S754_finite s m e =>
      let q :=
        if (0 <=? e)%Z then inject_Z (Z.pos m * 2 ^ e)
        else Z.pos m # Z.to_pos (2 ^ (- e)) in
      Fin (Qred (if s then - q else q))
  end.

(** The float that a literal stands for: numerator by denominator, rounded
    once (the two are exact as floats up to 2^53). *)
Definition toFloat (a : Number) : float :=
  match a with
  | Fin q => (ofZ (Qnum q) / ofZ (Z.pos (Qden q)))%float
  | PosInfinity => infinity
  | NegInfinity => neg_infinity
  | NaN => nan
  end.

(** Truthiness of a float in a condition: [0], [-0] and [NaN] are falsy. *)
Definition truthy (x : float) : bool :=
  negb (x =? 0)%float && negb (PrimFloat.is_nan x).

(** [Math.max(0, x)] *)
Definition max0 (x : float) : float :=
  if (0 <? x)%float then x else if PrimFloat.is_nan x then x else 0%float.

End Js64.

Module Binary64.

(** [(points / totalPoints) * 100] *)
Definition percentageOf (points totalPoints : float) : float :=
  (points / totalPoints * 100)%float.

(** [percentage - percentage * (latePenalty / 100)] *)
Definition penalised (percentage latePenalty : float) : float :=
  (percentage - percentage * (latePenalty / 100))%float.

(** [(attendedClasses / totalClasses) * 100] *)
Definition attendancePercentage (attendedClasses totalClasses : float) : float :=
  (attendedClasses / totalClasses * 100)%float.

(** Modelled from the spec: the arithmetic mean of a list of numbers, as the
    number type computes it: the sum from 0, left to right, divided by the
    count. *)
Definition mean (xs : list float) : float :=
  (fold_left PrimFloat.add xs 0 / Js64.ofZ (Z.of_nat (length xs)))%float.

End Binary64.

(** ** Letter grades and GPA points *)

Module GradeTables.

(** [Submission.js], [submissionSchema.pre('save')]: the cascade that turns
    [grade.percentage] into [grade.letterGrade]. *)
Definition submissionLetterGrade (percentage : Number) : string :=
  if (percentage >=? Fin 97)%js then "A+"
  else if (percentage >=? Fin 93)%js then "A"
  else if (percentage >=? Fin 90)%js then "A-"
  else if (percentage >=? Fin 87)%js then "B+"
  else if (percentage >=? Fin 83)%js then "B"
  else if (percentage >=? Fin 80)%js then "B-"
  else if (percentage >=? Fin 77)%js then "C+"
  else if (percentage >=? Fin 73)%js then "C"
  else if (percentage >=? Fin 70)%js then "C-"
  else if (percentage >=? Fin 67)%js then "D+"
  else if (percentage >=? Fin 60)%js then "D"
  else "F".

(** The branches of the letter cascade of [gradeSchema.pre('save')] below
    90, which the backend files elide after the first three ([// ... etc]):
    they are those of the complete cascade of the same hook in the database
    design (that one, [designLetterGrade] below, starts at 93 and has no
    branch for "A+"). *)
Definition gradeLetterGradeBelow90 (percentage : Number) : string :=
  if (percentage >=? Fin 87)%js then "B+"
  else if (percentage >=? Fin 83)%js then "B"
  else if (percentage >=? Fin 80)%js then "B-"
  else if (percentage >=? Fin 77)%js then "C+"
  else if (percentage >=? Fin 73)%js then "C"
  else if (percentage >=? Fin 70)%js then "C-"
  else if (percentage >=? Fin 67)%js then "D+"
  else if (percentage >=? Fin 60)%js then "D"
  else "F".

(** [Grade.js], [gradeSchema.pre('save')]: letter grade. *)
Definition gradeLetterGrade (percentage : Number) : string :=
  if (percentage >=? Fin 97)%js then "A+"
  else if (percentage >=? Fin 93)%js then "A"
  else if (percentage >=? Fin 90)%js then "A-"
  else gradeLetterGradeBelow90 percentage.

(** [Grade.js], [gradeSchema.pre('save')]: GPA on the 4.0 scale (the
    number [4.0] is the number [4]). *)
Definition gradeGpa (percentage : Number) : Number :=
  if (percentage >=? Fin 97)%js then Fin 4
  else if (percentage >=? Fin 93)%js then Fin 4
  else if (percentage >=? Fin 90)%js then Fin 3.7
  else if (percentage >=? Fin 87)%js then Fin 3.3
  else if (percentage >=? Fin 83)%js then Fin 3
  else if (percentage >=? Fin 80)%js then Fin 2.7
  else if (percentage >=? Fin 77)%js then Fin 2.3
  else if (percentage >=? Fin 73)%js then Fin 2
  else if (percentage >=? Fin 70)%js then Fin 1.7
  else if (percentage >=? Fin 67)%js then Fin 1.3
  else if (percentage >=? Fin 60)%js then Fin 1
  else Fin 0.

(** [gradeSchema.pre('save')] as the database design documents it, complete:
    the letter grade.  The cascade starts at 93. *)
Definition designLetterGrade (percentage : Number) : string :=
  if (percentage >=? Fin 93)%js then "A"
  else if (percentage >=? Fin 90)%js then "A-"
  else if (percentage >=? Fin 87)%js then "B+"
  else if (percentage >=? Fin 83)%js then "B"
  else if (percentage >=? Fin 80)%js then "B-"
  else if (percentage >=? Fin 77)%js then "C+"
  else if (percentage >=? Fin 73)%js then "C"
  else if (percentage >=? Fin 70)%js then "C-"
  else if (percentage >=? Fin 67)%js then "D+"
  else if (percentage >=? Fin 60)%js then "D"
  else "F".

(** The same hook: the GPA. *)
Definition designGpa (percentage : Number) : Number :=
  if (percentage >=? Fin 93)%js then Fin 4
  else if (percentage >=? Fin 90)%js then Fin 3.7
  else if (percentage >=? Fin 87)%js then Fin 3.3
  else if (percentage >=? Fin 83)%js then Fin 3
  else if (percentage >=? Fin 80)%js then Fin 2.7
  else if (percentage >=? Fin 77)%js then Fin 2.3
  else if (percentage >=? Fin 73)%js then Fin 2
  else if (percentage >=? Fin 70)%js then Fin 1.7
  else if (percentage >=? Fin 67)%js then Fin 1.3
  else if (percentage >=? Fin 60)%js then Fin 1
  else Fin 0.

(** The letter cascade of [gradeSchema.pre('save')] of the backend files
    read to the letter, [// ... etc] being a comment: below 90 no branch
    assigns, and the letter stays as it is. *)
Definition gradeLetterGradeAsWritten (current : string) (percentage : Number) : string :=
  if (percentage >=? Fin 97)%js then "A+"
  else if (percentage >=? Fin 93)%js then "A"
  else if (percentage >=? Fin 90)%js then "A-"
  else current.

(** The breakpoint table as the specification words it: inclusive lower
    bounds in descending order, each with its letter and GPA point, and
    [F]/[0.0] below the last bound. *)
Definition breakpoints : list (Q * (string * Q)) :=
  [ (97, ("A+", 4)); (93, ("A", 4)); (90, ("A-", 3.7));
    (87, ("B+", 3.3)); (83, ("B", 3)); (80, ("B-", 2.7));
    (77, ("C+", 2.3)); (73, ("C", 2)); (70, ("C-", 1.7));
    (67, ("D+", 1.3)); (60, ("D", 1)) ]%Q.

Fixpoint lookupBreakpoint (table : list (Q * (string * Q))) (percentage : Number)
  : string * Number :=
  match table with
  | [] => ("F", Fin 0)
  | (bound, (letter, gpa)) :: rest =>
      if (percentage >=? Fin bound)%js then (letter, Fin gpa)
      else lookupBreakpoint rest percentage
  end.

Definition letterAndGpa (percentage : Number) : string * Number :=
  lookupBreakpoint breakpoints percentage.

End GradeTables.

(** ** Documents and storage *)

Inductive Error : Type :=
  | NotFoundError
  | DuplicateEnrollmentError
  | DuplicateSessionError
  | CourseFullError
  | CourseNotApprovedError
  | UnknownEnrollmentError
  | InvalidPointsError
  | LateSubmissionRejectedError
  | AlreadyFinalizedError
  | AlreadyTerminalError
  | NotPublishedError
  | NotEnrolledError
  | DuplicateSubmissionError
  | SubmissionsExistError
  | ReferenceError.

Inductive Result (A : Type) : Type :=
  | Ok (a : A)
  | Err (e : Error).
Arguments Ok {A} a.
Arguments Err {A} e.

Definition isOk {A} (r : Result A) : bool :=
  match r with Ok _ => true | Err _ => false end.

(** Document identifiers and timestamps. *)
Abbreviation Id := N.
Abbreviation Date := Z.

Module Course.

Record t : Type := mk {
  maxStudents : Z;
  currentEnrollment : Z;
  isApproved : bool;
  isActive : bool
}.

(** [courseSchema.virtual('isFullyEnrolled')] *)
Definition isFullyEnrolled (c : t) : bool :=
  (maxStudents c <=? currentEnrollment c)%Z.

(** [{ $inc: { currentEnrollment: n } }] *)
Definition incEnrollment (n : Z) (c : t) : t :=
  mk (maxStudents c) (currentEnrollment c + n) (isApproved c) (isActive c).

(** The decrement of a drop, which does not go below zero. *)
Definition decEnrollment (c : t) : t :=
  mk (maxStudents c) (Z.max 0 (currentEnrollment c - 1)) (isApproved c) (isActive c).

End Course.

Module Enrollment.

Inductive Status : Type := enrolled | completed | dropped | suspended.

Record Attendance : Type := mkAttendance {
  totalClasses : Z;
  attendedClasses : Z;
  attendancePercentage : Number
}.

Record t : Type := mk {
  _id : Id;
  student : Id;
  course : Id;
  enrollmentDate : Date;
  status : Status;
  attendance : Attendance;
  completionDate : option Date
}.

Definition setStatus (st : Status) (done : option Date) (e : t) : t :=
  mk (_id e) (student e) (course e) (enrollmentDate e) st (attendance e) done.

Definition setAttendance (a : Attendance) (e : t) : t :=
  mk (_id e) (student e) (course e) (enrollmentDate e) (status e) a (completionDate e).

(** [enrollmentSchema.pre('save')] of the backend files: the attendance
    percentage is recomputed whenever at least one class was held. *)
Definition preSave (e : t) : t :=
  let a := attendance e in
  if (totalClasses a >? 0)%Z then
    setAttendance
      (mkAttendance (totalClasses a) (attendedClasses a)
         (Js64.ofFloat
            (Binary64.attendancePercentage
               (Js64.ofZ (attendedClasses a)) (Js64.ofZ (totalClasses a))))) e
  else e.

(** [enrollmentSchema.pre('save')] of the database design: on every save the
    course of the enrollment must exist ('Course not found') and have a free
    seat ('Course is full'). *)
Definition courseCheck (courses : gmap Id Course.t) (e : t) : Result unit :=
  match courses !! course e with
  | None => Err NotFoundError
  | Some c => if Course.isFullyEnrolled c then Err CourseFullError else Ok tt
  end.

(** [enrollment.save()]: the document that is stored, or the error of the
    hook that throws. *)
Definition save (courses : gmap Id Course.t) (e : t) : Result t :=
  match courseCheck courses e with
  | Ok _ => Ok (preSave e)
  | Err err => Err err
  end.

(** An enrollment counts towards the seats of its course while it is
    enrolled or completed. *)
Definition occupiesSeat (e : t) : bool :=
  match status e with
  | enrolled | completed => true
  | dropped | suspended => false
  end.

End Enrollment.

Module Attendance.

Inductive Status : Type := present | absent | late | excused.

Record Entry : Type := mkEntry {
  student : Id;
  status : Status
}.

Record t : Type := mk {
  course : Id;
  date : Date;
  instructor : Id;
  students : list Entry
}.

(** [student.status === 'present' || student.status === 'late'] *)
Definition attended (st : Status) : bool :=
  match st with
  | present | late => true
  | absent | excused => false
  end.

End Attendance.

Module Assignment.

Record t : Type := mk {
  course : Id;
  totalPoints : float;
  dueDate : Date;
  isPublished : bool;
  allowLateSubmission : bool;
  latePenalty : float
}.

End Assignment.

Module Submission.

Inductive Status : Type := submitted | graded | returned | resubmitted.

Record Grade : Type := mkGrade {
  points : float;
  percentage : float;
  letterGrade : option string;
  gradedAt : Date;
  gradedBy : Id
}.

Record t : Type := mk {
  assignment : Id;
  student : Id;
  submittedAt : Date;
  isLate : bool;
  status : Status;
  grade : option Grade;
  feedback : option string
}.

Definition setGrade (g : Grade) (s : t) : t :=
  mk (assignment s) (student s) (submittedAt s) (isLate s) (status s) (Some g) (feedback s).

Definition setIsLate (late : bool) (s : t) : t :=
  mk (assignment s) (student s) (submittedAt s) late (status s) (grade s) (feedback s).

(** [submissionSchema.pre('save')] as the backend files document it: a grade
    gets the letter of its percentage from the cascade. *)
Definition letterGradeHook (s : t) : t :=
  match grade s with
  | Some g =>
      setGrade
        (mkGrade (points g) (percentage g)
           (Some (GradeTables.submissionLetterGrade (Js64.ofFloat (percentage g))))
           (gradedAt g) (gradedBy g)) s
  | None => s
  end.

(** [submissionSchema.pre('save')] as the database design documents it: the
    late flag is derived from [submittedAt] and the due date of the
    assignment, and a grade with points gets its percentage, late penalty and
    letter.  The helper [calculateLetterGrade] that the hook calls is defined
    nowhere in the sources: it is a parameter, and [None] is a call that
    throws, as the [ReferenceError] of the hook as it stands. *)
Definition lateStatusHook (calculateLetterGrade : float → option string)
    (a : Assignment.t) (s : t) : Result t :=
  let late := (submittedAt s >? Assignment.dueDate a)%Z in
  match grade s with
  | Some g =>
      if Js64.truthy (points g) then
        let percentage := Binary64.percentageOf (points g) (Assignment.totalPoints a) in
        let percentage :=
          if late && (0 <? Assignment.latePenalty a)%float
          then Binary64.penalised percentage (Assignment.latePenalty a)
          else percentage in
        match calculateLetterGrade percentage with
        | Some letter =>
            Ok (setIsLate late
                  (setGrade
                     (mkGrade (points g) (Js64.max0 percentage) (Some letter)
                        (gradedAt g) (gradedBy g)) s))
        | None => Err ReferenceError
        end
      else Ok (setIsLate late s)
  | None => Ok (setIsLate late s)
  end.

(** The documented versions of the pre-save hook of a submission. *)
Inductive Hook : Type :=
  | BackendFilesHook
  | DatabaseDesignHook (calculateLetterGrade : float → option string).

(** The pre-save hook, in the version at hand. *)
Definition preSave (hook : Hook) (a : Assignment.t) (s : t) : Result t :=
  match hook with
  | BackendFilesHook => Ok (letterGradeHook s)
  | DatabaseDesignHook calculateLetterGrade => lateStatusHook calculateLetterGrade a s
  end.

(** The schema validators of the embedded grade: [points] has [min: 0],
    [percentage] has [min: 0] and [max: 100]. *)
Definition validGrade (g : Grade) : bool :=
  (0 <=? points g)%float && (0 <=? percentage g)%float && (percentage g <=? 100)%float.

End Submission.

Module CourseGrade.

Record t : Type := mk {
  student : Id;
  course : Id;
  instructor : Id;
  percentage : Number;
  letterGrade : string;
  gpa : Number;
  isFinalized : bool
}.

(** [gradeSchema.pre('save')]: the letter grade and the GPA follow the
    percentage (which the schema defaults to 0, so it is never undefined). *)
Definition preSave (g : t) : t :=
  mk (student g) (course g) (instructor g) (percentage g)
    (GradeTables.gradeLetterGrade (percentage g))
    (GradeTables.gradeGpa (percentage g)) (isFinalized g).

(** [gradeSchema.pre('save')] as the database design documents it. *)
Definition designPreSave (g : t) : t :=
  mk (student g) (course g) (instructor g) (percentage g)
    (GradeTables.designLetterGrade (percentage g))
    (GradeTables.designGpa (percentage g)) (isFinalized g).

Definition setPercentage (p : Number) (g : t) : t :=
  mk (student g) (course g) (instructor g) p (letterGrade g) (gpa g) (isFinalized g).

Definition setFinalized (g : t) : t :=
  mk (student g) (course g) (instructor g) (percentage g) (letterGrade g) (gpa g) true.

End CourseGrade.

(** The collections, as the [storage] object of [MockModels.js] lists them.
    Courses, assignments and submissions are only ever reached through their
    [_id]; enrollments, attendance sessions and course grades are queried by
    their fields and kept in insertion order. *)
Record Storage : Type := mkStorage {
  courses : gmap Id Course.t;
  enrollments : list Enrollment.t;
  assignments : gmap Id Assignment.t;
  submissions : gmap Id Submission.t;
  grades : list CourseGrade.t;
  attendance : list Attendance.t;
  nextId : Id
}.

Definition setCourses (cs : gmap Id Course.t) (db : Storage) : Storage :=
  mkStorage cs (enrollments db) (assignments db) (submissions db) (grades db)
    (attendance db) (nextId db).

Definition setEnrollments (es : list Enrollment.t) (db : Storage) : Storage :=
  mkStorage (courses db) es (assignments db) (submissions db) (grades db)
    (attendance db) (nextId db).

Definition setAssignments (asg : gmap Id Assignment.t) (db : Storage) : Storage :=
  mkStorage (courses db) (enrollments db) asg (submissions db) (grades db)
    (attendance db) (nextId db).

Definition setSubmissions (ss : gmap Id Submission.t) (db : Storage) : Storage :=
  mkStorage (courses db) (enrollments db) (assignments db) ss (grades db)
    (attendance db) (nextId db).

Definition setGrades (gs : list CourseGrade.t) (db : Storage) : Storage :=
  mkStorage (courses db) (enrollments db) (assignments db) (submissions db) gs
    (attendance db) (nextId db).

Definition setAttendance (ss : list Attendance.t) (db : Storage) : Storage :=
  mkStorage (courses db) (enrollments db) (assignments db) (submissions db)
    (grades db) ss (nextId db).

(** A new document takes the next identifier ([this._id = nextId++]). *)
Definition freshId (db : Storage) : Id * Storage :=
  (nextId db,
   mkStorage (courses db) (enrollments db) (assignments db) (submissions db)
     (grades db) (attendance db) (nextId db + 1)%N).

Definition emptyStorage : Storage :=
  mkStorage ∅ [] ∅ ∅ [] [] 1%N.

(** ** The enrollment ledger *)

Module EnrollmentRoutes.

(** [Enrollment.findById(id)]: the first stored document with that [_id],
    with its index. *)
Definition findById (id : Id) (es : list Enrollment.t) : option (nat * Enrollment.t) :=
  list_find (λ e, Enrollment._id e = id) es.

(** A student holds a seat of a course through an enrollment that is
    enrolled or completed. *)
Definition alreadyEnrolled (studentId courseId : Id) (es : list Enrollment.t) : bool :=
  existsb
    (λ e, (Enrollment.student e =? studentId)%N && (Enrollment.course e =? courseId)%N
          && Enrollment.occupiesSeat e)
    es.

(** Modelled from the spec: the handler of [POST /api/enrollments] is not part
    of the sources.  The checks run in the order of its documented business
    logic (course exists and is approved, course is not full, student not
    already enrolled); the fullness check is the one of
    [enrollmentSchema.pre('save')] and of [isFullyEnrolled]; on success the
    enrollment document is created and the seat counter is incremented with
    [$inc]. *)
Definition enroll (now : Date) (studentId courseId : Id) (db : Storage)
  : Result Enrollment.t * Storage :=
  match courses db !! courseId with
  | None => (Err NotFoundError, db)
  | Some c =>
      if negb (Course.isApproved c && Course.isActive c) then (Err CourseNotApprovedError, db)
      else if Course.isFullyEnrolled c then (Err CourseFullError, db)
      else if alreadyEnrolled studentId courseId (enrollments db)
      then (Err DuplicateEnrollmentError, db)
      else
        let '(id, db1) := freshId db in
        let e :=
          Enrollment.mk id studentId courseId now Enrollment.enrolled
            (Enrollment.mkAttendance 0 0 (Fin 0)) None in
        let db2 := setEnrollments (enrollments db1 ++ [e]) db1 in
        let db3 := setCourses (alter (Course.incEnrollment 1) courseId (courses db2)) db2 in
        (Ok e, db3)
  end.

(** Modelled from the spec: the handler of [DELETE /api/enrollments/:id] is
    not part of the sources.  It fails on a missing enrollment and on one that
    is already completed or dropped; otherwise it sets the status to dropped,
    sets the completion date and decrements the seat counter of the course,
    not below zero. *)
Definition drop (now : Date) (enrollmentId : Id) (db : Storage)
  : Result Enrollment.t * Storage :=
  match findById enrollmentId (enrollments db) with
  | None => (Err NotFoundError, db)
  | Some (i, e) =>
      match Enrollment.status e with
      | Enrollment.completed | Enrollment.dropped => (Err AlreadyTerminalError, db)
      | Enrollment.enrolled | Enrollment.suspended =>
          let e' := Enrollment.setStatus Enrollment.dropped (Some now) e in
          let db1 := setEnrollments (<[i := e']> (enrollments db)) db in
          let db2 :=
            setCourses (alter Course.decEnrollment (Enrollment.course e) (courses db1)) db1 in
          (Ok e', db2)
      end
  end.

(** The requests of a ledger history. *)
Inductive Request : Type :=
  | Enroll (now : Date) (studentId courseId : Id)
  | Drop (now : Date) (enrollmentId : Id).

Definition handle (r : Request) (db : Storage) : Result Enrollment.t * Storage :=
  match r with
  | Enroll now studentId courseId => enroll now studentId courseId db
  | Drop now enrollmentId => drop now enrollmentId db
  end.

(** The storage after a sequence of requests, each served on the storage the
    previous one left. *)
Definition serve (rs : list Request) (db : Storage) : Storage :=
  fold_left (λ db r, snd (handle r db)) rs db.

(** The number of enrollments of a course that are enrolled or completed. *)
Definition seatsTaken (courseId : Id) (es : list Enrollment.t) : nat :=
  length
    (List.filter (λ e, (Enrollment.course e =? courseId)%N && Enrollment.occupiesSeat e) es).

(** The share of one enrollment in the seats taken of a course. *)
Definition seat (courseId : Id) (e : Enrollment.t) : nat :=
  if (Enrollment.course e =? courseId)%N && Enrollment.occupiesSeat e then 1 else 0.

(** The seat counter of every course is the number of its enrollments that
    are enrolled or completed, and lies between 0 and the capacity. *)
Definition consistent (db : Storage) : Prop :=
  ∀ (courseId : Id) (c : Course.t),
    courses db !! courseId = Some c →
    Course.currentEnrollment c = Z.of_nat (seatsTaken courseId (enrollments db))
    ∧ (0 <= Course.currentEnrollment c <= Course.maxStudents c)%Z.

(** No enrollment is suspended (the ledger itself never suspends one). *)
Definition noneSuspended (db : Storage) : Prop :=
  Forall (λ e, Enrollment.status e ≠ Enrollment.suspended) (enrollments db).

End EnrollmentRoutes.

(** ** The operations on the courses of the ledger *)

Module CourseHistory.

(** [POST /api/courses]: a new course under an identifier that is not in
    use, not approved yet, active, its seat counter at the default of 0; the
    validator of [maxStudents] is [min: 1]. *)
Definition create (courseId : Id) (maxStudents : Z) (db : Storage) : Storage :=
  match courses db !! courseId with
  | Some _ => db
  | None =>
      if (maxStudents <? 1)%Z then db
      else setCourses (<[courseId := Course.mk maxStudents 0 false true]> (courses db)) db
  end.

(** [PUT /api/courses/:id/approve]: [isApproved] is set. *)
Definition approve (courseId : Id) (db : Storage) : Storage :=
  setCourses
    (alter
       (λ c, Course.mk (Course.maxStudents c) (Course.currentEnrollment c) true
               (Course.isActive c))
       courseId (courses db))
    db.

(** [PUT /api/courses/:id], of which the sources give the rule only: a
    course cannot be updated once students are enrolled, that is, once its
    seat counter is above 0.  Of the fields here the request sets the
    capacity, which the validator [min: 1] guards. *)
Definition update (courseId : Id) (maxStudents : Z) (db : Storage) : Storage :=
  setCourses
    (alter
       (λ c, if (0 <? Course.currentEnrollment c)%Z || (maxStudents <? 1)%Z then c
             else Course.mk maxStudents (Course.currentEnrollment c)
                    (Course.isApproved c) (Course.isActive c))
       courseId (courses db))
    db.

(** [DELETE /api/courses/:id]: the soft delete sets [isActive] to false; a
    course cannot be deleted while students are enrolled. *)
Definition softDelete (courseId : Id) (db : Storage) : Storage :=
  setCourses
    (alter
       (λ c, if (0 <? Course.currentEnrollment c)%Z then c
             else Course.mk (Course.maxStudents c) (Course.currentEnrollment c)
                    (Course.isApproved c) false)
       courseId (courses db))
    db.

(** The requests that write to a course or to its enrollments. *)
Inductive Request : Type :=
  | Create (courseId : Id) (maxStudents : Z)
  | Approve (courseId : Id)
  | Update (courseId : Id) (maxStudents : Z)
  | Delete (courseId : Id)
  | Ledger (r : EnrollmentRoutes.Request).

Definition handle (r : Request) (db : Storage) : Storage :=
  match r with
  | Create courseId maxStudents => create courseId maxStudents db
  | Approve courseId => approve courseId db
  | Update courseId maxStudents => update courseId maxStudents db
  | Delete courseId => softDelete courseId db
  | Ledger r => snd (EnrollmentRoutes.handle r db)
  end.

Definition serve (rs : list Request) (db : Storage) : Storage :=
  fold_left (λ db r, handle r db) rs db.

(** Courses as they are created: no enrollment yet, the counter at its
    default of 0, and a capacity that passes the validator [min: 1]. *)
Definition newCourses (db : Storage) : Prop :=
  enrollments db = []
  ∧ map_Forall
      (λ _ c, Course.currentEnrollment c = 0%Z ∧ (1 <= Course.maxStudents c)%Z)
      (courses db).

(** A course with a student on its counter is approved and active. *)
Definition openWhenTaken (db : Storage) : Prop :=
  map_Forall
    (λ _ c,
       (1 <= Course.maxStudents c)%Z
       ∧ ((0 < Course.currentEnrollment c)%Z →
          Course.isApproved c = true ∧ Course.isActive c = true))
    (courses db).

End CourseHistory.

(** ** Attendance *)

Module AttendanceRoutes.

(** [Enrollment.findOne({ student, course })] *)
Definition findEnrollment (studentId courseId : Id) (es : list Enrollment.t)
  : option (nat * Enrollment.t) :=
  list_find (λ e, Enrollment.student e = studentId ∧ Enrollment.course e = courseId) es.

(** The body of the loop over the students of a session before
    [enrollment.save()]: the counters of the document in hand. *)
Definition marked (st : Attendance.Status) (e : Enrollment.t) : Enrollment.t :=
  let a := Enrollment.attendance e in
  let total := (Enrollment.totalClasses a + 1)%Z in
  let attended :=
    if Attendance.attended st then (Enrollment.attendedClasses a + 1)%Z
    else Enrollment.attendedClasses a in
  Enrollment.setAttendance
    (Enrollment.mkAttendance total attended (Enrollment.attendancePercentage a)) e.

(** The body of the loop, up to and including [enrollment.save()]. *)
Definition markEnrollment (courses : gmap Id Course.t) (st : Attendance.Status)
    (e : Enrollment.t) : Result Enrollment.t :=
  Enrollment.save courses (marked st e).

(** The statuses a session lists for one student, in the order of the list. *)
Definition statusesOf (studentId : Id) (entries : list Attendance.Entry)
  : list Attendance.Status :=
  map Attendance.status
    (List.filter (λ entry, (Attendance.student entry =? studentId)%N) entries).

(** [for (let student of attendanceData.students) { ... }]: the enrollments
    after the loop and the number of enrollments updated, or the error of the
    step that throws and the enrollments as they are by then: a listed
    student without an enrollment in the course ([enrollment] is [null]), or a
    save that a hook refuses. *)
Fixpoint updateEnrollments (courses : gmap Id Course.t) (courseId : Id)
    (entries : list Attendance.Entry) (es : list Enrollment.t) (updated : nat)
  : Result nat * list Enrollment.t :=
  match entries with
  | [] => (Ok updated, es)
  | entry :: rest =>
      match findEnrollment (Attendance.student entry) courseId es with
      | None => (Err UnknownEnrollmentError, es)
      | Some (i, e) =>
          match markEnrollment courses (Attendance.status entry) e with
          | Ok e' => updateEnrollments courses courseId rest (<[i := e']> es) (S updated)
          | Err err => (Err err, es)
          end
      end
  end.

(** The loop as the database design documents it:
    [Enrollment.findOneAndUpdate] with [$inc] on the counters of every listed
    student.  It runs no save hook, so the percentage stays as it is, and it
    passes over a student without an enrollment in the course. *)
Fixpoint incEnrollments (courseId : Id) (entries : list Attendance.Entry)
    (es : list Enrollment.t) : list Enrollment.t :=
  match entries with
  | [] => es
  | entry :: rest =>
      match findEnrollment (Attendance.student entry) courseId es with
      | None => incEnrollments courseId rest es
      | Some (i, e) =>
          incEnrollments courseId rest (<[i := marked (Attendance.status entry) e]> es)
      end
  end.

(** [POST /api/attendance]: one attendance document per course and date (the
    unique index), then the enrollment of every listed student is updated. *)
Definition markAttendance (instructorId courseId : Id) (date : Date)
    (students : list Attendance.Entry) (db : Storage) : Result nat * Storage :=
  if existsb (λ s, (Attendance.course s =? courseId)%N && (Attendance.date s =? date)%Z)
       (attendance db)
  then (Err DuplicateSessionError, db)
  else
    let db1 :=
      setAttendance (attendance db ++ [Attendance.mk courseId date instructorId students]) db in
    let '(r, es) := updateEnrollments (courses db1) courseId students (enrollments db1) 0 in
    (r, setEnrollments es db1).

End AttendanceRoutes.

(** ** Submissions and their grades *)

Module SubmissionRoutes.

(** The student has an enrollment in the course with status enrolled. *)
Definition enrolledIn (studentId courseId : Id) (es : list Enrollment.t) : bool :=
  existsb
    (λ e, (Enrollment.student e =? studentId)%N && (Enrollment.course e =? courseId)%N
          && match Enrollment.status e with Enrollment.enrolled => true | _ => false end)
    es.

(** A submission of the student for the assignment exists (the unique index
    on assignment and student). *)
Definition alreadySubmitted (studentId assignmentId : Id) (ss : gmap Id Submission.t)
  : bool :=
  bool_decide
    (map_Exists
       (λ _ s, Submission.assignment s = assignmentId ∧ Submission.student s = studentId)
       ss).

(** [POST /api/submissions], in the order of its process flow: the
    assignment is found, is published, the student is enrolled in its course
    (steps that the sources give in words), the late flag is set from the due
    date and a late submission is refused when the assignment does not allow
    it, and the new document is saved.  The request is handled at one time
    [now], which is the [new Date()] of the handler and the default of
    [submittedAt]. *)
Definition submit (hook : Submission.Hook) (now : Date) (studentId assignmentId : Id)
    (db : Storage) : Result (Id * Submission.t) * Storage :=
  match assignments db !! assignmentId with
  | None => (Err NotFoundError, db)
  | Some a =>
      if negb (Assignment.isPublished a) then (Err NotPublishedError, db)
      else if negb (enrolledIn studentId (Assignment.course a) (enrollments db))
      then (Err NotEnrolledError, db)
      else
        let isLate := (now >? Assignment.dueDate a)%Z in
        if isLate && negb (Assignment.allowLateSubmission a)
        then (Err LateSubmissionRejectedError, db)
        else if alreadySubmitted studentId assignmentId (submissions db)
        then (Err DuplicateSubmissionError, db)
        else
          match
            Submission.preSave hook a
              (Submission.mk assignmentId studentId now isLate Submission.submitted None None)
          with
          | Ok s =>
              let '(id, db1) := freshId db in
              (Ok (id, s), setSubmissions (<[id := s]> (submissions db1)) db1)
          | Err err => (Err err, db)
          end
  end.

(** The expression of the grading calculation: the late penalty is taken off
    the percentage of the points on a late submission of an assignment with a
    positive penalty. *)
Definition penalised (late : bool) (a : Assignment.t) (percentage : float) : float :=
  if late && (0 <? Assignment.latePenalty a)%float
  then Binary64.penalised percentage (Assignment.latePenalty a)
  else percentage.

(** [PUT /api/submissions/:id/grade]: the percentage of the points, the late
    penalty by the late flag of the submission, the grade written to the
    submission, and the save with its validators and its hook. *)
Definition gradeSubmission (hook : Submission.Hook) (now : Date)
    (instructorId submissionId : Id) (points : float) (feedback : string) (db : Storage)
  : Result Submission.t * Storage :=
  match submissions db !! submissionId with
  | None => (Err NotFoundError, db)
  | Some s =>
      match assignments db !! Submission.assignment s with
      | None => (Err NotFoundError, db)
      | Some a =>
          let percentage := Binary64.percentageOf points (Assignment.totalPoints a) in
          let finalPercentage := penalised (Submission.isLate s) a percentage in
          let g := Submission.mkGrade points finalPercentage None now instructorId in
          if negb (Submission.validGrade g) then (Err InvalidPointsError, db)
          else
            let s1 :=
              Submission.mk (Submission.assignment s) (Submission.student s)
                (Submission.submittedAt s) (Submission.isLate s) Submission.graded
                (Some g) (Some feedback) in
            match Submission.preSave hook a s1 with
            | Ok s2 => (Ok s2, setSubmissions (<[submissionId := s2]> (submissions db)) db)
            | Err err => (Err err, db)
            end
      end
  end.

(** Submissions for the assignment exist. *)
Definition hasSubmissions (assignmentId : Id) (ss : gmap Id Submission.t) : bool :=
  bool_decide (map_Exists (λ _ s, Submission.assignment s = assignmentId) ss).

(** [PUT /api/assignments/:id]: an assignment cannot be updated once
    submissions for it exist. *)
Definition updateAssignment (assignmentId : Id) (update : Assignment.t → Assignment.t)
    (db : Storage) : Result Assignment.t * Storage :=
  match assignments db !! assignmentId with
  | None => (Err NotFoundError, db)
  | Some a =>
      if hasSubmissions assignmentId (submissions db) then (Err SubmissionsExistError, db)
      else
        let a' := update a in
        (Ok a', setAssignments (<[assignmentId := a']> (assignments db)) db)
  end.

(** [POST /api/assignments]: a new assignment under an identifier that is
    not in use. *)
Definition createAssignment (assignmentId : Id) (a : Assignment.t) (db : Storage)
  : Storage :=
  match assignments db !! assignmentId with
  | Some _ => db
  | None => setAssignments (<[assignmentId := a]> (assignments db)) db
  end.

(** [DELETE /api/assignments/:id]: an assignment cannot be deleted once
    submissions for it exist. *)
Definition deleteAssignment (assignmentId : Id) (db : Storage) : Storage :=
  if hasSubmissions assignmentId (submissions db) then db
  else setAssignments (delete assignmentId (assignments db)) db.

(** [PUT /api/assignments/:id/publish]: [isPublished] is set. *)
Definition publish (assignmentId : Id) (db : Storage) : Storage :=
  setAssignments
    (alter
       (λ a, Assignment.mk (Assignment.course a) (Assignment.totalPoints a)
               (Assignment.dueDate a) true (Assignment.allowLateSubmission a)
               (Assignment.latePenalty a))
       assignmentId (assignments db))
    db.

(** The requests that write to an assignment or to a submission. *)
Inductive Request : Type :=
  | Create (assignmentId : Id) (a : Assignment.t)
  | Update (assignmentId : Id) (update : Assignment.t → Assignment.t)
  | Delete (assignmentId : Id)
  | Publish (assignmentId : Id)
  | Submit (now : Date) (studentId assignmentId : Id)
  | Grade (now : Date) (instructorId submissionId : Id) (points : float) (feedback : string).

Definition handle (hook : Submission.Hook) (r : Request) (db : Storage) : Storage :=
  match r with
  | Create assignmentId a => createAssignment assignmentId a db
  | Update assignmentId update => snd (updateAssignment assignmentId update db)
  | Delete assignmentId => deleteAssignment assignmentId db
  | Publish assignmentId => publish assignmentId db
  | Submit now studentId assignmentId => snd (submit hook now studentId assignmentId db)
  | Grade now instructorId submissionId points feedback =>
      snd (gradeSubmission hook now instructorId submissionId points feedback db)
  end.

Definition serve (hook : Submission.Hook) (rs : list Request) (db : Storage) : Storage :=
  fold_left (λ db r, handle hook r db) rs db.

(** The late flag of every stored submission is what its dates say, its
    assignment is stored, a late one is allowed to be late, and the next
    identifier is new. *)
Definition flagsAsSubmitted (db : Storage) : Prop :=
  map_Forall
    (λ id s,
       (id < nextId db)%N
       ∧ ∃ a, assignments db !! Submission.assignment s = Some a
              ∧ Submission.isLate s = (Submission.submittedAt s >? Assignment.dueDate a)%Z
              ∧ (Submission.isLate s = true → Assignment.allowLateSubmission a = true))
    (submissions db).

End SubmissionRoutes.

(** ** Course grades *)

Module GradeRoutes.

Definition findGrade (studentId courseId : Id) (gs : list CourseGrade.t)
  : option (nat * CourseGrade.t) :=
  list_find (λ g, CourseGrade.student g = studentId ∧ CourseGrade.course g = courseId) gs.

(** Modelled from the spec: the handler of [POST /api/grades] is not part of
    the sources.  It finds or creates the grade document of the student in the
    course, refuses a finalized one ([if (grade.isFinalized) ...]), and
    otherwise stores the percentage; the save derives the letter and the
    GPA. *)
Definition upsertGrade (instructorId studentId courseId : Id) (percentage : Number)
    (db : Storage) : Result CourseGrade.t * Storage :=
  match findGrade studentId courseId (grades db) with
  | Some (i, g) =>
      if CourseGrade.isFinalized g then (Err AlreadyFinalizedError, db)
      else
        let g' := CourseGrade.preSave (CourseGrade.setPercentage percentage g) in
        (Ok g', setGrades (<[i := g']> (grades db)) db)
  | None =>
      let g' :=
        CourseGrade.preSave
          (CourseGrade.mk studentId courseId instructorId percentage "I" (Fin 0) false) in
      (Ok g', setGrades (grades db ++ [g']) db)
  end.

(** Modelled from the spec: the handler of [PUT /api/grades/:id/finalize] is
    not part of the sources.  It fails when the student has no grade in the
    course or the grade is finalized already, and otherwise sets
    [isFinalized]. *)
Definition finalize (studentId courseId : Id) (db : Storage)
  : Result CourseGrade.t * Storage :=
  match findGrade studentId courseId (grades db) with
  | None => (Err NotFoundError, db)
  | Some (i, g) =>
      if CourseGrade.isFinalized g then (Err AlreadyFinalizedError, db)
      else
        let g' := CourseGrade.preSave (CourseGrade.setFinalized g) in
        (Ok g', setGrades (<[i := g']> (grades db)) db)
  end.

Inductive Request : Type :=
  | Upsert (instructorId studentId courseId : Id) (percentage : Number)
  | Finalize (studentId courseId : Id).

Definition handle (r : Request) (db : Storage) : Result CourseGrade.t * Storage :=
  match r with
  | Upsert instructorId studentId courseId percentage =>
      upsertGrade instructorId studentId courseId percentage db
  | Finalize studentId courseId => finalize studentId courseId db
  end.

Definition serve (rs : list Request) (db : Storage) : Storage :=
  fold_left (λ db r, snd (handle r db)) rs db.

(** [Grade.find({ student: studentId })] *)
Definition gradesOfStudent (studentId : Id) (gs : list CourseGrade.t) : list CourseGrade.t :=
  List.filter (λ g, (CourseGrade.student g =? studentId)%N) gs.

(** [grades.reduce((sum, grade) => sum + grade.gpa, 0)] *)
Definition totalGPA (gs : list CourseGrade.t) : float :=
  fold_left (λ sum grade, (sum + Js64.toFloat (CourseGrade.gpa grade))%float) gs 0%float.

(** [GET /api/grades/student/:studentId]: [totalGPA / grades.length] *)
Definition overallGPA (studentId : Id) (db : Storage) : float :=
  let gs := gradesOfStudent studentId (grades db) in
  (totalGPA gs / Js64.ofZ (Z.of_nat (length gs)))%float.

End GradeRoutes.


(** ** The in-memory model classes of [MockModels.js] *)

Module Mock.

(** The values that documents and queries hold.  An object (the [Date] of
    [createdAt] and [updatedAt]) is known by its reference. *)
Inductive Value : Type :=
  | VUndefined
  | VNull
  | VBool (b : bool)
  | VNum (n : Number)
  | VStr (s : string)
  | VObj (ref : N).

(** [a === b] *)
Definition strictEq (a b : Value) : bool :=
  match a, b with
  | VUndefined, VUndefined | VNull, VNull => true
  | VBool x, VBool y => Bool.eqb x y
  | VNum x, VNum y => match Js.cmp x y with Some Eq => true | _ => false end
  | VStr x, VStr y => String.eqb x y
  | VObj x, VObj y => (x =? y)%N
  | _, _ => false
  end.

(** The truthiness of a value in a condition. *)
Definition truthy (a : Value) : bool :=
  match a with
  | VUndefined | VNull => false
  | VBool b => b
  | VNum n => Js.truthy n
  | VStr s => negb (String.eqb s "")
  | VObj _ => true
  end.

(** A document is an object: its own properties by name. *)
Abbreviation Doc := (gmap string Value).

(** [item[key]]: a property that is not there reads as [undefined] (the
    properties that every object inherits are not modelled). *)
Definition get (item : Doc) (key : string) : Value :=
  default VUndefined (item !! key).

(** [Object.entries(query)] *)
Abbreviation Query := (list (string * Value)).

(** [Object.entries(query).every(([key, value]) => item[key] === value)] *)
Definition matches (query : Query) (item : Doc) : bool :=
  forallb (λ '(key, value), strictEq (get item key) value) query.

(** [static async findOne(query)]: the keys of the query are tried one after
    the other, and the first document that agrees on the key at hand is
    returned. *)
Fixpoint findOne (query : Query) (collection : list Doc) : option Doc :=
  match query with
  | [] => None
  | (key, value) :: rest =>
      match list_find (λ item, strictEq (get item key) value = true) collection with
      | Some (_, item) => Some item
      | None => findOne rest collection
      end
  end.

(** [static async findById(id)]: a string is parsed first.  [parseInt] is the
    built-in function. *)
Definition findById (parseInt : Value → Number) (id : Value) (collection : list Doc)
  : option Doc :=
  let wanted := match id with VStr _ => VNum (parseInt id) | _ => id end in
  snd <$> list_find (λ item, strictEq (get item "_id") wanted = true) collection.

(** [static async find(query = {})] *)
Definition find (query : Query) (collection : list Doc) : list Doc :=
  match query with
  | [] => collection
  | _ => List.filter (matches query) collection
  end.

(** [static async countDocuments(query = {})] *)
Definition countDocuments (query : Query) (collection : list Doc) : nat :=
  match query with
  | [] => length collection
  | _ => length (List.filter (matches query) collection)
  end.

(** [{ ...item, ...updates, updatedAt: new Date() }] *)
Definition merge (item updates : Doc) (updatedAt : Value) : Doc :=
  <["updatedAt" := updatedAt]> (updates ∪ item).

(** [static async updateOne(query, updates)]: [modifiedCount] and the
    collection. *)
Definition updateOne (query : Query) (updates : Doc) (updatedAt : Value)
    (collection : list Doc) : nat * list Doc :=
  match list_find (λ item, matches query item = true) collection with
  | Some (index, item) => (1, <[index := merge item updates updatedAt]> collection)
  | None => (0, collection)
  end.

(** [static async updateMany(query, updates)]: the [forEach] from a given
    index on; every matching document gets a [Date] of its own. *)
Fixpoint updateManyFrom (index : nat) (query : Query) (updates : Doc)
    (updatedAt : nat → Value) (collection : list Doc) : nat * list Doc :=
  match collection with
  | [] => (0, [])
  | item :: rest =>
      let '(count, rest') := updateManyFrom (S index) query updates updatedAt rest in
      if matches query item
      then (S count, merge item updates (updatedAt index) :: rest')
      else (count, item :: rest')
  end.

Definition updateMany (query : Query) (updates : Doc) (updatedAt : nat → Value)
    (collection : list Doc) : nat * list Doc :=
  updateManyFrom 0 query updates updatedAt collection.

(** [static async deleteOne(query)]: [deletedCount] and the collection. *)
Definition deleteOne (query : Query) (collection : list Doc) : nat * list Doc :=
  match list_find (λ item, matches query item = true) collection with
  | Some (index, _) => (1, delete index collection)
  | None => (0, collection)
  end.

(** The loop of [deleteMany]: [for (let i = ...; i >= 0; i--)], with [i + 1]
    as the counter. *)
Fixpoint deleteManyLoop (query : Query) (next : nat) (collection : list Doc) : list Doc :=
  match next with
  | 0 => collection
  | S i =>
      deleteManyLoop query i
        match collection !! i with
        | Some item => if matches query item then delete i collection else collection
        | None => collection
        end
  end.

(** [static async deleteMany(query)] *)
Definition deleteMany (query : Query) (collection : list Doc) : nat * list Doc :=
  let initialLength := length collection in
  let collection' := deleteManyLoop query initialLength collection in
  (initialLength - length collection', collection').

(** [collection.slice(0, -1)] *)
Fixpoint dropLast (s : string) : string :=
  match s with
  | EmptyString => EmptyString
  | String c EmptyString => EmptyString
  | String c rest => String c (dropLast rest)
  end.

(** [storage.nextId[idKey]++]: the value before the increment and the
    counters after it; a counter that is not there reads as [undefined], which
    is [NaN] as a number. *)
Definition postIncrement (idKey : string) (nextId : gmap string Number)
  : Number * gmap string Number :=
  let old := default NaN (nextId !! idKey) in
  (old, <[idKey := (old + Fin 1)%js]> nextId).

(** [async save()] of a model with the given [collectionName]: the instance,
    the collection and the counters after the call. *)
Definition save (collectionName : string) (this : Doc) (createdAt updatedAt : Value)
    (collection : list Doc) (nextId : gmap string Number)
  : Doc * list Doc * gmap string Number :=
  if truthy (get this "_id") then
    match list_find (λ item, strictEq (get item "_id") (get this "_id") = true) collection with
    | Some (index, _) => (this, <[index := this]> collection, nextId)
    | None => (this, collection, nextId)
    end
  else
    let idKey := dropLast collectionName in
    let '(id, nextId') := postIncrement idKey nextId in
    let this' :=
      <["updatedAt" := updatedAt]> (<["createdAt" := createdAt]> (<["_id" := VNum id]> this)) in
    (this', collection ++ [this'], nextId').

(** What a call gives back: a value, or the message of the error it throws. *)
Inductive Outcome (A : Type) : Type :=
  | Returned (a : A)
  | Thrown (message : string).
Arguments Returned {A} a.
Arguments Thrown {A} message.

(** [async save()] of [class User]: a password that does not start with
    ["$2"] is hashed first, and then the instance is saved as every model is.
    [hash] is [bcrypt.hash] with the salt that [bcrypt.genSalt(12)] gave; a
    password that is not a string has no [startsWith], which is a
    [TypeError]. *)
Definition userSave (hash : Value → Outcome Value) (this : Doc) (createdAt updatedAt : Value)
    (collection : list Doc) (nextId : gmap string Number)
  : Outcome (Doc * list Doc * gmap string Number) :=
  match get this "password" with
  | VStr password =>
      if String.prefix "$2" password
      then Returned (save "users" this createdAt updatedAt collection nextId)
      else
        match hash (VStr password) with
        | Returned hashed =>
            Returned
              (save "users" (<["password" := hashed]> this) createdAt updatedAt collection nextId)
        | Thrown message => Thrown message
        end
  | _ => Thrown "TypeError"
  end.

(** The requests to one model class. *)
Inductive Request : Type :=
  | Save (this : Doc) (createdAt updatedAt : Value)
  | UpdateOne (query : Query) (updates : Doc) (updatedAt : Value)
  | UpdateMany (query : Query) (updates : Doc) (updatedAt : nat → Value)
  | DeleteOne (query : Query)
  | DeleteMany (query : Query).

Definition handle (collectionName : string) (r : Request)
    (state : list Doc * gmap string Number) : list Doc * gmap string Number :=
  let '(collection, nextId) := state in
  match r with
  | Save this createdAt updatedAt =>
      let '(_, collection', nextId') :=
        save collectionName this createdAt updatedAt collection nextId in
      (collection', nextId')
  | UpdateOne query updates updatedAt =>
      (snd (updateOne query updates updatedAt collection), nextId)
  | UpdateMany query updates updatedAt =>
      (snd (updateMany query updates updatedAt collection), nextId)
  | DeleteOne query => (snd (deleteOne query collection), nextId)
  | DeleteMany query => (snd (deleteMany query collection), nextId)
  end.

Definition serve (collectionName : string) (rs : list Request)
    (state : list Doc * gmap string Number) : list Doc * gmap string Number :=
  fold_left (λ state r, handle collectionName r state) rs state.

(** The updates of a request leave [_id] alone. *)
Definition keepsId (r : Request) : Prop :=
  match r with
  | UpdateOne _ updates _ | UpdateMany _ updates _ => updates !! "_id" = None
  | _ => True
  end.

(** The [_id] of every document is a number below the bound. *)
Definition idsBelow (bound : Q) (collection : list Doc) : Prop :=
  Forall (λ d, ∃ q : Q, get d "_id" = VNum (Fin q) ∧ (q < bound)%Q) collection.

(** No two documents carry the same [_id]. *)
Fixpoint idsDistinct (collection : list Doc) : Prop :=
  match collection with
  | [] => True
  | d :: rest =>
      Forall (λ e, strictEq (get d "_id") (get e "_id") = false) rest ∧ idsDistinct rest
  end.

(** The documents of [l'] carry, place by place, the ids of [l]. *)
Definition sameIds (l l' : list Doc) : Prop :=
  Forall2 (λ d d', strictEq (get d "_id") (get d' "_id") = true) l l'.

(** The invariant of a collection and its counter: the ids are distinct
    numbers below the counter. *)
Definition wellNumbered (collectionName : string) (n : Q)
    (state : list Doc * gmap string Number) : Prop :=
  idsDistinct (fst state)
  ∧ snd state !! dropLast collectionName = Some (Fin n)
  ∧ idsBelow n (fst state).

(** The [collectionName] of the nine model classes. *)
Definition collectionNames : list string :=
  ["users"; "courses"; "enrollments"; "assignments"; "submissions"; "grades";
   "notifications"; "messages"; "attendance"].

(** [storage.nextId] as the file initialises it. *)
Definition initialNextId : gmap string Number :=
  list_to_map
    [("user", Fin 1); ("course", Fin 1); ("enrollment", Fin 1); ("assignment", Fin 1);
     ("submission", Fin 1); ("grade", Fin 1); ("notification", Fin 1); ("message", Fin 1);
     ("attendance", Fin 1)].

(** [getPublicProfile()] of the user model: [const { password, ...publicData } = this]. *)
Definition getPublicProfile (this : Doc) : Doc := delete "password" this.

End Mock.

(** ** The mock database of [mockDb.js] *)

Module MockDb.

Import Mock(Value, VUndefined, VNull, VBool, VNum, VStr, VObj).

(** The fields of [class MockDatabase] that its methods use.  The methods
    for courses, enrollments and assignments repeat those for users on their
    own arrays and counters; the ones for users are modelled. *)
Record t : Type := mk {
  users : list Mock.Doc;
  courses : list Mock.Doc;
  enrollments : list Mock.Doc;
  assignments : list Mock.Doc;
  nextUserId : Number;
  nextCourseId : Number;
  nextEnrollmentId : Number;
  nextAssignmentId : Number
}.

(** [constructor()] *)
Definition new : t := mk [] [] [] [] (Fin 1) (Fin 1) (Fin 1) (Fin 1).

Definition setUsers (us : list Mock.Doc) (db : t) : t :=
  mk us (courses db) (enrollments db) (assignments db)
    (nextUserId db) (nextCourseId db) (nextEnrollmentId db) (nextAssignmentId db).

Definition setNextUserId (n : Number) (db : t) : t :=
  mk (users db) (courses db) (enrollments db) (assignments db)
    n (nextCourseId db) (nextEnrollmentId db) (nextAssignmentId db).

(** [{ _id: id, ...data, createdAt: new Date(), updatedAt: new Date() }]: a
    property [_id] of the data comes after the one of the counter and
    replaces it. *)
Definition created (id : Number) (data : Mock.Doc) (createdAt updatedAt : Value) : Mock.Doc :=
  <["updatedAt" := updatedAt]> (<["createdAt" := createdAt]> (data ∪ {["_id" := VNum id]})).

(** [createUser(userData)] *)
Definition createUser (userData : Mock.Doc) (createdAt updatedAt : Value) (db : t)
  : Mock.Doc * t :=
  let user := created (nextUserId db) userData createdAt updatedAt in
  (user, setUsers (users db ++ [user]) (setNextUserId (nextUserId db + Fin 1)%js db)).

(** [findUserByEmail(email)] *)
Definition findUserByEmail (email : Value) (db : t) : option Mock.Doc :=
  snd <$> list_find (λ u, Mock.strictEq (Mock.get u "email") email = true) (users db).

(** [findUserById(id)]: the id always goes through [parseInt], the built-in
    function. *)
Definition findUserById (parseInt : Value → Number) (id : Value) (db : t)
  : option Mock.Doc :=
  snd <$> list_find
            (λ u, Mock.strictEq (Mock.get u "_id") (VNum (parseInt id)) = true) (users db).

(** [findAllUsers()] *)
Definition findAllUsers (db : t) : list Mock.Doc := users db.

(** [updateUser(id, updates)]: [Object.assign(user, updates, { updatedAt })]
    on the stored object, which is also what the call returns. *)
Definition updateUser (parseInt : Value → Number) (id : Value) (updates : Mock.Doc)
    (updatedAt : Value) (db : t) : option Mock.Doc * t :=
  match list_find
          (λ u, Mock.strictEq (Mock.get u "_id") (VNum (parseInt id)) = true) (users db) with
  | Some (index, user) =>
      let user' := Mock.merge user updates updatedAt in
      (Some user', setUsers (<[index := user']> (users db)) db)
  | None => (None, db)
  end.

(** [deleteUser(id)]: [this.users.filter(u => u._id !== id)] *)
Definition deleteUser (id : Value) (db : t) : t :=
  setUsers (List.filter (λ u, negb (Mock.strictEq (Mock.get u "_id") id)) (users db)) db.

(** [findOne(query)]; [undefined] and [null] are both [None]. *)
Definition findOne (parseInt : Value → Number) (query : Mock.Doc) (db : t)
  : option Mock.Doc :=
  if Mock.truthy (Mock.get query "email") then findUserByEmail (Mock.get query "email") db
  else if Mock.truthy (Mock.get query "_id") then findUserById parseInt (Mock.get query "_id") db
  else None.

(** [find(query = {})] *)
Definition find (query : Mock.Doc) (db : t) : list Mock.Doc :=
  if Mock.truthy (Mock.get query "email")
  then match findUserByEmail (Mock.get query "email") db with
       | Some user => [user]
       | None => []
       end
  else users db.

(** The data of the default admin user that the module creates when it is
    loaded. *)
Definition adminData : Mock.Doc :=
  list_to_map
    [("firstName", VStr "System"); ("lastName", VStr "Admin");
     ("email", VStr "admin@edumanage.com"); ("password", VStr "admin123");
     ("role", VStr "admin"); ("isVerified", VBool true)].

(** [mockDb] as the module exports it. *)
Definition initial (createdAt updatedAt : Value) : t :=
  snd (createUser adminData createdAt updatedAt new).

End MockDb.

(** ** The user model over the mock database, [MockUserModel.js] *)

Module MockUser.

Import Mock(Value, VUndefined, VNull, VBool, VNum, VStr, VObj, Outcome, Returned, Thrown).

(** [constructor(data)]: [this._id = this._id || mockDb.nextUserId++] *)
Definition construct (data : Mock.Doc) (db : MockDb.t) : Mock.Doc * MockDb.t :=
  if Mock.truthy (Mock.get data "_id")
  then (<["_id" := Mock.get data "_id"]> data, db)
  else (<["_id" := VNum (MockDb.nextUserId db)]> data,
        MockDb.setNextUserId (MockDb.nextUserId db + Fin 1)%js db).

(** [async save()]: the instance and the database after the call.  [hash] is
    [bcrypt.hash] with the salt that [bcrypt.genSalt(12)] gave. *)
Definition save (hash : Value → Outcome Value) (this : Mock.Doc) (createdAt updatedAt : Value)
    (db : MockDb.t) : Outcome (Mock.Doc * MockDb.t) :=
  let sameId := λ u, Mock.strictEq (Mock.get u "_id") (Mock.get this "_id") in
  if Mock.truthy (Mock.get this "_id") && existsb sameId (MockDb.users db) then
    match list_find (λ u, sameId u = true) (MockDb.users db) with
    | Some (index, _) => Returned (this, MockDb.setUsers (<[index := this]> (MockDb.users db)) db)
    | None => Returned (this, db)
    end
  else if negb (Mock.truthy (Mock.get this "password")) then Thrown "Password is required"
  else
    match hash (Mock.get this "password") with
    | Thrown message => Thrown message
    | Returned hashed =>
        let this' :=
          <["updatedAt" := updatedAt]>
            (<["createdAt" := createdAt]>
               (<["_id" := VNum (MockDb.nextUserId db)]> (<["password" := hashed]> this))) in
        Returned
          (this',
           MockDb.setUsers (MockDb.users db ++ [this'])
             (MockDb.setNextUserId (MockDb.nextUserId db + Fin 1)%js db))
    end.

(** [MockUser.findOne(query)] *)
Definition findOne (query : Mock.Doc) (db : MockDb.t) : option Mock.Doc :=
  if Mock.truthy (Mock.get query "email") then
    snd <$> list_find
              (λ u, Mock.strictEq (Mock.get u "email") (Mock.get query "email") = true)
              (MockDb.users db)
  else if Mock.truthy (Mock.get query "_id") then
    snd <$> list_find
              (λ u, Mock.strictEq (Mock.get u "_id") (Mock.get query "_id") = true)
              (MockDb.users db)
  else None.

(** [MockUser.findById(id)] *)
Definition findById (parseInt : Value → Number) (id : Value) (db : MockDb.t)
  : option Mock.Doc :=
  snd <$> list_find
            (λ u, Mock.strictEq (Mock.get u "_id") (VNum (parseInt id)) = true)
            (MockDb.users db).

(** [MockUser.find(query = {})] *)
Definition find (query : Mock.Doc) (db : MockDb.t) : list Mock.Doc :=
  if Mock.truthy (Mock.get query "role")
  then List.filter (λ u, Mock.strictEq (Mock.get u "role") (Mock.get query "role"))
         (MockDb.users db)
  else MockDb.users db.

(** [MockUser.countDocuments(query = {})] *)
Definition countDocuments (query : Mock.Doc) (db : MockDb.t) : nat :=
  if Mock.truthy (Mock.get query "role")
  then length (List.filter (λ u, Mock.strictEq (Mock.get u "role") (Mock.get query "role"))
                 (MockDb.users db))
  else length (MockDb.users db).

(** [MockUser.updateOne(query, updates)]: [modifiedCount] and the database. *)
Definition updateOne (query updates : Mock.Doc) (updatedAt : Value) (db : MockDb.t)
  : nat * MockDb.t :=
  if Mock.truthy (Mock.get query "_id") then
    match list_find
            (λ u, Mock.strictEq (Mock.get u "_id") (Mock.get query "_id") = true)
            (MockDb.users db) with
    | Some (index, user) =>
        (1, MockDb.setUsers (<[index := Mock.merge user updates updatedAt]> (MockDb.users db)) db)
    | None => (0, db)
    end
  else (0, db).

(** [MockUser.deleteOne(query)]: [deletedCount] and the database. *)
Definition deleteOne (query : Mock.Doc) (db : MockDb.t) : nat * MockDb.t :=
  if Mock.truthy (Mock.get query "_id") then
    match list_find
            (λ u, Mock.strictEq (Mock.get u "_id") (Mock.get query "_id") = true)
            (MockDb.users db) with
    | Some (index, _) => (1, MockDb.setUsers (delete index (MockDb.users db)) db)
    | None => (0, db)
    end
  else (0, db).

End MockUser.

(** ** The virtual properties of the assignment model *)

Module AssignmentVirtuals.

(** [1000 * 60 * 60 * 24] *)
Definition msPerDay : Z := 1000 * 60 * 60 * 24.

(** [Math.ceil(a / b)] for integers [a] and [b > 0], the quotient taken
    exactly. *)
Definition ceilDiv (a b : Z) : Z := (- ((- a) / b))%Z.

(** [assignmentSchema.virtual('isOverdue')]; [now] is [new Date()]. *)
Definition isOverdue (now : Date) (dueDate : option Date) : bool :=
  match dueDate with
  | Some due => (now >? due)%Z
  | None => false
  end.

(** [assignmentSchema.virtual('timeUntilDue')] *)
Definition timeUntilDue (now : Date) (dueDate : option Date) : string :=
  match dueDate with
  | None => "No due date"
  | Some due =>
      let diffTime := (due - now)%Z in
      let diffDays := ceilDiv diffTime msPerDay in
      if (diffDays <? 0)%Z then pretty (Z.abs diffDays) +:+ " days overdue"
      else if (diffDays =? 0)%Z then "Due today"
      else pretty diffDays +:+ " days remaining"
  end.

End AssignmentVirtuals.

(** ** The middleware of the routes *)

Module Middleware.

(** [req.user], as far as the middleware reads it. *)
Record User : Type := mkUser {
  _id : Id;
  role : string;
  isApproved : bool
}.

(** What a middleware does with a request: it calls [next()], answers with a
    status and a message, or throws. *)
Inductive Response : Type :=
  | Next
  | Status (code : Z) (message : string)
  | TypeError.

(** [authorize(...roles)] *)
Definition authorize (roles : list string) (user : option User) : Response :=
  match user with
  | None => Status 401 "Authentication required"
  | Some u =>
      if bool_decide (role u ∈ roles) then Next
      else Status 403 ("Access denied. Required role: " +:+ String.concat " or " roles)
  end.

(** [checkApproval] as the backend files document it; without [req.user],
    reading [req.user.isApproved] throws. *)
Definition checkApproval (user : option User) : Response :=
  match user with
  | None => TypeError
  | Some u =>
      if negb (isApproved u) && negb (String.eqb (role u) "student")
      then Status 403 "Account pending approval. Please contact administrator."
      else Next
  end.

(** [checkApproval] as the code map documents it. *)
Definition checkApprovalOfInstructors (user : option User) : Response :=
  match user with
  | None => TypeError
  | Some u =>
      if String.eqb (role u) "instructor" && negb (isApproved u)
      then Status 403 "Your instructor account is pending approval"
      else Next
  end.

(** [checkCourseOwnership]; [course] is what [Course.findById(courseId)]
    found, known by the [_id] of its instructor. *)
Definition checkCourseOwnership (course : option Id) (user : option User) : Response :=
  match course with
  | None => Status 404 "Course not found"
  | Some instructor =>
      match user with
      | None => TypeError
      | Some u =>
          if negb (instructor =? _id u)%N && negb (String.eqb (role u) "admin")
          then Status 403 "Not your course"
          else Next
      end
  end.

(** The middleware of a route run one after the other, up to the first that
    does not call [next()]. *)
Fixpoint chain (middleware : list (option User → Response)) (user : option User)
  : Response :=
  match middleware with
  | [] => Next
  | m :: rest =>
      match m user with
      | Next => chain rest user
      | response => response
      end
  end.

End Middleware.

(** ** A history of attendance sessions *)

Module AttendanceLedger.

(** The sessions are marked one after the other, each on the storage the
    previous one left, whether it succeeded or not. *)
Definition serve (sessions : list Attendance.t) (db : Storage) : Storage :=
  fold_left
    (λ db s,
       snd (AttendanceRoutes.markAttendance (Attendance.instructor s) (Attendance.course s)
              (Attendance.date s) (Attendance.students s) db))
    sessions db.

(** The attendance summary of an enrollment is in range: the classes
    attended are among the classes held, and once a class was held the
    percentage is the one of the counters, in binary64. *)
Definition inRange (e : Enrollment.t) : Prop :=
  let a := Enrollment.attendance e in
  (0 <= Enrollment.attendedClasses a <= Enrollment.totalClasses a)%Z
  ∧ ((0 < Enrollment.totalClasses a)%Z →
     Enrollment.attendancePercentage a
     = Js64.ofFloat
         (Binary64.attendancePercentage
            (Js64.ofZ (Enrollment.attendedClasses a))
            (Js64.ofZ (Enrollment.totalClasses a)))).

End AttendanceLedger.

(** * Properties *)

(** ** Numbers *)

Section NumberFacts.

Lemma geb_Fin (x y : Q) : (Fin x >=? Fin y)%js = true ↔ (y <= x)%Q.
Proof.
  unfold Js.geb, Js.cmp. destruct (x ?= y)%Q eqn:E.
  - apply Qeq_alt in E. split; [intros _; lra | done].
  - apply Qlt_alt in E. split; [done | lra].
  - apply Qgt_alt in E. split; [intros _; lra | done].
Qed.

Lemma geb_Fin_false (x y : Q) : (Fin x >=? Fin y)%js = false ↔ (x < y)%Q.
Proof.
  destruct (Fin x >=? Fin y)%js eqn:E.
  - apply geb_Fin in E. split; [done | lra].
  - split; [intros _ | done].
    destruct (Qlt_le_dec x y) as [|H]; [done |].
    apply geb_Fin in H. congruence.
Qed.

End NumberFacts.

(** ** The letter-grade tables *)

Section GradeTableFacts.

Import GradeTables.

Ltac cascade p :=
  repeat match goal with
         | |- context [(p >=? ?b)%js] => destruct (p >=? b)%js; simpl; try done
         end.

(** The two letter cascades branch on the same bounds to the same letters. *)
Lemma letter_cascades_agree (percentage : Number) :
  submissionLetterGrade percentage = gradeLetterGrade percentage.
Proof.
  unfold submissionLetterGrade, gradeLetterGrade, gradeLetterGradeBelow90.
  cascade percentage.
Qed.

(** The cascades of the course-grade hook walk the breakpoint table. *)
Lemma grade_hook_is_table_lookup (percentage : Number) :
  (gradeLetterGrade percentage, gradeGpa percentage) = letterAndGpa percentage.
Proof.
  unfold letterAndGpa, breakpoints, gradeLetterGrade, gradeLetterGradeBelow90, gradeGpa.
  simpl lookupBreakpoint. cascade percentage.
Qed.

(** C6 at its failing inputs.  The letter cascade is written out in each
    hook.  The one of the submission hook and the one of the course-grade
    hook of the backend files agree on every percentage, and the GPA is the
    same in both documented course-grade hooks; but the course-grade hook of
    the database design has no branch for "A+": from 97 percent on, and only
    there, the submission hook stores "A+" where that hook stores "A". *)
Theorem letter_tables_diverge_from_97 :
  (∀ percentage : Number,
     submissionLetterGrade percentage = gradeLetterGrade percentage
     ∧ gradeGpa percentage = designGpa percentage
     ∧ (submissionLetterGrade percentage ≠ designLetterGrade percentage
        ↔ (percentage >=? Fin 97)%js = true)
     ∧ ((percentage >=? Fin 97)%js = true →
        submissionLetterGrade percentage = "A+" ∧ designLetterGrade percentage = "A"))
  ∧ ∀ (s : Submission.t) (g : Submission.Grade) (cg : CourseGrade.t),
      Submission.grade s = Some g →
      CourseGrade.percentage cg = Js64.ofFloat (Submission.percentage g) →
      (CourseGrade.percentage cg >=? Fin 97)%js = true →
      Submission.letterGrade <$> Submission.grade (Submission.letterGradeHook s)
      = Some (Some "A+")
      ∧ CourseGrade.letterGrade (CourseGrade.preSave cg) = "A+"
      ∧ CourseGrade.letterGrade (CourseGrade.designPreSave cg) = "A".
Proof.
  assert (Hcascades : ∀ percentage : Number,
     gradeGpa percentage = designGpa percentage
     ∧ (submissionLetterGrade percentage ≠ designLetterGrade percentage
        ↔ (percentage >=? Fin 97)%js = true)
     ∧ ((percentage >=? Fin 97)%js = true →
        submissionLetterGrade percentage = "A+" ∧ designLetterGrade percentage = "A")).
  { intros percentage.
    assert (H93 : (percentage >=? Fin 97)%js = true → (percentage >=? Fin 93)%js = true).
    { destruct percentage as [q| | |]; try done.
      intros H%geb_Fin. apply geb_Fin. lra. }
    unfold gradeGpa, designGpa, submissionLetterGrade, designLetterGrade.
    destruct (percentage >=? Fin 97)%js eqn:E97.
    - rewrite (H93 eq_refl). done.
    - split; [| split; [| done]].
      + cascade percentage.
      + split; [| done]. intros Hne. destruct Hne. cascade percentage. }
  split.
  - intros percentage. split; [apply letter_cascades_agree | apply Hcascades].
  - intros s g cg Hg Hp H97. unfold Submission.letterGradeHook. rewrite Hg. simpl.
    rewrite <- Hp. destruct (Hcascades (CourseGrade.percentage cg)) as (_ & _ & Hat).
    destruct (Hat H97) as [Hplus HA].
    by rewrite <- (letter_cascades_agree (CourseGrade.percentage cg)), Hplus, HA.
Qed.

(** Read to the letter, the course-grade hook of the backend files assigns
    a letter from 90 on only: below 90 the letter stays as it is, while the
    submission hook assigns one of "B+" to "F". *)
Lemma letter_cascade_as_written (current : string) (percentage : Number) :
  ((percentage >=? Fin 90)%js = true →
   gradeLetterGradeAsWritten current percentage = submissionLetterGrade percentage)
  ∧ ((percentage >=? Fin 90)%js = false →
     gradeLetterGradeAsWritten current percentage = current
     ∧ submissionLetterGrade percentage ≠ "I").
Proof.
  assert (H90 : ∀ b : Q, (90 <= b)%Q →
            (percentage >=? Fin b)%js = true → (percentage >=? Fin 90)%js = true).
  { intros b Hb. destruct percentage as [q| | |]; try done.
    intros H%geb_Fin. apply geb_Fin. lra. }
  unfold gradeLetterGradeAsWritten, submissionLetterGrade.
  destruct (percentage >=? Fin 97)%js eqn:E97.
  { rewrite (H90 97%Q ltac:(lra) E97). by split. }
  destruct (percentage >=? Fin 93)%js eqn:E93.
  { rewrite (H90 93%Q ltac:(lra) E93). by split. }
  destruct (percentage >=? Fin 90)%js; [by split |].
  split; [done |]. intros _. split; [done |]. cascade percentage.
Qed.

(** At 98 percent. *)
Example letters_at_98 :
  let s :=
    Submission.mk 1 7 0 false Submission.graded
      (Some (Submission.mkGrade 98 98 None 0 9)) None in
  let cg := CourseGrade.mk 7 1 9 (Fin 98) "I" (Fin 0) false in
  Submission.letterGrade <$> Submission.grade (Submission.letterGradeHook s)
  = Some (Some "A+")
  ∧ CourseGrade.letterGrade (CourseGrade.designPreSave cg) = "A".
Proof. by vm_compute. Qed.

Ltac decide_bound :=
  match goal with
  | |- context [(Fin ?q >=? Fin ?b)%js] =>
      let E := fresh in
      destruct (Fin q >=? Fin b)%js eqn:E;
      [apply geb_Fin in E | apply geb_Fin_false in E]; try lra
  end.

Lemma letter_of_range (q : Q) :
  ((97 <= q)%Q → gradeLetterGrade (Fin q) = "A+" ∧ gradeGpa (Fin q) = Fin 4)
  ∧ ((93 <= q < 97)%Q → gradeLetterGrade (Fin q) = "A" ∧ gradeGpa (Fin q) = Fin 4)
  ∧ ((90 <= q < 93)%Q → gradeLetterGrade (Fin q) = "A-" ∧ gradeGpa (Fin q) = Fin 3.7)
  ∧ ((q < 60)%Q → gradeLetterGrade (Fin q) = "F" ∧ gradeGpa (Fin q) = Fin 0).
Proof.
  unfold gradeLetterGrade, gradeLetterGradeBelow90, gradeGpa.
  repeat split; intros; repeat decide_bound; done.
Qed.

(** C7, as stated, fails: 98 lies in [93,100) and its letter is "A+". *)
Lemma letter_of_98_is_not_A :
  (93 <= 98 < 100)%Q
  ∧ gradeLetterGrade (Fin 98) = "A+"
  ∧ ¬ (gradeLetterGrade (Fin 98) = "A" ∧ gradeGpa (Fin 98) = Fin 4).
Proof.
  split; [lra |]. split; [reflexivity |]. intros [H _]. vm_compute in H. discriminate H.
Qed.

(** C7, amended. Percentages in [93,97) get "A" and those in [97,100) get
    "A+", both with GPA 4.0; percentages in [0,60) get "F" with GPA 0.0; and
    93, 90 and 60 get "A"/4.0, "A-"/3.7 and "D"/1.0. *)
Theorem grade_calculator_ranges (p : Q) :
  ((93 <= p < 97)%Q → gradeLetterGrade (Fin p) = "A" ∧ gradeGpa (Fin p) = Fin 4)
  ∧ ((97 <= p < 100)%Q → gradeLetterGrade (Fin p) = "A+" ∧ gradeGpa (Fin p) = Fin 4)
  ∧ ((0 <= p < 60)%Q → gradeLetterGrade (Fin p) = "F" ∧ gradeGpa (Fin p) = Fin 0)
  ∧ (gradeLetterGrade (Fin 93), gradeGpa (Fin 93)) = ("A", Fin 4)
  ∧ (gradeLetterGrade (Fin 90), gradeGpa (Fin 90)) = ("A-", Fin 3.7)
  ∧ (gradeLetterGrade (Fin 60), gradeGpa (Fin 60)) = ("D", Fin 1).
Proof.
  destruct (letter_of_range p) as (Hplus & HA & _ & HF).
  split; [exact HA |]. split; [intros [? _]; by apply Hplus |].
  split; [intros [_ ?]; by apply HF |]. by vm_compute.
Qed.

Lemma grade_calculator_ranges_witness :
  (gradeLetterGrade (Fin 95) = "A" ∧ gradeGpa (Fin 95) = Fin 4)
  ∧ (gradeLetterGrade (Fin 59.5) = "F" ∧ gradeGpa (Fin 59.5) = Fin 0).
Proof.
  split.
  - apply (proj1 (grade_calculator_ranges 95)). split; [by vm_compute | by vm_compute].
  - apply (proj1 (proj2 (proj2 (grade_calculator_ranges 59.5)))).
    split; [by vm_compute | by vm_compute].
Defined.

End GradeTableFacts.

(** ** Finding and overwriting documents *)

Section ListFind.

Context {A : Type} (P : A → Prop) `{!∀ x, Decision (P x)}.

(** Overwriting a document with one that answers the query alike does not
    move the first match of the query. *)
Lemma list_find_insert_alike (l : list A) (j : nat) (x y : A) :
  l !! j = Some x →
  (P x ↔ P y) →
  list_find P (<[j := y]> l)
  = (λ '(k, z), (k, if decide (k = j) then y else z)) <$> list_find P l.
Proof.
  revert j. induction l as [|a l IH]; intros j Hj Hxy; [done |].
  destruct j as [|j]; simpl in *.
  - injection Hj as ->. destruct (decide (P x)), (decide (P y)); try tauto.
    destruct (list_find P l) as [[k z]|]; simpl; [|done].
    by destruct (decide (S k = 0)).
  - destruct (decide (P a)); [done |].
    rewrite (IH j Hj Hxy). destruct (list_find P l) as [[k z]|]; simpl; [|done].
    destruct (decide (k = j)), (decide (S k = S j)); try lia; done.
Qed.

Lemma list_find_insert_found (l : list A) (i : nat) (x y : A) :
  list_find P l = Some (i, x) → P y →
  list_find P (<[i := y]> l) = Some (i, y).
Proof.
  intros Hf Hy. pose proof Hf as (Hi & Hx & _)%list_find_Some.
  rewrite (list_find_insert_alike l i x y Hi); [| tauto].
  rewrite Hf. simpl. by destruct (decide (i = i)).
Qed.

Lemma list_find_insert_other (l : list A) (i j : nat) (x z y : A) :
  list_find P l = Some (i, x) → l !! j = Some z → ¬ P z → ¬ P y →
  list_find P (<[j := y]> l) = Some (i, x).
Proof.
  intros Hf Hj Hz Hy. pose proof Hf as (Hi & Hx & _)%list_find_Some.
  rewrite (list_find_insert_alike l j z y Hj); [| tauto].
  rewrite Hf. simpl. destruct (decide (i = j)) as [->|]; [|done].
  rewrite Hi in Hj. injection Hj as ->. tauto.
Qed.

Lemma list_find_app_found (l : list A) (i : nat) (x y : A) :
  list_find P l = Some (i, x) → list_find P (l ++ [y]) = Some (i, x).
Proof. apply list_find_app_l. Qed.

End ListFind.

(** ** Attendance *)

Section AttendanceFacts.

Import AttendanceRoutes.

Lemma markEnrollment_keys (st : Attendance.Status) (e : Enrollment.t) :
  Enrollment.student (Enrollment.preSave (marked st e)) = Enrollment.student e
  ∧ Enrollment.course (Enrollment.preSave (marked st e)) = Enrollment.course e.
Proof.
  unfold marked, Enrollment.preSave. simpl.
  by destruct (Enrollment.totalClasses (Enrollment.attendance e) + 1 >? 0)%Z.
Qed.

(** A save that succeeds stores the document with its counters moved and
    its percentage recomputed; it succeeds exactly when the course of the
    enrollment exists and is not full. *)
Lemma markEnrollment_saved
    (courses : gmap Id Course.t) (st : Attendance.Status) (e : Enrollment.t) :
  markEnrollment courses st e
  = match Enrollment.courseCheck courses e with
    | Ok _ => Ok (Enrollment.preSave (marked st e))
    | Err err => Err err
    end.
Proof. done. Qed.

(** One pass of the loop body: the counters move as the status says, and
    the percentage is recomputed from the new counters. *)
Lemma markEnrollment_attendance (st : Attendance.Status) (e : Enrollment.t) :
  let a := Enrollment.attendance e in
  let a' := Enrollment.attendance (Enrollment.preSave (marked st e)) in
  (0 <= Enrollment.totalClasses a)%Z →
  Enrollment.totalClasses a' = (Enrollment.totalClasses a + 1)%Z
  ∧ Enrollment.attendedClasses a'
    = (Enrollment.attendedClasses a + if Attendance.attended st then 1 else 0)%Z
  ∧ Enrollment.attendancePercentage a'
    = Js64.ofFloat
        (Binary64.attendancePercentage
           (Js64.ofZ (Enrollment.attendedClasses a')) (Js64.ofZ (Enrollment.totalClasses a'))).
Proof.
  intros a a' Hpos. subst a a'. unfold marked, Enrollment.preSave. simpl.
  destruct (Z.gtb_spec (Enrollment.totalClasses (Enrollment.attendance e) + 1) 0); [|lia].
  simpl. split; [done |]. destruct (Attendance.attended st); split; (done || lia).
Qed.

(** The loop leaves the enrollment of a student at its place, marked once
    for every entry that lists the student. *)
Lemma updateEnrollments_student
    (courses : gmap Id Course.t) (courseId studentId : Id)
    (entries : list Attendance.Entry) :
  ∀ (es es' : list Enrollment.t) (n r i : nat) (e : Enrollment.t),
    updateEnrollments courses courseId entries es n = (Ok r, es') →
    findEnrollment studentId courseId es = Some (i, e) →
    findEnrollment studentId courseId es'
    = Some (i, fold_left (λ e st, Enrollment.preSave (marked st e))
                 (statusesOf studentId entries) e).
Proof.
  induction entries as [|entry rest IH]; intros es es' n r i e Hrun Hfind; simpl in Hrun.
  - by injection Hrun as _ <-.
  - destruct (findEnrollment (Attendance.student entry) courseId es) as [[j x]|] eqn:Hj;
      [|done].
    rewrite markEnrollment_saved in Hrun.
    destruct (Enrollment.courseCheck courses x); [| done].
    pose proof Hj as (Hjx & [Hxs Hxc] & _)%list_find_Some.
    destruct (markEnrollment_keys (Attendance.status entry) x) as [Hks Hkc].
    unfold statusesOf. simpl.
    destruct (N.eqb_spec (Attendance.student entry) studentId) as [Heq|Hne]; simpl.
    + rewrite Heq in Hj. unfold findEnrollment in Hj, Hfind. rewrite Hfind in Hj.
      injection Hj as <- <-.
      apply (IH _ _ _ _ _ _ Hrun). unfold findEnrollment.
      apply (list_find_insert_found _ _ _ e); [done |]. split; congruence.
    + apply (IH _ _ _ _ _ _ Hrun). unfold findEnrollment.
      apply (list_find_insert_other _ _ _ _ _ x); [done | done | |]; intros [? _]; congruence.
Qed.

(** The loop of the database design leaves the enrollment of a student at
    its place, its counters moved once for every entry that lists the
    student. *)
Lemma incEnrollments_student (courseId studentId : Id) (entries : list Attendance.Entry) :
  ∀ (es : list Enrollment.t) (i : nat) (e : Enrollment.t),
    findEnrollment studentId courseId es = Some (i, e) →
    findEnrollment studentId courseId (incEnrollments courseId entries es)
    = Some (i, fold_left (λ e st, marked st e) (statusesOf studentId entries) e).
Proof.
  induction entries as [|entry rest IH]; intros es i e Hfind; simpl; [done |].
  destruct (findEnrollment (Attendance.student entry) courseId es) as [[j x]|] eqn:Hj.
  - pose proof Hj as (Hjx & [Hxs Hxc] & _)%list_find_Some.
    unfold statusesOf. simpl.
    destruct (N.eqb_spec (Attendance.student entry) studentId) as [Heq|Hne]; simpl.
    + rewrite Heq in Hj. unfold findEnrollment in Hj, Hfind. rewrite Hfind in Hj.
      injection Hj as <- <-.
      apply IH. unfold findEnrollment.
      apply (list_find_insert_found _ _ _ e); [done |]. split; simpl; congruence.
    + apply IH. unfold findEnrollment.
      apply (list_find_insert_other _ _ _ _ _ x); [done | done | |];
        intros [? _]; simpl in *; congruence.
  - unfold statusesOf. simpl.
    destruct (N.eqb_spec (Attendance.student entry) studentId) as [Heq|Hne]; simpl.
    + rewrite Heq in Hj. congruence.
    + by apply IH.
Qed.

(** A session that is recorded and lists a student once moves the attendance
    summary of the student's enrollment in the course. *)
Lemma session_marks_enrollment
    (db db' : Storage) (instructorId courseId studentId : Id) (date : Date)
    (students : list Attendance.Entry) (st : Attendance.Status)
    (n i : nat) (e : Enrollment.t) :
  markAttendance instructorId courseId date students db = (Ok n, db') →
  findEnrollment studentId courseId (enrollments db) = Some (i, e) →
  statusesOf studentId students = [st] →
  (0 <= Enrollment.totalClasses (Enrollment.attendance e))%Z →
  ∃ e' : Enrollment.t,
    findEnrollment studentId courseId (enrollments db') = Some (i, e')
    ∧ let a := Enrollment.attendance e in
      let a' := Enrollment.attendance e' in
      Enrollment.totalClasses a' = (Enrollment.totalClasses a + 1)%Z
      ∧ (Enrollment.attendedClasses a' = (Enrollment.attendedClasses a + 1)%Z
         ↔ st = Attendance.present ∨ st = Attendance.late)
      ∧ (Enrollment.attendedClasses a' = Enrollment.attendedClasses a
         ↔ st = Attendance.absent ∨ st = Attendance.excused)
      ∧ Enrollment.attendancePercentage a'
        = Js64.ofFloat
            (Binary64.attendancePercentage
               (Js64.ofZ (Enrollment.attendedClasses a'))
               (Js64.ofZ (Enrollment.totalClasses a')))
      ∧ (Enrollment.totalClasses a = 0%Z → Enrollment.attendedClasses a = 0%Z →
         st = Attendance.present → a' = Enrollment.mkAttendance 1 1 (Fin 100))
      ∧ (a = Enrollment.mkAttendance 1 1 (Fin 100) → st = Attendance.absent →
         a' = Enrollment.mkAttendance 2 1 (Fin 50)).
Proof.
  intros Hrun Hfind Hlisted Hpos. unfold markAttendance in Hrun.
  destruct (existsb _ (attendance db)); [done |]. simpl in Hrun.
  destruct (updateEnrollments (courses db) courseId students (enrollments db) 0)
    as [r es'] eqn:Hloop.
  injection Hrun as -> <-. simpl.
  rewrite (updateEnrollments_student _ _ _ _ _ _ _ _ _ _ Hloop Hfind), Hlisted. simpl.
  eexists; split; [done |].
  destruct (markEnrollment_attendance st e Hpos) as (Ht & Ha & Hp).
  split; [done |]. split; [| split; [| split; [done |]]].
  - rewrite Ha. destruct st; simpl; split; intros H;
      first [lia | by destruct H | by (left + right)].
  - rewrite Ha. destruct st; simpl; split; intros H;
      first [lia | by destruct H | by (left + right)].
  - split.
    + intros H0 H1 ->.
      destruct (Enrollment.attendance (Enrollment.preSave (marked Attendance.present e)))
        as [t a p].
      simpl in *. subst t a p. rewrite H0, H1. by vm_compute.
    + intros Hone ->.
      destruct (Enrollment.attendance (Enrollment.preSave (marked Attendance.absent e)))
        as [t a p].
      simpl in *. subst t a p. rewrite Hone. by vm_compute.
Qed.

(** In a course without a free seat the save of an enrollment is refused:
    no attendance can be marked there. *)
Lemma no_attendance_in_a_full_course
    (courses : gmap Id Course.t) (st : Attendance.Status) (e : Enrollment.t) (c : Course.t) :
  courses !! Enrollment.course e = Some c →
  Course.isFullyEnrolled c = true →
  markEnrollment courses st e = Err CourseFullError.
Proof.
  intros Hc Hfull. rewrite markEnrollment_saved. unfold Enrollment.courseCheck.
  by rewrite Hc, Hfull.
Qed.

(** C3 at its failing inputs.  With the loop that saves each enrollment, a
    session that is recorded and lists a student once leaves the summary as
    claimed: one more class held, one more class attended exactly when the
    status is present or late, the percentage of the new counters (in
    binary64), {1, 1, 100} after a present session from 0 classes and
    {2, 1, 50} after an absent one from there.  But the session is not
    recorded for every enrollment: in a course without a free seat the save
    of the first listed enrollment is refused with 'Course is full', the
    call fails with the attendance document stored and no summary moved.
    And the loop of the database design moves the counters with [$inc] and
    leaves the percentage as it was. *)
Theorem attendance_after_session :
  (∀ (db db' : Storage) (instructorId courseId studentId : Id) (date : Date)
     (students : list Attendance.Entry) (st : Attendance.Status)
     (n i : nat) (e : Enrollment.t),
      markAttendance instructorId courseId date students db = (Ok n, db') →
      findEnrollment studentId courseId (enrollments db) = Some (i, e) →
      statusesOf studentId students = [st] →
      (0 <= Enrollment.totalClasses (Enrollment.attendance e))%Z →
      ∃ e' : Enrollment.t,
        findEnrollment studentId courseId (enrollments db') = Some (i, e')
        ∧ let a := Enrollment.attendance e in
          let a' := Enrollment.attendance e' in
          Enrollment.totalClasses a' = (Enrollment.totalClasses a + 1)%Z
          ∧ (Enrollment.attendedClasses a' = (Enrollment.attendedClasses a + 1)%Z
             ↔ st = Attendance.present ∨ st = Attendance.late)
          ∧ (Enrollment.attendedClasses a' = Enrollment.attendedClasses a
             ↔ st = Attendance.absent ∨ st = Attendance.excused)
          ∧ Enrollment.attendancePercentage a'
            = Js64.ofFloat
                (Binary64.attendancePercentage
                   (Js64.ofZ (Enrollment.attendedClasses a'))
                   (Js64.ofZ (Enrollment.totalClasses a')))
          ∧ (Enrollment.totalClasses a = 0%Z → Enrollment.attendedClasses a = 0%Z →
             st = Attendance.present → a' = Enrollment.mkAttendance 1 1 (Fin 100))
          ∧ (a = Enrollment.mkAttendance 1 1 (Fin 100) → st = Attendance.absent →
             a' = Enrollment.mkAttendance 2 1 (Fin 50)))
  ∧ (∀ (db : Storage) (instructorId courseId : Id) (date : Date)
       (entry : Attendance.Entry) (rest : list Attendance.Entry)
       (i : nat) (e : Enrollment.t) (c : Course.t),
      existsb (λ s, (Attendance.course s =? courseId)%N && (Attendance.date s =? date)%Z)
        (attendance db) = false →
      findEnrollment (Attendance.student entry) courseId (enrollments db) = Some (i, e) →
      courses db !! courseId = Some c →
      Course.isFullyEnrolled c = true →
      markAttendance instructorId courseId date (entry :: rest) db
      = (Err CourseFullError,
         setAttendance
           (attendance db ++ [Attendance.mk courseId date instructorId (entry :: rest)])
           db))
  ∧ (∀ (courseId studentId : Id) (students : list Attendance.Entry)
       (es : list Enrollment.t) (st : Attendance.Status) (i : nat) (e : Enrollment.t),
      findEnrollment studentId courseId es = Some (i, e) →
      statusesOf studentId students = [st] →
      ∃ e' : Enrollment.t,
        findEnrollment studentId courseId (incEnrollments courseId students es)
        = Some (i, e')
        ∧ Enrollment.attendance e'
          = Enrollment.mkAttendance
              (Enrollment.totalClasses (Enrollment.attendance e) + 1)
              (Enrollment.attendedClasses (Enrollment.attendance e)
               + if Attendance.attended st then 1 else 0)
              (Enrollment.attendancePercentage (Enrollment.attendance e))).
Proof.
  split; [| split].
  - intros db db' instructorId courseId studentId date students st n i e.
    apply session_marks_enrollment.
  - intros db instructorId courseId date entry rest i e c Hnew Hfind Hc Hfull.
    unfold markAttendance. rewrite Hnew. simpl. rewrite Hfind.
    pose proof Hfind as (_ & [_ Hcourse] & _)%list_find_Some.
    rewrite (no_attendance_in_a_full_course (courses db) _ e c); [done | | done].
    by rewrite Hcourse.
  - intros courseId studentId students es st i e Hfind Hlisted.
    rewrite (incEnrollments_student _ _ _ _ _ _ Hfind), Hlisted. simpl.
    eexists; split; [done |]. unfold marked. simpl.
    destruct (Attendance.attended st); simpl; [done |]. by rewrite Z.add_0_r.
Qed.

(** Two sessions for one enrollment that starts at 0 classes, in a course
    with free seats: the student is present at the first and absent at the
    second. *)
Example present_then_absent :
  let e0 := Enrollment.mk 1 7 1 0 Enrollment.enrolled (Enrollment.mkAttendance 0 0 (Fin 0)) None in
  let db0 :=
    setEnrollments [e0] (setCourses {[1%N := Course.mk 30 1 true true]} emptyStorage) in
  let db1 := snd (markAttendance 9 1 100 [Attendance.mkEntry 7 Attendance.present] db0) in
  let db2 := snd (markAttendance 9 1 101 [Attendance.mkEntry 7 Attendance.absent] db1) in
  ∃ e1 e2 : Enrollment.t,
    findEnrollment 7 1 (enrollments db1) = Some (0, e1)
    ∧ Enrollment.attendance e1 = Enrollment.mkAttendance 1 1 (Fin 100)
    ∧ findEnrollment 7 1 (enrollments db2) = Some (0, e2)
    ∧ Enrollment.attendance e2 = Enrollment.mkAttendance 2 1 (Fin 50).
Proof.
  intros e0 db0 db1 db2.
  destruct (session_marks_enrollment db0 db1 9 1 7 100
              [Attendance.mkEntry 7 Attendance.present] Attendance.present 1 0 e0
              eq_refl eq_refl eq_refl ltac:(simpl; lia))
    as (e1 & Hf1 & _ & _ & _ & _ & H100 & _).
  assert (Ha1 : Enrollment.attendance e1 = Enrollment.mkAttendance 1 1 (Fin 100))
    by (apply H100; reflexivity).
  destruct (session_marks_enrollment db1 db2 9 1 7 101
              [Attendance.mkEntry 7 Attendance.absent] Attendance.absent 1 0 e1
              eq_refl Hf1 eq_refl ltac:(rewrite Ha1; simpl; lia))
    as (e2 & Hf2 & _ & _ & _ & _ & _ & H50).
  exists e1, e2. repeat split; [exact Hf1 | exact Ha1 | exact Hf2 | by apply H50].
Qed.

(** The failing inputs.  A course with one seat; a student enrolls, which
    fills the course; the student is then marked present.  With the loop that
    saves, the call fails and the summary stays {0, 0, 0}; with the loop of
    the database design the summary is {1, 1, 0}. *)
Example attendance_in_a_course_of_one :
  let db0 := setCourses {[1%N := Course.mk 1 0 true true]} emptyStorage in
  let db := snd (EnrollmentRoutes.enroll 0 7 1 db0) in
  let students := [Attendance.mkEntry 7 Attendance.present] in
  let '(r, db') := markAttendance 9 1 100 students db in
  (Course.currentEnrollment <$> courses db !! 1%N) = Some 1%Z
  ∧ Enrollment.attendance <$> enrollments db = [Enrollment.mkAttendance 0 0 (Fin 0)]
  ∧ r = Err CourseFullError
  ∧ length (attendance db') = 1
  ∧ Enrollment.attendance <$> enrollments db' = [Enrollment.mkAttendance 0 0 (Fin 0)]
  ∧ Enrollment.attendance <$> incEnrollments 1 students (enrollments db)
    = [Enrollment.mkAttendance 1 1 (Fin 0)].
Proof. by vm_compute. Qed.

(** One class attended of three held: the percentage is the binary64
    quotient, not the rational 100/3. *)
Example one_class_of_three :
  Js64.ofFloat (Binary64.attendancePercentage (Js64.ofZ 1) (Js64.ofZ 3))
  = Fin (2345624805922133 # 70368744177664)
  ∧ ¬ (2345624805922133 # 70368744177664 == 100 / 3)%Q.
Proof. split; [by vm_compute | by vm_compute]. Qed.

End AttendanceFacts.

(** ** The enrollment ledger *)

Section EnrollmentFacts.

Import EnrollmentRoutes.

Lemma seatsTaken_cons (courseId : Id) (e : Enrollment.t) (es : list Enrollment.t) :
  seatsTaken courseId (e :: es) = seat courseId e + seatsTaken courseId es.
Proof.
  unfold seatsTaken, seat. simpl.
  by destruct ((Enrollment.course e =? courseId)%N && Enrollment.occupiesSeat e).
Qed.

Lemma seatsTaken_app (courseId : Id) (es : list Enrollment.t) (e : Enrollment.t) :
  seatsTaken courseId (es ++ [e]) = seatsTaken courseId es + seat courseId e.
Proof.
  induction es as [|x es IH]; simpl.
  - rewrite seatsTaken_cons. unfold seatsTaken. simpl. lia.
  - rewrite !seatsTaken_cons, IH. lia.
Qed.

(** Overwriting the document at an index exchanges its seat for the seat of
    the new document. *)
Lemma seatsTaken_insert (courseId : Id) (es : list Enrollment.t) (i : nat)
    (x y : Enrollment.t) :
  es !! i = Some x →
  seatsTaken courseId (<[i := y]> es) + seat courseId x
  = seatsTaken courseId es + seat courseId y.
Proof.
  revert i. induction es as [|a es IH]; intros i Hi; [done |].
  destruct i as [|i]; simpl in *.
  - injection Hi as ->. rewrite !seatsTaken_cons. lia.
  - rewrite !seatsTaken_cons. specialize (IH i Hi). lia.
Qed.

Lemma enroll_consistent (now : Date) (studentId courseId : Id) (db : Storage) :
  consistent db → consistent (snd (enroll now studentId courseId db)).
Proof.
  intros Hdb. unfold enroll.
  destruct (courses db !! courseId) as [c|] eqn:Hc; [|done].
  destruct (negb _); [done |].
  destruct (Course.isFullyEnrolled c) eqn:Hfull; [done |].
  destruct (alreadyEnrolled _ _ _); [done |].
  simpl. intros cid c'. simpl. rewrite lookup_alter, seatsTaken_app.
  unfold seat. simpl. destruct (Hdb _ _ Hc) as [Hcount Hbound].
  unfold Course.isFullyEnrolled in Hfull. apply Z.leb_gt in Hfull.
  destruct (decide (courseId = cid)) as [<-|Hne].
  - rewrite Hc, N.eqb_refl. simpl. intros [= <-]. simpl. lia.
  - intros Hc'. destruct (N.eqb_spec courseId cid); [done |]. simpl.
    destruct (Hdb _ _ Hc'). lia.
Qed.

Lemma enroll_noneSuspended (now : Date) (studentId courseId : Id) (db : Storage) :
  noneSuspended db → noneSuspended (snd (enroll now studentId courseId db)).
Proof.
  intros Hdb. unfold enroll.
  destruct (courses db !! courseId) as [c|]; [|done].
  destruct (negb _); [done |]. destruct (Course.isFullyEnrolled c); [done |].
  destruct (alreadyEnrolled _ _ _); [done |].
  unfold noneSuspended. simpl. apply Forall_app. split; [done |].
  by apply Forall_singleton.
Qed.

(** An enrollment that holds a seat is counted among the seats taken. *)
Lemma seatsTaken_positive (es : list Enrollment.t) (i : nat) (e : Enrollment.t) :
  es !! i = Some e → Enrollment.occupiesSeat e = true →
  1 ≤ seatsTaken (Enrollment.course e) es.
Proof.
  revert i. induction es as [|a es IH]; intros i Hi Hocc; [done |].
  rewrite seatsTaken_cons. destruct i as [|i]; simpl in Hi.
  - injection Hi as ->. unfold seat. rewrite N.eqb_refl, Hocc. simpl. lia.
  - specialize (IH i Hi Hocc). lia.
Qed.

Lemma drop_consistent (now : Date) (enrollmentId : Id) (db : Storage) :
  consistent db → noneSuspended db → consistent (snd (drop now enrollmentId db)).
Proof.
  intros Hdb Hsus. unfold drop.
  destruct (findById enrollmentId (enrollments db)) as [[i e]|] eqn:Hfind; [|done].
  apply list_find_Some in Hfind as (Hi & _ & _).
  assert (Hne : Enrollment.status e ≠ Enrollment.suspended).
  { unfold noneSuspended in Hsus. rewrite Forall_lookup in Hsus. by apply (Hsus i). }
  destruct (Enrollment.status e) eqn:Hst; [| done | done | done].
  simpl. intros cid c'. simpl. rewrite lookup_alter.
  pose proof (seatsTaken_insert cid _ i e
                (Enrollment.setStatus Enrollment.dropped (Some now) e) Hi) as Hcount.
  unfold seat, Enrollment.occupiesSeat in Hcount. simpl in Hcount.
  rewrite Hst, andb_true_r, andb_false_r in Hcount.
  destruct (decide (Enrollment.course e = cid)) as [<-|Hother].
  - destruct (courses db !! Enrollment.course e) as [c|] eqn:Hc; [|done].
    intros [= <-]. simpl. destruct (Hdb _ _ Hc) as [Hcur Hbound].
    rewrite N.eqb_refl in Hcount.
    assert (1 ≤ seatsTaken (Enrollment.course e) (enrollments db)).
    { apply (seatsTaken_positive _ i); [done |]. unfold Enrollment.occupiesSeat.
      by rewrite Hst. }
    lia.
  - intros Hc'. destruct (N.eqb_spec (Enrollment.course e) cid); [done |].
    destruct (Hdb _ _ Hc'). split; [|done]. lia.
Qed.

Lemma drop_noneSuspended (now : Date) (enrollmentId : Id) (db : Storage) :
  noneSuspended db → noneSuspended (snd (drop now enrollmentId db)).
Proof.
  intros Hdb. unfold drop.
  destruct (findById enrollmentId (enrollments db)) as [[i e]|]; [|done].
  destruct (Enrollment.status e); try done;
    unfold noneSuspended; simpl; by apply Forall_insert.
Qed.

Lemma serve_consistent (requests : list Request) :
  ∀ db : Storage,
    consistent db → noneSuspended db →
    consistent (serve requests db) ∧ noneSuspended (serve requests db).
Proof.
  induction requests as [|r rs IH]; intros db Hc Hs; [done |].
  unfold serve. simpl. apply IH; destruct r; simpl;
    auto using enroll_consistent, enroll_noneSuspended, drop_consistent, drop_noneSuspended.
Qed.

(** C1. From a storage whose seat counters are right and in which no
    enrollment is suspended, after every request of any sequence of enroll and
    drop requests the seat counter of every course is the number of its
    enrollments that are enrolled or completed, and lies between 0 and the
    capacity of the course. *)
Theorem seat_counter_invariant (db : Storage) (requests : list Request) (k : nat) :
  consistent db →
  noneSuspended db →
  let db' := serve (take k requests) db in
  ∀ (courseId : Id) (c : Course.t),
    courses db' !! courseId = Some c →
    Course.currentEnrollment c = Z.of_nat (seatsTaken courseId (enrollments db'))
    ∧ (0 <= Course.currentEnrollment c <= Course.maxStudents c)%Z.
Proof.
  intros Hc Hs db'. by destruct (serve_consistent (take k requests) db Hc Hs).
Qed.

(** A storage of new courses, none with an enrollment, is consistent. *)
Lemma new_courses_consistent (cs : gmap Id Course.t) :
  map_Forall (λ _ c, Course.currentEnrollment c = 0%Z ∧ (0 <= Course.maxStudents c)%Z) cs →
  consistent (setCourses cs emptyStorage) ∧ noneSuspended (setCourses cs emptyStorage).
Proof.
  intros Hcs. split; [|by apply Forall_nil].
  intros cid c Hc. simpl in Hc. destruct (Hcs _ _ Hc) as [-> ?].
  unfold seatsTaken. simpl. lia.
Qed.

(** In particular, from new courses without enrollments. *)
Lemma seat_counter_from_new_courses
    (cs : gmap Id Course.t) (requests : list Request) :
  map_Forall (λ _ c, Course.currentEnrollment c = 0%Z ∧ (0 <= Course.maxStudents c)%Z) cs →
  consistent (serve requests (setCourses cs emptyStorage)).
Proof.
  intros [Hc Hs]%new_courses_consistent. by destruct (serve_consistent requests _ Hc Hs).
Qed.

(** A course with one seat: a first student enrolls, a second is turned away,
    the first drops, and the second enrolls. *)
Lemma seat_counter_invariant_witness :
  let db := setCourses {[1%N := Course.mk 1 0 true true]} emptyStorage in
  let requests := [Enroll 0 7 1; Enroll 1 8 1; Drop 2 1; Enroll 3 8 1] in
  let db' := serve (take 4 requests) db in
  ∃ c : Course.t,
    courses db' !! 1%N = Some c
    ∧ Course.currentEnrollment c = Z.of_nat (seatsTaken 1 (enrollments db'))
    ∧ (0 <= Course.currentEnrollment c <= Course.maxStudents c)%Z.
Proof.
  intros db requests db'.
  assert (Hnew : consistent db ∧ noneSuspended db).
  { apply new_courses_consistent, map_Forall_singleton. simpl. lia. }
  exists (Course.mk 1 1 true true). split; [reflexivity |].
  apply (seat_counter_invariant db requests 4 (proj1 Hnew) (proj2 Hnew) 1%N).
  reflexivity.
Defined.

(** The end-to-end scenario of that course, request by request. *)
Example one_seat_course :
  let db0 := setCourses {[1%N := Course.mk 1 0 true true]} emptyStorage in
  let '(r1, db1) := enroll 0 7 1 db0 in
  let '(r2, db2) := enroll 1 8 1 db1 in
  let '(r3, db3) := drop 2 1 db2 in
  let '(r4, db4) := enroll 3 8 1 db3 in
  isOk r1 = true
  ∧ Course.currentEnrollment <$> courses db1 !! 1%N = Some 1%Z
  ∧ r2 = Err CourseFullError
  ∧ isOk r3 = true
  ∧ Course.currentEnrollment <$> courses db3 !! 1%N = Some 0%Z
  ∧ isOk r4 = true
  ∧ Course.currentEnrollment <$> courses db4 !! 1%N = Some 1%Z.
Proof. by vm_compute. Qed.

(** A course with a student on its counter is approved and active: the
    ledger admits students to such courses only, and nothing withdraws an
    approval. *)
Lemma newCourses_openWhenTaken (db : Storage) :
  CourseHistory.newCourses db → CourseHistory.openWhenTaken db.
Proof.
  intros [_ Hnew] courseId c Hc. destruct (Hnew courseId c Hc) as [Hzero Hmax].
  split; [done |]. simpl in *. lia.
Qed.

Lemma handle_openWhenTaken (r : CourseHistory.Request) (db : Storage) :
  CourseHistory.openWhenTaken db → CourseHistory.openWhenTaken (CourseHistory.handle r db).
Proof.
  intros Hdb.
  destruct r as [courseId maxStudents | courseId | courseId maxStudents | courseId
                | [now studentId courseId | now enrollmentId]]; simpl.
  - unfold CourseHistory.create.
    destruct (courses db !! courseId) as [c|] eqn:Hc; [done |].
    destruct (Z.ltb_spec maxStudents 1); [done |].
    apply map_Forall_insert_2; [| done]. simpl. split; [done |]. lia.
  - unfold CourseHistory.approve. intros cid c'. simpl. rewrite lookup_alter.
    destruct (decide (courseId = cid)) as [<-|Hne]; [| by apply Hdb].
    destruct (courses db !! courseId) as [c|] eqn:Hc; [| done]. intros [= <-]. simpl.
    destruct (Hdb _ _ Hc) as [Hmax Hopen]. split; [done |]. intros Htaken.
    by destruct (Hopen Htaken) as [_ ->].
  - unfold CourseHistory.update. intros cid c'. simpl. rewrite lookup_alter.
    destruct (decide (courseId = cid)) as [<-|Hne]; [| by apply Hdb].
    destruct (courses db !! courseId) as [c|] eqn:Hc; [| done]. intros [= <-].
    destruct (Z.ltb_spec 0 (Course.currentEnrollment c)); simpl; [by apply (Hdb _ _ Hc) |].
    destruct (Z.ltb_spec maxStudents 1); simpl; [by apply (Hdb _ _ Hc) |].
    split; [done |]. lia.
  - unfold CourseHistory.softDelete. intros cid c'. simpl. rewrite lookup_alter.
    destruct (decide (courseId = cid)) as [<-|Hne]; [| by apply Hdb].
    destruct (courses db !! courseId) as [c|] eqn:Hc; [| done]. intros [= <-].
    destruct (Z.ltb_spec 0 (Course.currentEnrollment c)); simpl; [by apply (Hdb _ _ Hc) |].
    destruct (Hdb _ _ Hc) as [Hmax _]. split; [done |]. lia.
  - unfold enroll.
    destruct (courses db !! courseId) as [c|] eqn:Hc; [| done].
    destruct (Course.isApproved c && Course.isActive c) eqn:Hflags; simpl; [| done].
    destruct (Course.isFullyEnrolled c); [done |].
    destruct (alreadyEnrolled _ _ _); [done |].
    simpl. intros cid c'. simpl. rewrite lookup_alter.
    destruct (decide (courseId = cid)) as [<-|Hne]; [| by apply Hdb].
    rewrite Hc. intros [= <-]. simpl. destruct (Hdb _ _ Hc) as [Hmax _].
    split; [done |]. intros _. by apply andb_prop in Hflags.
  - unfold drop.
    destruct (findById enrollmentId (enrollments db)) as [[i e]|]; [| done].
    assert (Hdropped :
      CourseHistory.openWhenTaken
        (setCourses (alter Course.decEnrollment (Enrollment.course e) (courses db))
           (setEnrollments
              (<[i := Enrollment.setStatus Enrollment.dropped (Some now) e]> (enrollments db))
              db))).
    { intros cid c'. simpl. rewrite lookup_alter.
      destruct (decide (Enrollment.course e = cid)) as [<-|Hne]; [| by apply Hdb].
      destruct (courses db !! Enrollment.course e) as [c|] eqn:Hc; [| done].
      intros [= <-]. simpl. destruct (Hdb _ _ Hc) as [Hmax Hopen]. split; [done |].
      intros Htaken. apply Hopen. lia. }
    by destruct (Enrollment.status e).
Qed.

Lemma serve_openWhenTaken (requests : list CourseHistory.Request) :
  ∀ db : Storage,
    CourseHistory.openWhenTaken db →
    CourseHistory.openWhenTaken (CourseHistory.serve requests db).
Proof.
  induction requests as [|r rs IH]; intros db Hdb; [done |].
  simpl. by apply IH, handle_openWhenTaken.
Qed.

(** C2. After any creations, approvals, updates and deletions of courses
    and any enrollments and drops, on courses that were new, enrolling into a
    course whose seat counter equals its capacity fails with CourseFullError
    and leaves the storage as it was: no enrollment is created and the
    counter is not incremented.  The pre-save hook of the enrollment refuses
    the document of a full course as well, whatever the flags of the
    course. *)
Theorem enroll_full_course
    (db0 : Storage) (requests : list CourseHistory.Request)
    (now : Date) (studentId courseId : Id) (c : Course.t) :
  CourseHistory.newCourses db0 →
  let db := CourseHistory.serve requests db0 in
  courses db !! courseId = Some c →
  Course.currentEnrollment c = Course.maxStudents c →
  enroll now studentId courseId db = (Err CourseFullError, db)
  ∧ ∀ e : Enrollment.t,
      Enrollment.course e = courseId →
      Enrollment.save (courses db) e = Err CourseFullError.
Proof.
  intros Hnew db Hc Hfull.
  assert (Hfully : Course.isFullyEnrolled c = true).
  { unfold Course.isFullyEnrolled. rewrite Hfull. apply Z.leb_refl. }
  pose proof (serve_openWhenTaken requests db0 (newCourses_openWhenTaken db0 Hnew))
    as Hopen.
  fold db in Hopen. destruct (Hopen courseId c Hc) as [Hmax Hflags].
  destruct Hflags as [Happroved Hactive]; [simpl in *; lia |]. split.
  - unfold enroll. by rewrite Hc, Happroved, Hactive, Hfully.
  - intros e He. unfold Enrollment.save, Enrollment.courseCheck. by rewrite He, Hc, Hfully.
Qed.

(** A course with one seat is created, approved and taken by a first
    student; a second student is turned away. *)
Lemma enroll_full_course_witness :
  let db0 := setCourses {[1%N := Course.mk 1 0 false true]} emptyStorage in
  let requests := [CourseHistory.Approve 1; CourseHistory.Ledger (Enroll 0 7 1)] in
  let db := CourseHistory.serve requests db0 in
  Course.currentEnrollment <$> courses db !! 1%N = Some 1%Z
  ∧ enroll 1 8 1 db = (Err CourseFullError, db).
Proof.
  intros db0 requests db. split; [reflexivity |].
  refine (proj1 (enroll_full_course db0 requests 1 8 1 (Course.mk 1 1 true true)
                   _ eq_refl eq_refl)).
  split; [reflexivity |]. apply map_Forall_singleton. simpl. lia.
Defined.

End EnrollmentFacts.

(** ** Grading a submission *)

Section SubmissionFacts.

Import SubmissionRoutes.

(** A hook refuses a save with a ReferenceError or not at all. *)
Lemma preSave_error (hook : Submission.Hook) (a : Assignment.t) (s : Submission.t)
    (err : Error) :
  Submission.preSave hook a s = Err err → err = ReferenceError.
Proof.
  destruct hook as [|f]; simpl; [done |]. unfold Submission.lateStatusHook.
  destruct (Submission.grade s) as [g|]; [| done].
  destruct (Js64.truthy _); [| done]. destruct (f _); [done |]. by intros [= <-].
Qed.

(** A save leaves the assignment, the student and the time of a submission,
    and its late flag too when the flag is what the dates say. *)
Lemma preSave_keeps (hook : Submission.Hook) (a : Assignment.t) (s s' : Submission.t) :
  Submission.preSave hook a s = Ok s' →
  Submission.assignment s' = Submission.assignment s
  ∧ Submission.student s' = Submission.student s
  ∧ Submission.submittedAt s' = Submission.submittedAt s
  ∧ (Submission.isLate s = (Submission.submittedAt s >? Assignment.dueDate a)%Z →
     Submission.isLate s' = Submission.isLate s).
Proof.
  destruct hook as [|f]; simpl.
  - intros [= <-]. unfold Submission.letterGradeHook.
    by destruct (Submission.grade s).
  - unfold Submission.lateStatusHook. destruct (Submission.grade s) as [g|].
    + destruct (Js64.truthy _).
      * destruct (f _); [| done]. by intros [= <-].
      * by intros [= <-].
    + by intros [= <-].
Qed.

(** The hooks leave a new submission, which has no grade, as it is. *)
Lemma preSave_new (hook : Submission.Hook) (a : Assignment.t)
    (now : Date) (studentId assignmentId : Id) :
  let s :=
    Submission.mk assignmentId studentId now (now >? Assignment.dueDate a)%Z
      Submission.submitted None None in
  Submission.preSave hook a s = Ok s.
Proof. by destruct hook. Qed.

(** The handler, step by step. *)
Lemma gradeSubmission_steps
    (hook : Submission.Hook) (now : Date) (instructorId submissionId : Id)
    (points : float) (feedback : string) (db : Storage)
    (s : Submission.t) (a : Assignment.t) :
  submissions db !! submissionId = Some s →
  assignments db !! Submission.assignment s = Some a →
  let raw := Binary64.percentageOf points (Assignment.totalPoints a) in
  let g :=
    Submission.mkGrade points (penalised (Submission.isLate s) a raw) None now instructorId in
  let s1 :=
    Submission.mk (Submission.assignment s) (Submission.student s)
      (Submission.submittedAt s) (Submission.isLate s) Submission.graded
      (Some g) (Some feedback) in
  gradeSubmission hook now instructorId submissionId points feedback db
  = if Submission.validGrade g then
      match Submission.preSave hook a s1 with
      | Ok s2 => (Ok s2, setSubmissions (<[submissionId := s2]> (submissions db)) db)
      | Err err => (Err err, db)
      end
    else (Err InvalidPointsError, db).
Proof.
  intros Hs Ha raw g s1. unfold gradeSubmission. rewrite Hs, Ha. fold raw g s1.
  by destruct (Submission.validGrade g).
Qed.

(** With the hook as it stands in the database design, whose helper is not
    defined, no grade with points other than 0 is ever stored. *)
Lemma grading_fails_with_the_hook_as_it_stands
    (now : Date) (instructorId submissionId : Id) (points : float) (feedback : string)
    (db : Storage) :
  Js64.truthy points = true →
  snd (gradeSubmission (Submission.DatabaseDesignHook (λ _, None)) now instructorId
         submissionId points feedback db)
  = db.
Proof.
  intros Htruthy. unfold gradeSubmission.
  destruct (submissions db !! submissionId) as [s|]; [| done].
  destruct (assignments db !! Submission.assignment s) as [a|]; [| done].
  destruct (negb _); [done |]. simpl. unfold Submission.lateStatusHook. simpl.
  by rewrite Htruthy.
Qed.

(** C4. Grading a late submission of an assignment with a late penalty
    stores the percentage of the points less the penalty,
    [raw - raw * (latePenalty / 100)] in binary64, with its letter, whenever
    the grade passes the validators, by which the percentage is not below 0.
    With the hook of the backend files the letter is the one of the cascade.
    With the hook of the database design, on a submission whose late flag is
    what its dates say, the percentage is computed again from the points and
    floored at 0, and the letter is the one of the helper.  With 80 of 100
    points and a penalty of 10 the percentage of the points is 80, the
    stored percentage is 72 and the letter of the cascade is "C-". *)
Theorem late_penalty_on_grading
    (hook : Submission.Hook) (now : Date) (instructorId submissionId : Id)
    (points : float) (feedback : string) (db : Storage)
    (s : Submission.t) (a : Assignment.t) :
  submissions db !! submissionId = Some s →
  assignments db !! Submission.assignment s = Some a →
  Submission.isLate s = true →
  (0 <? Assignment.latePenalty a)%float = true →
  let raw := Binary64.percentageOf points (Assignment.totalPoints a) in
  let final := (raw - raw * (Assignment.latePenalty a / 100))%float in
  Submission.validGrade (Submission.mkGrade points final None now instructorId) = true →
  (∀ f, hook = Submission.DatabaseDesignHook f →
        (Submission.submittedAt s >? Assignment.dueDate a)%Z = true
        ∧ (Js64.truthy points = true → is_Some (f final))) →
  ∃ (s' : Submission.t) (g : Submission.Grade),
    gradeSubmission hook now instructorId submissionId points feedback db
    = (Ok s', setSubmissions (<[submissionId := s']> (submissions db)) db)
    ∧ Submission.grade s' = Some g
    ∧ Submission.isLate s' = true
    ∧ Submission.status s' = Submission.graded
    ∧ Submission.points g = points
    ∧ (0 <=? final)%float = true
    ∧ Submission.percentage g
      = match hook with
        | Submission.BackendFilesHook => final
        | Submission.DatabaseDesignHook _ =>
            if Js64.truthy points then Js64.max0 final else final
        end
    ∧ Submission.letterGrade g
      = match hook with
        | Submission.BackendFilesHook =>
            Some (GradeTables.submissionLetterGrade (Js64.ofFloat final))
        | Submission.DatabaseDesignHook f => if Js64.truthy points then f final else None
        end
    ∧ (points = 80%float → Assignment.totalPoints a = 100%float →
       Assignment.latePenalty a = 10%float →
       raw = 80%float
       ∧ Submission.percentage g = 72%float
       ∧ (hook = Submission.BackendFilesHook → Submission.letterGrade g = Some "C-")).
Proof.
  intros Hs Ha Hflag Hpenalty raw final Hvalid Hhelper.
  rewrite (gradeSubmission_steps hook _ _ _ _ _ _ s a Hs Ha). fold raw.
  assert (Hfinal : penalised (Submission.isLate s) a raw = final).
  { unfold penalised. by rewrite Hflag, Hpenalty. }
  rewrite Hfinal, Hvalid.
  assert (Hmin : (0 <=? final)%float = true).
  { unfold Submission.validGrade in Hvalid. simpl in Hvalid.
    by apply andb_prop in Hvalid as [[_ ?]%andb_prop _]. }
  assert (Hexample : points = 80%float → Assignment.totalPoints a = 100%float →
                     Assignment.latePenalty a = 10%float →
                     raw = 80%float ∧ final = 72%float).
  { intros Hp Ht Hl. subst raw final. rewrite Hp, Ht, Hl. by vm_compute. }
  destruct hook as [|f]; simpl.
  - eexists _, _. split; [reflexivity |]. simpl. split; [reflexivity |].
    split; [done |]. split; [done |]. split; [done |]. split; [done |].
    split; [done |]. split; [done |]. intros Hp Ht Hl.
    destruct (Hexample Hp Ht Hl) as [Hraw H72]. split; [done |]. split; [done |].
    intros _. rewrite H72. by vm_compute.
  - destruct (Hhelper f eq_refl) as [Hdates Hletter].
    unfold Submission.lateStatusHook. simpl. rewrite Hdates, Hpenalty. simpl.
    change (Binary64.penalised
              (Binary64.percentageOf points (Assignment.totalPoints a))
              (Assignment.latePenalty a)) with final.
    destruct (Js64.truthy points) eqn:Htruthy.
    + destruct (Hletter eq_refl) as [letter ->].
      eexists _, _. split; [reflexivity |]. simpl. split; [reflexivity |].
      split; [done |]. split; [done |]. split; [done |]. split; [done |].
      split; [done |]. split; [done |]. intros Hp Ht Hl.
      destruct (Hexample Hp Ht Hl) as [Hraw H72]. split; [done |].
      split; [by rewrite H72 | done].
    + eexists _, _. split; [reflexivity |]. simpl. split; [reflexivity |].
      split; [done |]. split; [done |]. split; [done |]. split; [done |].
      split; [done |]. split; [done |]. intros Hp Ht Hl.
      destruct (Hexample Hp Ht Hl) as [Hraw H72]. by repeat split.
Qed.

(** A late submission with 80 of 100 points and a penalty of 10, with the
    hook of the backend files and with the hook of the database design, its
    helper being the cascade. *)
Lemma late_penalty_on_grading_witness :
  let a := Assignment.mk 1 100 5 true true 10 in
  let s := Submission.mk 1 7 10 true Submission.submitted None None in
  let db := setSubmissions {[1%N := s]} (setAssignments {[1%N := a]} emptyStorage) in
  let design :=
    Submission.DatabaseDesignHook
      (λ p, Some (GradeTables.submissionLetterGrade (Js64.ofFloat p))) in
  (∃ (s' : Submission.t) (g : Submission.Grade),
     gradeSubmission Submission.BackendFilesHook 20 9 1 80 "ok" db
     = (Ok s', setSubmissions (<[1%N := s']> (submissions db)) db)
     ∧ Submission.grade s' = Some g
     ∧ Submission.percentage g = 72%float
     ∧ Submission.letterGrade g = Some "C-")
  ∧ (∃ (s' : Submission.t) (g : Submission.Grade),
       gradeSubmission design 20 9 1 80 "ok" db
       = (Ok s', setSubmissions (<[1%N := s']> (submissions db)) db)
       ∧ Submission.grade s' = Some g
       ∧ Submission.percentage g = 72%float).
Proof.
  intros a s db design. split.
  - destruct (late_penalty_on_grading Submission.BackendFilesHook 20 9 1 80 "ok" db s a
                eq_refl eq_refl eq_refl eq_refl eq_refl)
      as (s' & g & Hrun & Hg & _ & _ & _ & _ & _ & _ & Hexample); [done |].
    destruct (Hexample eq_refl eq_refl eq_refl) as (_ & H72 & Hletter).
    exists s', g. repeat split; [done | done | done | by apply Hletter].
  - destruct (late_penalty_on_grading design 20 9 1 80 "ok" db s a
                eq_refl eq_refl eq_refl eq_refl eq_refl)
      as (s' & g & Hrun & Hg & _ & _ & _ & _ & _ & _ & Hexample).
    { intros f [= <-]. split; [done |]. intros _. by eexists. }
    destruct (Hexample eq_refl eq_refl eq_refl) as (_ & H72 & _).
    by exists s', g.
Defined.

(** 20 of 30 points with a penalty of 10: the rounding of binary64 leaves
    the percentage just below 60, and the letter is "F". *)
Example twenty_of_thirty :
  let a := Assignment.mk 1 30 5 true true 10 in
  let s := Submission.mk 1 7 10 true Submission.submitted None None in
  let db := setSubmissions {[1%N := s]} (setAssignments {[1%N := a]} emptyStorage) in
  let db' := snd (gradeSubmission Submission.BackendFilesHook 20 9 1 20 "ok" db) in
  (submissions db' !! 1%N ≫= Submission.grade)
  = Some (Submission.mkGrade 20 (Binary64.penalised (Binary64.percentageOf 20 30) 10)
            (Some "F") 20 9)
  ∧ (Binary64.penalised (Binary64.percentageOf 20 30) 10 <? 60)%float = true.
Proof. by vm_compute. Qed.

(** C8, as stated, fails: a late submission of an assignment that does not
    allow late submissions is graded, with the penalty, and the grade is
    stored. *)
Lemma late_submission_graded_despite_policy :
  let a := Assignment.mk 1 100 5 true false 10 in
  let s := Submission.mk 1 7 10 true Submission.submitted None None in
  let db := setSubmissions {[1%N := s]} (setAssignments {[1%N := a]} emptyStorage) in
  let '(r, db') := gradeSubmission Submission.BackendFilesHook 20 9 1 80 "ok" db in
  Submission.isLate s = true
  ∧ Assignment.allowLateSubmission a = false
  ∧ isOk r = true
  ∧ r ≠ Err LateSubmissionRejectedError
  ∧ Submission.percentage <$> (submissions db' !! 1%N ≫= Submission.grade)
    = Some 72%float.
Proof. by vm_compute. Qed.

(** C8, amended. Grading a late submission of an assignment that does not
    allow late submissions never fails with LateSubmissionRejectedError.  It
    fails with InvalidPointsError, and stores nothing, exactly when the grade
    with the late penalty taken off does not pass the validators; otherwise
    the hook runs, and with the hook of the backend files the grade is stored
    with that percentage.  The refusal of late work happens when it is
    submitted: the submission of an enrolled student after the due date of a
    published assignment that does not allow late submissions fails with
    LateSubmissionRejectedError and stores nothing. *)
Theorem late_work_is_refused_on_submission_only :
  (∀ (hook : Submission.Hook) (now : Date) (instructorId submissionId : Id)
     (points : float) (feedback : string) (db : Storage)
     (s : Submission.t) (a : Assignment.t),
      submissions db !! submissionId = Some s →
      assignments db !! Submission.assignment s = Some a →
      Submission.isLate s = true →
      Assignment.allowLateSubmission a = false →
      let raw := Binary64.percentageOf points (Assignment.totalPoints a) in
      let final :=
        if (0 <? Assignment.latePenalty a)%float
        then (raw - raw * (Assignment.latePenalty a / 100))%float else raw in
      let g := Submission.mkGrade points final None now instructorId in
      let s1 :=
        Submission.mk (Submission.assignment s) (Submission.student s)
          (Submission.submittedAt s) true Submission.graded (Some g) (Some feedback) in
      let r := gradeSubmission hook now instructorId submissionId points feedback db in
      fst r ≠ Err LateSubmissionRejectedError
      ∧ (Submission.validGrade g = false ↔ r = (Err InvalidPointsError, db))
      ∧ (Submission.validGrade g = true →
         match Submission.preSave hook a s1 with
         | Ok s' => r = (Ok s', setSubmissions (<[submissionId := s']> (submissions db)) db)
         | Err err => r = (Err err, db) ∧ err = ReferenceError
         end)
      ∧ (Submission.validGrade g = true → hook = Submission.BackendFilesHook →
         ∃ s' : Submission.t,
           r = (Ok s', setSubmissions (<[submissionId := s']> (submissions db)) db)
           ∧ Submission.grade s'
             = Some (Submission.mkGrade points final
                       (Some (GradeTables.submissionLetterGrade (Js64.ofFloat final)))
                       now instructorId)))
  ∧ (∀ (hook : Submission.Hook) (now : Date) (studentId assignmentId : Id)
       (db : Storage) (a : Assignment.t),
      assignments db !! assignmentId = Some a →
      Assignment.isPublished a = true →
      enrolledIn studentId (Assignment.course a) (enrollments db) = true →
      (Assignment.dueDate a < now)%Z →
      Assignment.allowLateSubmission a = false →
      submit hook now studentId assignmentId db = (Err LateSubmissionRejectedError, db)).
Proof.
  split.
  - intros hook now instructorId submissionId points feedback db s a Hs Ha Hflag _
      raw final g s1 r.
    assert (Hr : r = if Submission.validGrade g then
                       match Submission.preSave hook a s1 with
                       | Ok s2 =>
                           (Ok s2,
                            setSubmissions (<[submissionId := s2]> (submissions db)) db)
                       | Err err => (Err err, db)
                       end
                     else (Err InvalidPointsError, db)).
    { subst r. rewrite (gradeSubmission_steps hook _ _ _ _ _ _ s a Hs Ha).
      unfold penalised. rewrite Hflag. simpl. done. }
    destruct (Submission.validGrade g) eqn:Hvalid.
    + destruct (Submission.preSave hook a s1) as [s'|err] eqn:Hsave.
      * rewrite Hr. simpl. split; [done |]. split; [split; done |]. split; [done |].
        intros _ ->. simpl in Hsave. injection Hsave as <-. by eexists.
      * pose proof (preSave_error _ _ _ _ Hsave) as ->. rewrite Hr. simpl.
        split; [done |]. split; [split; done |]. split; [done |].
        intros _ ->. done.
    + rewrite Hr. simpl. split; [done |]. split; [done |]. split; done.
  - intros hook now studentId assignmentId db a Ha Hpublished Henrolled Hlate Hpolicy.
    unfold submit. rewrite Ha, Hpublished, Henrolled, Hpolicy. simpl.
    assert (Hgt : (now >? Assignment.dueDate a)%Z = true) by lia. by rewrite Hgt.
Qed.

Lemma late_work_is_refused_on_submission_only_witness :
  let a := Assignment.mk 1 100 5 true false 10 in
  let s := Submission.mk 1 7 10 true Submission.submitted None None in
  let e := Enrollment.mk 1 8 1 0 Enrollment.enrolled (Enrollment.mkAttendance 0 0 (Fin 0)) None in
  let db :=
    setEnrollments [e]
      (setSubmissions {[1%N := s]} (setAssignments {[1%N := a]} emptyStorage)) in
  fst (gradeSubmission Submission.BackendFilesHook 20 9 1 80 "ok" db)
  ≠ Err LateSubmissionRejectedError
  ∧ submit Submission.BackendFilesHook 10 8 1 db = (Err LateSubmissionRejectedError, db).
Proof.
  intros a s e db. split.
  - exact (proj1 ((proj1 late_work_is_refused_on_submission_only)
                    Submission.BackendFilesHook 20%Z 9%N 1%N 80%float "ok" db s a
                    eq_refl eq_refl eq_refl eq_refl)).
  - exact ((proj2 late_work_is_refused_on_submission_only)
             Submission.BackendFilesHook 10%Z 8%N 1%N db a
             eq_refl eq_refl eq_refl ltac:(simpl; lia) eq_refl).
Defined.

(** *** The late flag through the operations *)

Lemma hasSubmissions_false (assignmentId id : Id) (s : Submission.t)
    (ss : gmap Id Submission.t) :
  hasSubmissions assignmentId ss = false → ss !! id = Some s →
  Submission.assignment s ≠ assignmentId.
Proof.
  intros Hnone Hs Ha. apply bool_decide_eq_false in Hnone. destruct Hnone.
  by exists id, s.
Qed.

Lemma handle_flagsAsSubmitted (hook : Submission.Hook) (r : Request) (db : Storage) :
  flagsAsSubmitted db → flagsAsSubmitted (handle hook r db).
Proof.
  intros Hdb.
  destruct r as [assignmentId a | assignmentId update | assignmentId | assignmentId
                | now studentId assignmentId
                | now instructorId submissionId points feedback]; simpl.
  - unfold createAssignment.
    destruct (assignments db !! assignmentId) as [b|] eqn:Hb; [done |].
    intros id s Hs. simpl in Hs. destruct (Hdb id s Hs) as (Hid & x & Hx & Hflag).
    simpl. split; [done |]. exists x. split; [| done].
    rewrite lookup_insert_ne; [done |]. intros Heq. congruence.
  - unfold updateAssignment.
    destruct (assignments db !! assignmentId) as [a|] eqn:Ha; [| done].
    destruct (hasSubmissions assignmentId (submissions db)) eqn:Hnone; [done |].
    simpl. intros id s Hs. simpl in Hs. destruct (Hdb id s Hs) as [Hid Hflag].
    simpl. split; [done |].
    rewrite lookup_insert_ne; [done |].
    intros Heq. by apply (hasSubmissions_false _ _ _ _ Hnone Hs).
  - unfold deleteAssignment.
    destruct (hasSubmissions assignmentId (submissions db)) eqn:Hnone; [done |].
    intros id s Hs. simpl in Hs. destruct (Hdb id s Hs) as [Hid Hflag].
    simpl. split; [done |].
    rewrite lookup_delete_ne; [done |].
    intros Heq. by apply (hasSubmissions_false _ _ _ _ Hnone Hs).
  - unfold publish. intros id s Hs. simpl in Hs.
    destruct (Hdb id s Hs) as (Hid & x & Hx & Hflag & Hallowed).
    simpl. split; [done |]. rewrite lookup_alter.
    destruct (decide (assignmentId = Submission.assignment s)) as [->|Hne].
    + rewrite Hx. simpl. by eexists.
    + by exists x.
  - unfold submit. destruct (assignments db !! assignmentId) as [a|] eqn:Ha; [| done].
    destruct (negb (Assignment.isPublished a)); [done |].
    destruct (negb (enrolledIn _ _ _)); [done |].
    destruct ((now >? Assignment.dueDate a)%Z && negb (Assignment.allowLateSubmission a))
      eqn:Hrefused; [done |].
    destruct (alreadySubmitted _ _ _); [done |].
    rewrite preSave_new. simpl. apply map_Forall_insert_2.
    + simpl. split; [lia |]. exists a. split; [done |]. split; [done |].
      intros Hlate. rewrite Hlate in Hrefused. simpl in Hrefused.
      by apply negb_false_iff in Hrefused.
    + intros id s Hs. destruct (Hdb id s Hs) as [Hid Hflag]. simpl. split; [lia | done].
  - unfold gradeSubmission.
    destruct (submissions db !! submissionId) as [s|] eqn:Hs; [| done].
    destruct (assignments db !! Submission.assignment s) as [a|] eqn:Ha; [| done].
    destruct (negb _); [done |].
    destruct (Submission.preSave hook a _) as [s2|err] eqn:Hsave; [| done].
    simpl. destruct (Hdb _ _ Hs) as (Hid & a' & Ha' & Hflag & Hallowed).
    rewrite Ha in Ha'. injection Ha' as <-.
    destruct (preSave_keeps _ _ _ _ Hsave) as (Hkeep_a & _ & Hkeep_t & Hkeep_l).
    simpl in Hkeep_a, Hkeep_t, Hkeep_l. specialize (Hkeep_l Hflag).
    apply map_Forall_insert_2; [| done].
    simpl. split; [done |]. exists a. rewrite Hkeep_a, Hkeep_t, Hkeep_l. done.
Qed.

Lemma serve_flagsAsSubmitted (hook : Submission.Hook) (requests : list Request) :
  ∀ db : Storage, flagsAsSubmitted db → flagsAsSubmitted (serve hook requests db).
Proof.
  induction requests as [|r rs IH]; intros db Hdb; [done |].
  simpl. by apply IH, handle_flagsAsSubmitted.
Qed.

(** One request leaves a stored submission at its identifier, with its late
    flag, its time and its assignment, and leaves the due date of that
    assignment. *)
Lemma handle_keeps_flag (hook : Submission.Hook) (r : Request) (db : Storage)
    (id : Id) (s : Submission.t) (a : Assignment.t) :
  flagsAsSubmitted db →
  submissions db !! id = Some s →
  assignments db !! Submission.assignment s = Some a →
  ∃ (s' : Submission.t) (a' : Assignment.t),
    submissions (handle hook r db) !! id = Some s'
    ∧ assignments (handle hook r db) !! Submission.assignment s' = Some a'
    ∧ Submission.isLate s' = Submission.isLate s
    ∧ Submission.submittedAt s' = Submission.submittedAt s
    ∧ Submission.assignment s' = Submission.assignment s
    ∧ Assignment.dueDate a' = Assignment.dueDate a.
Proof.
  intros Hdb Hs Ha. destruct (Hdb _ _ Hs) as (Hid & a0 & Ha0 & Hflag & _).
  rewrite Ha in Ha0. injection Ha0 as <-.
  assert (Hsame : ∃ (s' : Submission.t) (a' : Assignment.t),
            submissions db !! id = Some s'
            ∧ assignments db !! Submission.assignment s' = Some a'
            ∧ Submission.isLate s' = Submission.isLate s
            ∧ Submission.submittedAt s' = Submission.submittedAt s
            ∧ Submission.assignment s' = Submission.assignment s
            ∧ Assignment.dueDate a' = Assignment.dueDate a) by by exists s, a.
  destruct r as [assignmentId b | assignmentId update | assignmentId | assignmentId
                | now studentId assignmentId
                | now instructorId submissionId points feedback]; simpl.
  - unfold createAssignment.
    destruct (assignments db !! assignmentId) as [x|] eqn:Hx; [done |].
    simpl. exists s, a. rewrite lookup_insert_ne; [done |]. intros Heq. congruence.
  - unfold updateAssignment.
    destruct (assignments db !! assignmentId) as [b|] eqn:Hb; [| done].
    destruct (hasSubmissions assignmentId (submissions db)) eqn:Hnone; [done |].
    simpl. exists s, a. rewrite lookup_insert_ne; [done |].
    intros Heq. by apply (hasSubmissions_false _ _ _ _ Hnone Hs).
  - unfold deleteAssignment.
    destruct (hasSubmissions assignmentId (submissions db)) eqn:Hnone; [done |].
    simpl. exists s, a. rewrite lookup_delete_ne; [done |].
    intros Heq. by apply (hasSubmissions_false _ _ _ _ Hnone Hs).
  - unfold publish. simpl.
    destruct (decide (assignmentId = Submission.assignment s)) as [->|Hne].
    + eexists s, _. rewrite lookup_alter_eq, Ha. simpl. done.
    + exists s, a. by rewrite lookup_alter_ne.
  - unfold submit. destruct (assignments db !! assignmentId) as [b|] eqn:Hb; [| done].
    destruct (negb (Assignment.isPublished b)); [done |].
    destruct (negb (enrolledIn _ _ _)); [done |].
    destruct (_ && _); [done |]. destruct (alreadySubmitted _ _ _); [done |].
    rewrite preSave_new. simpl. exists s, a.
    rewrite lookup_insert_ne by lia. done.
  - unfold gradeSubmission.
    destruct (submissions db !! submissionId) as [x|] eqn:Hx; [| done].
    destruct (assignments db !! Submission.assignment x) as [b|] eqn:Hb; [| done].
    destruct (negb _); [done |].
    destruct (Submission.preSave hook b _) as [s2|err] eqn:Hsave; [| done].
    simpl. destruct (decide (submissionId = id)) as [->|Hne].
    + rewrite Hs in Hx. injection Hx as <-. rewrite Ha in Hb. injection Hb as <-.
      destruct (preSave_keeps _ _ _ _ Hsave) as (Hkeep_a & _ & Hkeep_t & Hkeep_l).
      simpl in Hkeep_a, Hkeep_t, Hkeep_l. specialize (Hkeep_l Hflag).
      exists s2, a. rewrite lookup_insert_eq, Hkeep_a. done.
    + exists s, a. rewrite lookup_insert_ne by done. done.
Qed.

Lemma serve_keeps_flag (hook : Submission.Hook) (requests : list Request) :
  ∀ (db : Storage) (id : Id) (s : Submission.t) (a : Assignment.t),
    flagsAsSubmitted db →
    submissions db !! id = Some s →
    assignments db !! Submission.assignment s = Some a →
    ∃ (s' : Submission.t) (a' : Assignment.t),
      submissions (serve hook requests db) !! id = Some s'
      ∧ assignments (serve hook requests db) !! Submission.assignment s' = Some a'
      ∧ Submission.isLate s' = Submission.isLate s
      ∧ Submission.submittedAt s' = Submission.submittedAt s
      ∧ Submission.assignment s' = Submission.assignment s
      ∧ Assignment.dueDate a' = Assignment.dueDate a.
Proof.
  induction requests as [|r rs IH]; intros db id s a Hdb Hs Ha; [by exists s, a |].
  simpl.
  destruct (handle_keeps_flag hook r db id s a Hdb Hs Ha)
    as (s1 & a1 & Hs1 & Ha1 & Hl1 & Ht1 & Hk1 & Hd1).
  destruct (IH _ id s1 a1 (handle_flagsAsSubmitted hook r db Hdb) Hs1 Ha1)
    as (s' & a' & Hs' & Ha' & Hl' & Ht' & Hk' & Hd').
  exists s', a'. repeat split; congruence.
Qed.

(** Through the requests on assignments and submissions, no stored
    submission is late while its assignment does not allow late
    submissions. *)
Lemma late_submissions_are_allowed
    (hook : Submission.Hook) (requests : list Request) (db0 : Storage)
    (id : Id) (s : Submission.t) (a : Assignment.t) :
  submissions db0 = ∅ →
  submissions (serve hook requests db0) !! id = Some s →
  assignments (serve hook requests db0) !! Submission.assignment s = Some a →
  Submission.isLate s = true →
  Assignment.allowLateSubmission a = true.
Proof.
  intros Hempty Hs Ha Hlate.
  assert (Hdb0 : flagsAsSubmitted db0).
  { unfold flagsAsSubmitted. rewrite Hempty. apply map_Forall_empty. }
  destruct (serve_flagsAsSubmitted hook requests db0 Hdb0 id s Hs) as (_ & a' & Ha' & _ & H).
  rewrite Ha in Ha'. injection Ha' as <-. by apply H.
Qed.

(** C9. The late flag of a submission is set when it is submitted, from the
    time of the submission and the due date of the assignment; and through
    all later requests on assignments and submissions (creation, update,
    deletion and publication of assignments, submissions, gradings), with
    either hook, the submission keeps its flag, its time and its assignment,
    and the assignment keeps its due date: an assignment is neither updated
    nor deleted once a submission for it exists. *)
Theorem isLate_is_fixed_at_submission :
  (∀ (hook : Submission.Hook) (now : Date) (studentId assignmentId id : Id)
     (db db' : Storage) (s : Submission.t),
      submit hook now studentId assignmentId db = (Ok (id, s), db') →
      ∃ a : Assignment.t,
        assignments db !! assignmentId = Some a
        ∧ Submission.isLate s = (now >? Assignment.dueDate a)%Z
        ∧ Submission.submittedAt s = now
        ∧ Submission.assignment s = assignmentId
        ∧ id = nextId db
        ∧ submissions db' !! id = Some s)
  ∧ ∀ (hook : Submission.Hook) (db0 : Storage) (before after : list Request)
      (id : Id) (s : Submission.t),
      submissions db0 = ∅ →
      let db1 := serve hook before db0 in
      let db2 := serve hook after db1 in
      submissions db1 !! id = Some s →
      ∃ (a : Assignment.t) (s' : Submission.t) (a' : Assignment.t),
        assignments db1 !! Submission.assignment s = Some a
        ∧ Submission.isLate s = (Submission.submittedAt s >? Assignment.dueDate a)%Z
        ∧ submissions db2 !! id = Some s'
        ∧ Submission.isLate s' = Submission.isLate s
        ∧ Submission.submittedAt s' = Submission.submittedAt s
        ∧ Submission.assignment s' = Submission.assignment s
        ∧ assignments db2 !! Submission.assignment s = Some a'
        ∧ Assignment.dueDate a' = Assignment.dueDate a.
Proof.
  split.
  - intros hook now studentId assignmentId id db db' s. unfold submit.
    destruct (assignments db !! assignmentId) as [a|] eqn:Ha; [| done].
    destruct (negb (Assignment.isPublished a)); [done |].
    destruct (negb (enrolledIn _ _ _)); [done |].
    destruct (_ && _); [done |]. destruct (alreadySubmitted _ _ _); [done |].
    rewrite preSave_new. simpl. intros [= <- <- <-]. exists a. simpl.
    rewrite lookup_insert_eq. done.
  - intros hook db0 before after id s Hempty db1 db2 Hs.
    assert (Hdb0 : flagsAsSubmitted db0).
    { unfold flagsAsSubmitted. rewrite Hempty. apply map_Forall_empty. }
    pose proof (serve_flagsAsSubmitted hook before db0 Hdb0) as Hdb1. fold db1 in Hdb1.
    destruct (Hdb1 id s Hs) as (_ & a & Ha & Hflag & _).
    destruct (serve_keeps_flag hook after db1 id s a Hdb1 Hs Ha)
      as (s' & a' & Hs' & Ha' & Hl & Ht & Hk & Hd).
    fold db2 in Hs', Ha'. rewrite Hk in Ha'. by exists a, s', a'.
Qed.

(** A submission is handed in at time 10 for a due date of 5; the instructor
    then tries to move the due date to 20, which is refused, and grades the
    submission: it is late as it was. *)
Lemma isLate_is_fixed_at_submission_witness :
  let a := Assignment.mk 1 100 5 true true 10 in
  let e := Enrollment.mk 1 7 1 0 Enrollment.enrolled (Enrollment.mkAttendance 0 0 (Fin 0)) None in
  let db0 := setEnrollments [e] (setAssignments {[1%N := a]} emptyStorage) in
  let moved := λ a, Assignment.mk (Assignment.course a) (Assignment.totalPoints a) 20
                      (Assignment.isPublished a) (Assignment.allowLateSubmission a)
                      (Assignment.latePenalty a) in
  let after := [Update 1 moved; Grade 30 9 1 80 "ok"] in
  let db1 := serve Submission.BackendFilesHook [Submit 10 7 1] db0 in
  let db2 := serve Submission.BackendFilesHook after db1 in
  ∃ s s' : Submission.t,
    submissions db1 !! 1%N = Some s
    ∧ Submission.isLate s = true
    ∧ submissions db2 !! 1%N = Some s'
    ∧ Submission.isLate s' = true
    ∧ Submission.status s' = Submission.graded
    ∧ (Assignment.dueDate <$> assignments db2 !! 1%N) = Some 5%Z.
Proof.
  intros a e db0 moved after db1 db2.
  set (s := Submission.mk 1 7 10 true Submission.submitted None None).
  destruct ((proj2 isLate_is_fixed_at_submission) Submission.BackendFilesHook db0
              [Submit 10 7 1] after 1%N s eq_refl eq_refl)
    as (_ & s' & _ & _ & _ & Hs' & Hlate & _).
  exists s, s'. split; [done |]. split; [done |]. split; [done |]. split; [done |].
  split; [| done]. revert Hs'. by intros [= <-].
Defined.

End SubmissionFacts.

(** ** The course-grade latch *)

Section CourseGradeFacts.

Import GradeRoutes.

Lemma preSave_keys (g : CourseGrade.t) :
  CourseGrade.student (CourseGrade.preSave g) = CourseGrade.student g
  ∧ CourseGrade.course (CourseGrade.preSave g) = CourseGrade.course g
  ∧ CourseGrade.isFinalized (CourseGrade.preSave g) = CourseGrade.isFinalized g.
Proof. done. Qed.

(** A request leaves a finalized grade as it is and where it is. *)
Lemma handle_keeps_finalized
    (r : Request) (db : Storage) (studentId courseId : Id) (i : nat) (g : CourseGrade.t) :
  findGrade studentId courseId (grades db) = Some (i, g) →
  CourseGrade.isFinalized g = true →
  findGrade studentId courseId (grades (snd (handle r db))) = Some (i, g).
Proof.
  intros Hfind Hfinal.
  assert (Hstep : ∀ (sid cid : Id) (f : CourseGrade.t → CourseGrade.t),
    (∀ x, CourseGrade.student (f x) = CourseGrade.student x
          ∧ CourseGrade.course (f x) = CourseGrade.course x) →
    ∀ (j : nat) (x : CourseGrade.t),
      findGrade sid cid (grades db) = Some (j, x) →
      CourseGrade.isFinalized x = false →
      findGrade studentId courseId (<[j := f x]> (grades db)) = Some (i, g)).
  { intros sid cid f Hf j x Hj Hopen.
    pose proof Hj as (Hjx & [Hxs Hxc] & _)%list_find_Some. destruct (Hf x) as [Hfs Hfc].
    apply (list_find_insert_other _ _ _ _ _ x); [done | done | |].
    - intros [Hs Hc]. assert (sid = studentId) as -> by congruence.
      assert (cid = courseId) as -> by congruence. congruence.
    - intros [Hs Hc]. assert (sid = studentId) as -> by congruence.
      assert (cid = courseId) as -> by congruence. congruence. }
  destruct r as [instructorId sid cid percentage | sid cid]; simpl.
  - unfold upsertGrade.
    destruct (findGrade sid cid (grades db)) as [[j x]|] eqn:Hj.
    + destruct (CourseGrade.isFinalized x) eqn:Hopen; [done |]. simpl.
      by apply (Hstep sid cid
                  (λ x, CourseGrade.preSave (CourseGrade.setPercentage percentage x))).
    + simpl. by apply list_find_app_found.
  - unfold finalize.
    destruct (findGrade sid cid (grades db)) as [[j x]|] eqn:Hj; [|done].
    destruct (CourseGrade.isFinalized x) eqn:Hopen; [done |]. simpl.
    by apply (Hstep sid cid (λ x, CourseGrade.preSave (CourseGrade.setFinalized x))).
Qed.

Lemma serve_keeps_finalized (requests : list Request) :
  ∀ (db : Storage) (studentId courseId : Id) (i : nat) (g : CourseGrade.t),
    findGrade studentId courseId (grades db) = Some (i, g) →
    CourseGrade.isFinalized g = true →
    findGrade studentId courseId (grades (serve requests db)) = Some (i, g).
Proof.
  induction requests as [|r rs IH]; intros db studentId courseId i g Hfind Hfinal; [done |].
  unfold serve. simpl. apply IH; [|done]. by apply handle_keeps_finalized.
Qed.

(** C5. A successful finalize leaves the grade of the student in the course
    finalized; and once that grade is finalized, after any further requests
    it is still the same stored grade, with the same percentage and letter,
    and every upsertGrade on the pair fails with AlreadyFinalizedError and
    leaves the storage as it is. *)
Theorem finalized_grade_is_latched :
  (∀ (db db' : Storage) (studentId courseId : Id) (g : CourseGrade.t),
      finalize studentId courseId db = (Ok g, db') →
      CourseGrade.isFinalized g = true
      ∧ ∃ i : nat, findGrade studentId courseId (grades db') = Some (i, g))
  ∧ (∀ (db : Storage) (studentId courseId : Id) (i : nat) (g : CourseGrade.t)
       (requests : list Request) (instructorId : Id) (percentage : Number),
      findGrade studentId courseId (grades db) = Some (i, g) →
      CourseGrade.isFinalized g = true →
      let db' := serve requests db in
      findGrade studentId courseId (grades db') = Some (i, g)
      ∧ upsertGrade instructorId studentId courseId percentage db'
        = (Err AlreadyFinalizedError, db')).
Proof.
  split.
  - intros db db' studentId courseId g. unfold finalize.
    destruct (findGrade studentId courseId (grades db)) as [[i x]|] eqn:Hfind; [|done].
    destruct (CourseGrade.isFinalized x); [done |]. intros [= <- <-].
    split; [done |]. exists i. simpl.
    pose proof Hfind as (_ & Hkeys & _)%list_find_Some.
    by apply (list_find_insert_found _ _ _ x).
  - intros db studentId courseId i g requests instructorId percentage Hfind Hfinal db'.
    pose proof (serve_keeps_finalized requests db _ _ _ _ Hfind Hfinal) as Hkept.
    fold db' in Hkept. split; [done |]. unfold upsertGrade. by rewrite Hkept, Hfinal.
Qed.

(** A grade is entered, corrected and finalized; the later upserts fail and
    the stored grade stays at 85 percent, "B". *)
Lemma finalized_grade_is_latched_witness :
  let db0 := snd (upsertGrade 9 7 1 (Fin 70) emptyStorage) in
  let db1 := snd (upsertGrade 9 7 1 (Fin 85) db0) in
  let g := CourseGrade.mk 7 1 9 (Fin 85) "B" (Fin 3) true in
  let db2 := snd (finalize 7 1 db1) in
  let db3 := serve [Upsert 9 7 1 (Fin 40); Upsert 9 8 1 (Fin 95); Finalize 7 1] db2 in
  finalize 7 1 db1 = (Ok g, db2)
  ∧ findGrade 7 1 (grades db3) = Some (0, g)
  ∧ upsertGrade 9 7 1 (Fin 100) db3 = (Err AlreadyFinalizedError, db3).
Proof.
  intros db0 db1 g db2 db3.
  assert (Hfin : finalize 7 1 db1 = (Ok g, db2)) by reflexivity.
  destruct ((proj1 finalized_grade_is_latched) db1 db2 7%N 1%N g Hfin) as [Hlatched _].
  split; [exact Hfin |].
  exact ((proj2 finalized_grade_is_latched) db2 7%N 1%N 0 g
           [Upsert 9 7 1 (Fin 40); Upsert 9 8 1 (Fin 95); Finalize 7 1] 9%N (Fin 100)
           eq_refl Hlatched).
Defined.

(** ** The overall GPA *)

(** The reduce of the handler adds the GPA values from left to right. *)
Lemma totalGPA_fold (gs : list CourseGrade.t) :
  ∀ acc : float,
    fold_left (λ sum grade, (sum + Js64.toFloat (CourseGrade.gpa grade))%float) gs acc
    = fold_left PrimFloat.add (map (λ g, Js64.toFloat (CourseGrade.gpa g)) gs) acc.
Proof. induction gs as [|g gs IH]; intros acc; simpl; [done | apply IH]. Qed.

Lemma gradesOfStudent_spec (studentId : Id) (gs : list CourseGrade.t) (g : CourseGrade.t) :
  In g (gradesOfStudent studentId gs) ↔ In g gs ∧ CourseGrade.student g = studentId.
Proof.
  unfold gradesOfStudent. rewrite List.filter_In.
  by destruct (N.eqb_spec (CourseGrade.student g) studentId); intuition.
Qed.

(** The rows of a student depend on the students of the rows only. *)
Lemma gradesOfStudent_gpa (studentId : Id) (gs : list CourseGrade.t) :
  ∀ gs' : list CourseGrade.t,
    map (λ g, (CourseGrade.student g, CourseGrade.gpa g)) gs
    = map (λ g, (CourseGrade.student g, CourseGrade.gpa g)) gs' →
    map CourseGrade.gpa (gradesOfStudent studentId gs)
    = map CourseGrade.gpa (gradesOfStudent studentId gs').
Proof.
  induction gs as [|g gs IH]; intros [|g' gs'] Hsame; try done.
  simpl in Hsame. injection Hsame as Hstudent Hgpa Hrest. simpl.
  rewrite Hstudent. destruct (CourseGrade.student g' =? studentId)%N; simpl.
  - by rewrite Hgpa, (IH gs' Hrest).
  - by apply IH.
Qed.

(** C10. The overall GPA of a student is the sum of the GPA of the student's
    grade rows, added from left to right in binary64 starting at 0, divided
    by their number.  Without rows it is NaN (0 / 0).  With rows it is the
    arithmetic mean, in binary64, of their GPA values; the rows are all the
    grades of the student, and whether they are finalized does not enter the
    result. *)
Theorem overallGPA_is_mean_or_NaN :
  (∀ (studentId : Id) (db : Storage),
      gradesOfStudent studentId (grades db) = [] →
      Js64.ofFloat (overallGPA studentId db) = NaN)
  ∧ (∀ (studentId : Id) (db : Storage),
      overallGPA studentId db
      = Binary64.mean
          (map (λ g, Js64.toFloat (CourseGrade.gpa g))
             (gradesOfStudent studentId (grades db))))
  ∧ (∀ (studentId : Id) (db : Storage) (g : CourseGrade.t),
      In g (gradesOfStudent studentId (grades db))
      ↔ In g (grades db) ∧ CourseGrade.student g = studentId)
  ∧ (∀ (studentId : Id) (db db' : Storage),
      map (λ g, (CourseGrade.student g, CourseGrade.gpa g)) (grades db)
      = map (λ g, (CourseGrade.student g, CourseGrade.gpa g)) (grades db') →
      overallGPA studentId db = overallGPA studentId db').
Proof.
  assert (Hmean : ∀ (studentId : Id) (db : Storage),
            overallGPA studentId db
            = Binary64.mean
                (map (λ g, Js64.toFloat (CourseGrade.gpa g))
                   (gradesOfStudent studentId (grades db)))).
  { intros studentId db. unfold overallGPA, totalGPA, Binary64.mean.
    by rewrite totalGPA_fold, length_map. }
  split; [| split; [| split]].
  - intros studentId db Hnone. unfold overallGPA. by rewrite Hnone.
  - exact Hmean.
  - intros studentId db g. apply gradesOfStudent_spec.
  - intros studentId db db' Hsame. rewrite !Hmean.
    pose proof (gradesOfStudent_gpa studentId _ _ Hsame) as Hgpa.
    assert (Hfloat : ∀ gs : list CourseGrade.t,
              map (λ g, Js64.toFloat (CourseGrade.gpa g)) gs
              = map Js64.toFloat (map CourseGrade.gpa gs)).
    { intros gs. by rewrite map_map. }
    by rewrite !Hfloat, Hgpa.
Qed.

(** A student without grades, and a student with a finalized "A-" and an
    open "B+": 3.7 and 3.3 have the mean 3.5. *)
Lemma overallGPA_is_mean_or_NaN_witness :
  let db0 := snd (upsertGrade 9 7 1 (Fin 91) emptyStorage) in
  let db1 := snd (finalize 7 1 db0) in
  let db := snd (upsertGrade 9 7 2 (Fin 88) db1) in
  Js64.ofFloat (overallGPA 8 db) = NaN
  ∧ overallGPA 7 db = Binary64.mean [Js64.toFloat (Fin 3.7); Js64.toFloat (Fin 3.3)]
  ∧ Js64.ofFloat (overallGPA 7 db) = Fin (7 # 2).
Proof.
  intros db0 db1 db. split; [| split].
  - exact ((proj1 overallGPA_is_mean_or_NaN) 8%N db eq_refl).
  - exact ((proj1 (proj2 overallGPA_is_mean_or_NaN)) 7%N db).
  - by vm_compute.
Defined.

(** With one row the overall GPA is the GPA of the row. *)
Lemma overallGPA_of_one_grade (studentId : Id) (db : Storage) (g : CourseGrade.t)
    (percentage : Number) :
  gradesOfStudent studentId (grades db) = [g] →
  CourseGrade.gpa g = GradeTables.gradeGpa percentage →
  overallGPA studentId db = Js64.toFloat (CourseGrade.gpa g).
Proof.
  intros Hrows Hgpa. unfold overallGPA, totalGPA. rewrite Hrows.
  cbn [fold_left length]. rewrite Hgpa.
  unfold GradeTables.gradeGpa.
  destruct (percentage >=? Fin 97)%js; [by vm_compute |].
  destruct (percentage >=? Fin 93)%js; [by vm_compute |].
  destruct (percentage >=? Fin 90)%js; [by vm_compute |].
  destruct (percentage >=? Fin 87)%js; [by vm_compute |].
  destruct (percentage >=? Fin 83)%js; [by vm_compute |].
  destruct (percentage >=? Fin 80)%js; [by vm_compute |].
  destruct (percentage >=? Fin 77)%js; [by vm_compute |].
  destruct (percentage >=? Fin 73)%js; [by vm_compute |].
  destruct (percentage >=? Fin 70)%js; [by vm_compute |].
  destruct (percentage >=? Fin 67)%js; [by vm_compute |].
  destruct (percentage >=? Fin 60)%js; by vm_compute.
Qed.

(** Three rows of 3.7: the sum is rounded, and the result is the binary64
    number above 3.7, not 3.7. *)
Example overallGPA_of_three_grades :
  let db1 := snd (upsertGrade 9 7 1 (Fin 91) emptyStorage) in
  let db2 := snd (upsertGrade 9 7 2 (Fin 91) db1) in
  let db := snd (upsertGrade 9 7 3 (Fin 91) db2) in
  map CourseGrade.gpa (gradesOfStudent 7 (grades db)) = [Fin 3.7; Fin 3.7; Fin 3.7]
  ∧ (Js64.toFloat (Fin 3.7) <? overallGPA 7 db)%float = true
  ∧ Js64.ofFloat (overallGPA 7 db) = Fin (8331659310635419 # 2251799813685248).
Proof. by vm_compute. Qed.

End CourseGradeFacts.

(** ** The worked examples on binary64 floats *)

Section Binary64Facts.

(** 80 of 100 points are 80 percent, and 72 percent after a penalty of 10. *)
Example binary64_late_penalty :
  Binary64.percentageOf 80 100 = 80%float
  ∧ Binary64.penalised (Binary64.percentageOf 80 100) 10 = 72%float.
Proof. split; reflexivity. Qed.

(** One class of one attended is 100 percent, one of two is 50 percent. *)
Example binary64_attendance :
  Binary64.attendancePercentage 1 1 = 100%float
  ∧ Binary64.attendancePercentage 1 2 = 50%float.
Proof. split; reflexivity. Qed.

(** No grades: [0 / 0] is NaN. *)
Example binary64_overallGPA_empty :
  PrimFloat.is_nan (Binary64.mean []) = true.
Proof. reflexivity. Qed.

End Binary64Facts.

(** ** The in-memory model classes *)

Section MockFacts.

Import Mock.

Lemma cmp_Eq_sym (x y : Number) : Js.cmp x y = Some Eq → Js.cmp y x = Some Eq.
Proof.
  destruct x as [a| | |], y as [b| | |]; simpl; try done.
  intros [= H]. apply Qeq_alt in H. f_equal. apply Qeq_alt. by symmetry.
Qed.

Lemma cmp_Eq_trans (x y z : Number) :
  Js.cmp x y = Some Eq → Js.cmp y z = Some Eq → Js.cmp x z = Some Eq.
Proof.
  destruct x as [a| | |], y as [b| | |], z as [c| | |]; simpl; try done.
  intros [= H1] [= H2]. apply Qeq_alt in H1, H2. f_equal. apply Qeq_alt.
  by rewrite H1.
Qed.

Lemma strictEq_sym (a b : Value) : strictEq a b = strictEq b a.
Proof.
  destruct a as [| |x|x|x|x], b as [| |y|y|y|y]; simpl; try done.
  - by destruct x, y.
  - destruct (Js.cmp x y) as [[]|] eqn:E1, (Js.cmp y x) as [[]|] eqn:E2; try done;
      first [apply cmp_Eq_sym in E1 | apply cmp_Eq_sym in E2]; congruence.
  - apply String.eqb_sym.
  - apply N.eqb_sym.
Qed.

Lemma strictEq_trans (a b c : Value) :
  strictEq a b = true → strictEq b c = true → strictEq a c = true.
Proof.
  destruct a as [| |x|x|x|x], b as [| |y|y|y|y]; simpl; try done;
    destruct c as [| |z|z|z|z]; simpl; try done.
  - intros ->%Bool.eqb_prop. done.
  - destruct (Js.cmp x y) as [[]|] eqn:E1; try done.
    destruct (Js.cmp y z) as [[]|] eqn:E2; try done.
    by rewrite (cmp_Eq_trans _ _ _ E1 E2).
  - intros ->%String.eqb_eq. done.
  - intros ->%N.eqb_eq. done.
Qed.

(** A value that is strictly equal to something is strictly equal to
    itself ([NaN] is not). *)
Lemma strictEq_refl_of (a b : Value) : strictEq a b = true → strictEq a a = true.
Proof. intros H. apply (strictEq_trans a b a); [done |]. by rewrite strictEq_sym. Qed.

Lemma strictEq_NaN (a : Value) : strictEq a (VNum NaN) = false.
Proof. by destruct a as [| | |[]| |]. Qed.

Lemma matches_spec (query : Query) (item : Doc) :
  matches query item = true
  ↔ ∀ key value, (key, value) ∈ query → strictEq (get item key) value = true.
Proof.
  unfold matches. rewrite forallb_forall. split.
  - intros H key value Hin. apply (H (key, value)). by apply list_elem_of_In.
  - intros H [key value] Hin. apply H. by apply list_elem_of_In.
Qed.

(** [find] and [countDocuments] select the same documents, also for the empty
    query, which selects all. *)
Lemma find_filter (query : Query) (collection : list Doc) :
  find query collection = List.filter (matches query) collection
  ∧ countDocuments query collection = length (find query collection).
Proof.
  destruct query as [|entry query]; [|done]. simpl. split; [|done].
  induction collection as [|d l IH]; [done |]. simpl. by rewrite <- IH.
Qed.

(** X1. [findOne] returns nothing for the empty query; a document it returns
    is in the collection and agrees with the query on at least one key; it
    returns nothing exactly when no document agrees with the query on any
    key; and whenever [find] has a document for a query that is not empty,
    [findOne] has one too. *)
Theorem findOne_agrees_on_some_key (query : Query) (collection : list Doc) :
  findOne [] collection = None
  ∧ (∀ d : Doc,
       findOne query collection = Some d →
       d ∈ collection
       ∧ ∃ key value, (key, value) ∈ query ∧ strictEq (get d key) value = true)
  ∧ (findOne query collection = None
     ↔ ∀ (d : Doc) key value,
         d ∈ collection → (key, value) ∈ query → strictEq (get d key) value = false)
  ∧ (query ≠ [] → find query collection ≠ [] → is_Some (findOne query collection)).
Proof.
  split; [done |].
  assert (Hnone : findOne query collection = None
     ↔ ∀ (d : Doc) key value,
         d ∈ collection → (key, value) ∈ query → strictEq (get d key) value = false).
  { induction query as [|[k v] query IH]; simpl.
    - split; [intros _ d key value _ Hin; by apply elem_of_nil in Hin | done].
    - destruct (list_find _ collection) as [[i d]|] eqn:Hfind.
      + apply list_find_Some in Hfind as (Hi & Hd & _). split; [done |].
        intros H. rewrite (H d k v) in Hd; [done | | by left].
        by apply list_elem_of_lookup_2 in Hi.
      + rewrite list_find_None, Forall_forall in Hfind. rewrite IH. split.
        * intros H d key value Hd [[= -> ->]|Hin]%elem_of_cons; [|by apply (H d)].
          specialize (Hfind d Hd). by destruct (strictEq (get d k) v).
        * intros H d key value Hd Hin. apply (H d); [done | by right]. }
  split; [| split; [done |]].
  - clear Hnone. induction query as [|[k v] query IH]; simpl; [done |]. intros d.
    destruct (list_find _ collection) as [[i d']|] eqn:Hfind.
    + intros [= ->]. apply list_find_Some in Hfind as (Hi & Hd & _).
      split; [by apply list_elem_of_lookup_2 in Hi |]. exists k, v. split; [by left | done].
    + intros Hrest. destruct (IH d Hrest) as (Hin & key & value & Hq & Heq).
      split; [done |]. exists key, value. split; [by right | done].
  - intros Hq Hfound. destruct (findOne query collection) eqn:Hone; [done |].
    exfalso. destruct Hnone as [Hnone _]. specialize (Hnone eq_refl). clear Hone.
    rename Hnone into Hone. destruct (find_filter query collection) as [Hfilter _].
    rewrite Hfilter in Hfound.
    destruct (List.filter (matches query) collection) as [|d l] eqn:Hl; [done |].
    assert (Hd : In d (List.filter (matches query) collection)) by (rewrite Hl; by left).
    apply List.filter_In in Hd as [Hd Hm]. apply list_elem_of_In in Hd.
    destruct query as [|[k v] query]; [done |].
    rewrite matches_spec in Hm. specialize (Hm k v ltac:(by left)).
    rewrite (Hone d k v) in Hm; [done | done | by left].
Qed.

Lemma get_merge (item updates : Doc) (updatedAt : Value) (key : string) :
  get (merge item updates updatedAt) key
  = if decide (key = "updatedAt") then updatedAt
    else match updates !! key with Some value => value | None => get item key end.
Proof.
  unfold get, merge. destruct (decide (key = "updatedAt")) as [->|Hne].
  - by rewrite lookup_insert_eq.
  - rewrite lookup_insert_ne by done. rewrite lookup_union.
    by destruct (updates !! key), (item !! key).
Qed.

Lemma filter_length_split {A} (f : A → bool) (l : list A) :
  length (List.filter f l) + length (List.filter (λ x, negb (f x)) l) = length l.
Proof. induction l as [|x l IH]; [done |]. simpl. destruct (f x); simpl; lia. Qed.

Lemma filter_none {A} (f : A → bool) (l : list A) :
  Forall (λ x, f x = false) l → List.filter f l = [].
Proof. induction 1 as [|x l Hx _ IH]; [done |]. simpl. by rewrite Hx. Qed.

Lemma list_find_none_matches (query : Query) (collection : list Doc) :
  list_find (λ item, matches query item = true) collection = None →
  Forall (λ d, matches query d = false) collection.
Proof.
  rewrite list_find_None. intros H. eapply Forall_impl; [exact H |].
  intros d Hd. simpl in Hd. by destruct (matches query d).
Qed.

(** X2. [updateOne] keeps the length of the collection.  Either no document
    matches the query, nothing changes and [modifiedCount] is 0; or
    [modifiedCount] is 1 and only the first matching document changes: it
    gets [updatedAt], every property of the updates, and keeps its other
    properties. *)
Theorem updateOne_changes_first_match
    (query : Query) (updates : Doc) (updatedAt : Value) (collection : list Doc) :
  let modifiedCount := fst (updateOne query updates updatedAt collection) in
  let collection' := snd (updateOne query updates updatedAt collection) in
  length collection' = length collection
  ∧ ((modifiedCount = 0 ∧ collection' = collection
      ∧ Forall (λ d, matches query d = false) collection)
     ∨ (modifiedCount = 1
        ∧ ∃ (i : nat) (d d' : Doc),
            collection !! i = Some d
            ∧ matches query d = true
            ∧ (∀ j e, j < i → collection !! j = Some e → matches query e = false)
            ∧ collection' !! i = Some d'
            ∧ (∀ j, j ≠ i → collection' !! j = collection !! j)
            ∧ ∀ key,
                get d' key
                = if decide (key = "updatedAt") then updatedAt
                  else match updates !! key with
                       | Some value => value
                       | None => get d key
                       end)).
Proof.
  unfold updateOne.
  destruct (list_find _ collection) as [[i d]|] eqn:Hfind; simpl.
  - split; [by rewrite length_insert |]. right. split; [done |].
    apply list_find_Some in Hfind as (Hi & Hd & Hbefore).
    exists i, d, (merge d updates updatedAt). split; [done |]. split; [done |].
    split; [| split; [| split]].
    + intros j e Hj He. specialize (Hbefore j e He Hj). by destruct (matches query e).
    + apply list_lookup_insert_eq. by apply lookup_lt_Some in Hi.
    + intros j Hj. by apply list_lookup_insert_ne.
    + apply get_merge.
  - split; [done |]. left. split; [done |]. split; [done |].
    by apply list_find_none_matches.
Qed.

Lemma updateManyFrom_spec (query : Query) (updates : Doc) (updatedAt : nat → Value)
    (collection : list Doc) :
  ∀ index : nat,
    let count := fst (updateManyFrom index query updates updatedAt collection) in
    let collection' := snd (updateManyFrom index query updates updatedAt collection) in
    count = length (List.filter (matches query) collection)
    ∧ ∀ i, collection' !! i
           = (λ d, if matches query d then merge d updates (updatedAt (index + i)) else d)
             <$> collection !! i.
Proof.
  induction collection as [|d l IH]; intros index; simpl; [done |].
  specialize (IH (S index)).
  destruct (updateManyFrom (S index) query updates updatedAt l) as [count rest].
  simpl in IH. destruct IH as [-> Hrest].
  destruct (matches query d) eqn:Hd; simpl; (split; [done |]); intros [|i]; simpl;
    rewrite ?Hd, ?Nat.add_0_r, ?Hrest; try done;
    by replace (index + S i) with (S index + i) by lia.
Qed.

(** X3. [updateMany] reports as [modifiedCount] what [countDocuments] counts
    for the query, keeps the length of the collection, and changes exactly
    the matching documents, each in its place. *)
Theorem updateMany_changes_every_match
    (query : Query) (updates : Doc) (updatedAt : nat → Value) (collection : list Doc) :
  let modifiedCount := fst (updateMany query updates updatedAt collection) in
  let collection' := snd (updateMany query updates updatedAt collection) in
  modifiedCount = countDocuments query collection
  ∧ length collection' = length collection
  ∧ ∀ i, collection' !! i
         = (λ d, if matches query d then merge d updates (updatedAt i) else d)
           <$> collection !! i.
Proof.
  intros modifiedCount collection'.
  destruct (updateManyFrom_spec query updates updatedAt collection 0) as [Hcount Hat].
  fold (updateMany query updates updatedAt collection) in Hcount, Hat.
  destruct (find_filter query collection) as [Hfind Hlen].
  split; [subst modifiedCount; by rewrite Hcount, Hlen, Hfind |].
  assert (Hsame : ∀ i, is_Some (collection' !! i) ↔ is_Some (collection !! i)).
  { intros i. subst collection'. rewrite Hat. by rewrite fmap_is_Some. }
  split; [| exact Hat].
  destruct (decide (length collection' = length collection)) as [|Hne]; [done |].
  exfalso. destruct (Nat.lt_gt_cases (length collection') (length collection)) as [[Hlt|Hgt] _];
    [done | |].
  - apply lookup_lt_is_Some_2, Hsame, lookup_lt_is_Some_1 in Hlt. lia.
  - apply lookup_lt_is_Some_2, Hsame, lookup_lt_is_Some_1 in Hgt. lia.
Qed.

Lemma filter_delete {A} (f : A → bool) (l : list A) (i : nat) (x : A) :
  l !! i = Some x →
  length (List.filter f (delete i l)) + (if f x then 1 else 0) = length (List.filter f l).
Proof.
  revert i. induction l as [|a l IH]; intros i Hi; [done |].
  destruct i as [|i]; simpl in *.
  - injection Hi as ->. destruct (f x); simpl; lia.
  - specialize (IH i Hi). destruct (f a); simpl; lia.
Qed.

(** X4. [deleteOne] removes the first matching document and nothing else:
    the other documents stay in their order, the length and what
    [countDocuments] counts for the query go down by [deletedCount], and
    [deletedCount] is 0 exactly when no document matches. *)
Theorem deleteOne_removes_first_match (query : Query) (collection : list Doc) :
  let deletedCount := fst (deleteOne query collection) in
  let collection' := snd (deleteOne query collection) in
  deletedCount + length collection' = length collection
  ∧ deletedCount + countDocuments query collection' = countDocuments query collection
  ∧ ((deletedCount = 0 ∧ collection' = collection
      ∧ Forall (λ d, matches query d = false) collection)
     ∨ (deletedCount = 1
        ∧ ∃ (i : nat) (d : Doc),
            collection !! i = Some d
            ∧ matches query d = true
            ∧ (∀ j e, j < i → collection !! j = Some e → matches query e = false)
            ∧ collection' = take i collection ++ drop (S i) collection)).
Proof.
  unfold deleteOne.
  destruct (find_filter query collection) as [Hf Hc]. rewrite Hc, Hf.
  destruct (list_find _ collection) as [[i d]|] eqn:Hfind; simpl.
  - apply list_find_Some in Hfind as (Hi & Hd & Hbefore).
    destruct (find_filter query (delete i collection)) as [Hf' Hc']. rewrite Hc', Hf'.
    pose proof (filter_delete (matches query) collection i d Hi) as Hcount.
    rewrite Hd in Hcount. pose proof (lookup_lt_Some _ _ _ Hi) as Hlt.
    split; [rewrite length_delete by done; lia |]. split; [lia |]. right.
    split; [done |]. exists i, d. split; [done |]. split; [done |].
    split; [| apply delete_take_drop].
    intros j e Hj He. specialize (Hbefore j e He Hj). by destruct (matches query e).
  - split; [done |]. split; [by rewrite Hc, Hf |]. left.
    split; [done |]. split; [done |]. by apply list_find_none_matches.
Qed.

(** The backward loop leaves the documents it has not visited yet and, of
    those it has visited, the ones that do not match. *)
Lemma deleteManyLoop_spec (query : Query) (next : nat) :
  ∀ collection : list Doc,
    next ≤ length collection →
    deleteManyLoop query next collection
    = List.filter (λ d, negb (matches query d)) (take next collection)
      ++ drop next collection.
Proof.
  induction next as [|i IH]; intros collection Hlen; simpl; [done |].
  destruct (lookup_lt_is_Some_2 collection i ltac:(lia)) as [x Hx]. rewrite Hx.
  rewrite (take_S_r _ _ _ Hx), List.filter_app. simpl.
  assert (Hi : length (take i collection) = i) by (rewrite length_take; lia).
  destruct (matches query x); simpl.
  - rewrite IH by (rewrite length_delete; [lia | done]).
    rewrite delete_take_drop, take_app_length', drop_app_length' by done.
    by rewrite app_nil_r.
  - rewrite IH by lia. rewrite (drop_S _ _ _ Hx). by rewrite <- app_assoc.
Qed.

(** X5. [deleteMany] leaves exactly the documents that do not match the
    query, in their order; [deletedCount] is what [countDocuments] counted
    for the query, and afterwards it counts none. *)
Theorem deleteMany_keeps_the_rest (query : Query) (collection : list Doc) :
  let deletedCount := fst (deleteMany query collection) in
  let collection' := snd (deleteMany query collection) in
  collection' = List.filter (λ d, negb (matches query d)) collection
  ∧ deletedCount = countDocuments query collection
  ∧ countDocuments query collection' = 0
  ∧ find query collection' = [].
Proof.
  unfold deleteMany. simpl.
  rewrite (deleteManyLoop_spec query (length collection) collection) by done.
  rewrite drop_all, app_nil_r, firstn_all.
  destruct (find_filter query collection) as [Hf Hc].
  pose proof (filter_length_split (matches query) collection) as Hsplit.
  split; [done |]. split; [rewrite Hc, Hf; lia |].
  destruct (find_filter query (List.filter (λ d, negb (matches query d)) collection))
    as [Hf' Hc'].
  assert (Hnone : List.filter (matches query)
                    (List.filter (λ d, negb (matches query d)) collection) = []).
  { apply filter_none, Forall_forall. intros d Hd%list_elem_of_In.
    apply List.filter_In in Hd as [_ Hd]. by destruct (matches query d). }
  by rewrite Hc', Hf', Hnone.
Qed.

Lemma strictEq_Fin (x y : Q) : strictEq (VNum (Fin x)) (VNum (Fin y)) = true ↔ x == y.
Proof.
  simpl. destruct (x ?= y)%Q eqn:E.
  - apply Qeq_alt in E. done.
  - apply Qlt_alt in E. split; [done | lra].
  - apply Qgt_alt in E. split; [done | lra].
Qed.

Lemma strictEq_Fin_inv (x : Q) (b : Value) :
  strictEq (VNum (Fin x)) b = true → ∃ y : Q, b = VNum (Fin y) ∧ x == y.
Proof.
  destruct b as [| | |[y| | |]| |]; try done. intros H%strictEq_Fin. by exists y.
Qed.

Lemma idsBelow_no_match (bound : Q) (collection : list Doc) (b : Value) :
  idsBelow bound collection →
  strictEq (VNum (Fin bound)) b = true →
  list_find (λ item, strictEq (get item "_id") b = true) collection = None.
Proof.
  intros Hbelow Hb. apply list_find_None. eapply Forall_impl; [exact Hbelow |].
  intros d (q & Hq & Hlt) Hd. simpl in Hd.
  apply strictEq_Fin_inv in Hb as (y & -> & Hy). rewrite Hq in Hd.
  apply strictEq_Fin in Hd. lra.
Qed.

Lemma idsBelow_weaken (n m : Q) (collection : list Doc) :
  (n <= m)%Q → idsBelow n collection → idsBelow m collection.
Proof.
  intros Hnm H. eapply Forall_impl; [exact H |].
  intros d (q & Hq & Hlt). exists q. split; [done | lra].
Qed.

(** X6. Saving an instance without a truthy [_id], into a collection whose
    ids are below the counter of the model, gives it the counter as its [_id],
    advances the counter by one, appends the document, and leaves every other
    property but [createdAt] and [updatedAt] as it was; [findById] with the
    new id returns the saved document, and finds the documents that were
    there as before. *)
Theorem save_new_then_findById
    (parseInt : Value → Number) (collectionName : string) (this : Doc)
    (createdAt updatedAt : Value) (collection : list Doc) (nextId : gmap string Number)
    (n : Q) :
  truthy (get this "_id") = false →
  nextId !! dropLast collectionName = Some (Fin n) →
  idsBelow n collection →
  let result := save collectionName this createdAt updatedAt collection nextId in
  let this' := fst (fst result) in
  let collection' := snd (fst result) in
  let nextId' := snd result in
  get this' "_id" = VNum (Fin n)
  ∧ (∀ key, key ≠ "_id" → key ≠ "createdAt" → key ≠ "updatedAt" →
            get this' key = get this key)
  ∧ collection' = collection ++ [this']
  ∧ findById parseInt (get this' "_id") collection' = Some this'
  ∧ (∀ d, d ∈ collection →
          findById parseInt (get d "_id") collection'
          = findById parseInt (get d "_id") collection)
  ∧ ∃ n' : Q, nextId' !! dropLast collectionName = Some (Fin n')
              ∧ n' == n + 1 ∧ idsBelow n' collection'.
Proof.
  intros Hfalsy Hcounter Hbelow. unfold save. rewrite Hfalsy. unfold postIncrement.
  rewrite Hcounter. simpl.
  set (this' := <["updatedAt" := updatedAt]> (<["createdAt" := createdAt]>
                  (<["_id" := VNum (Fin n)]> this))).
  assert (Hid : get this' "_id" = VNum (Fin n)).
  { unfold get, this'. by rewrite !lookup_insert_ne, lookup_insert_eq by done. }
  split; [done |]. split; [| split; [done |]; split; [| split]].
  - intros key H1 H2 H3. unfold get, this'. by rewrite !lookup_insert_ne by done.
  - rewrite Hid. unfold findById.
    rewrite list_find_app_r
      by (apply (idsBelow_no_match n); [done | by apply strictEq_Fin]).
    simpl. rewrite Hid. rewrite decide_True by by apply strictEq_Fin. done.
  - intros d Hd. unfold findById.
    unfold idsBelow in Hbelow. rewrite Forall_forall in Hbelow.
    destruct (Hbelow d Hd) as (q & Hq & _).
    rewrite Hq.
    destruct (list_find_elem_of
                (λ item, strictEq (get item "_id") (VNum (Fin q)) = true) collection d Hd)
      as [[i e] Hfound]; [rewrite Hq; by apply strictEq_Fin |].
    by rewrite (list_find_app_l _ _ _ _ _ Hfound), Hfound.
  - exists (Qred (n + 1)). rewrite lookup_insert_eq. split; [done |].
    split; [apply Qred_correct |].
    apply Forall_app. split.
    + apply (idsBelow_weaken n); [rewrite Qred_correct; lra | done].
    + apply Forall_singleton. exists n. split; [done |]. rewrite Qred_correct. lra.
Qed.

(** The first course saved into the empty storage. *)
Lemma save_new_then_findById_witness :
  let this : Doc := {["title" := VStr "Logic"]} in
  let result := save "courses" this (VObj 1) (VObj 2) [] initialNextId in
  get (fst (fst result)) "_id" = VNum (Fin 1)
  ∧ findById (λ _, NaN) (VNum (Fin 1)) (snd (fst result)) = Some (fst (fst result)).
Proof.
  intros this result.
  destruct (save_new_then_findById (λ _, NaN) "courses" this (VObj 1) (VObj 2) []
              initialNextId 1 eq_refl eq_refl ltac:(by constructor))
    as (Hid & _ & _ & Hfind & _).
  fold result in Hid, Hfind. split; [exact Hid |]. by rewrite <- Hid.
Defined.

(** X7. Saving an instance with a truthy [_id] never appends and never
    touches a counter.  It overwrites the first document with that [_id]; or,
    when no document has that [_id], it stores nothing at all.  After an
    overwrite, [findById] with that id returns the instance when the id is
    not a string; when it is a string, [findById] looks for the number the
    string parses to and does not return the instance. *)
Theorem save_with_id_overwrites_or_stores_nothing
    (parseInt : Value → Number) (collectionName : string) (this : Doc)
    (createdAt updatedAt : Value) (collection : list Doc) (nextId : gmap string Number) :
  truthy (get this "_id") = true →
  let result := save collectionName this createdAt updatedAt collection nextId in
  let collection' := snd (fst result) in
  fst (fst result) = this
  ∧ snd result = nextId
  ∧ length collection' = length collection
  ∧ ((collection' = collection
      ∧ Forall (λ d, strictEq (get d "_id") (get this "_id") = false) collection)
     ∨ ∃ (i : nat) (d : Doc),
         collection !! i = Some d
         ∧ strictEq (get d "_id") (get this "_id") = true
         ∧ (∀ j e, j < i → collection !! j = Some e →
                   strictEq (get e "_id") (get this "_id") = false)
         ∧ collection' = <[i := this]> collection
         ∧ ((∀ s, get this "_id" ≠ VStr s) →
            findById parseInt (get this "_id") collection' = Some this)
         ∧ (∀ s, get this "_id" = VStr s →
                 findById parseInt (get this "_id") collection' ≠ Some this)).
Proof.
  intros Htruthy. unfold save. rewrite Htruthy.
  destruct (list_find _ collection) as [[i d]|] eqn:Hfind; simpl.
  - split; [done |]. split; [done |]. split; [by rewrite length_insert |]. right.
    pose proof Hfind as (Hi & Hd & Hbefore)%list_find_Some.
    exists i, d. split; [done |]. split; [done |]. split; [| split; [done |]; split].
    + intros j e Hj He. specialize (Hbefore j e He Hj).
      by destruct (strictEq (get e "_id") (get this "_id")).
    + intros Hnostring. unfold findById.
      assert (Hwanted : match get this "_id" with
                        | VStr _ => VNum (parseInt (get this "_id"))
                        | _ => get this "_id"
                        end = get this "_id").
      { destruct (get this "_id") eqn:E; try done. by destruct (Hnostring s). }
      rewrite Hwanted.
      rewrite (list_find_insert_found _ _ _ d this Hfind); [done |].
      apply (strictEq_refl_of _ (get d "_id")). by rewrite strictEq_sym.
    + intros s Hstring Hfound. unfold findById in Hfound. rewrite Hstring in Hfound.
      destruct (list_find _ (<[i := this]> collection)) as [[j e]|] eqn:Hfirst; [| done].
      simpl in Hfound. injection Hfound as ->.
      apply list_find_Some in Hfirst as (_ & Hwanted & _).
      by rewrite Hstring in Hwanted.
  - split; [done |]. split; [done |]. split; [done |]. left. split; [done |].
    apply list_find_None in Hfind. eapply Forall_impl; [exact Hfind |].
    intros e He. simpl in He. by destruct (strictEq (get e "_id") (get this "_id")).
Qed.

(** An instance with the id of the stored course, and one with an id that no
    stored course has. *)
Lemma save_with_id_overwrites_or_stores_nothing_witness :
  let stored : Doc := {["_id" := VNum (Fin 1); "title" := VStr "Logic"]} in
  let this : Doc := {["_id" := VNum (Fin 1); "title" := VStr "Sets"]} in
  let missing : Doc := {["_id" := VNum (Fin 7); "title" := VStr "Categories"]} in
  snd (fst (save "courses" this (VObj 1) (VObj 2) [stored] initialNextId)) = [this]
  ∧ snd (fst (save "courses" missing (VObj 1) (VObj 2) [stored] initialNextId)) = [stored].
Proof.
  intros stored this missing.
  destruct (save_with_id_overwrites_or_stores_nothing (λ _, NaN) "courses" this
              (VObj 1) (VObj 2) [stored] initialNextId eq_refl)
    as (_ & _ & _ & [[_ Hnone]|(i & d & Hi & _ & _ & Hthis & _)]).
  - apply Forall_cons in Hnone as [Hnone _]. by vm_compute in Hnone.
  - destruct (save_with_id_overwrites_or_stores_nothing (λ _, NaN) "courses" missing
                (VObj 1) (VObj 2) [stored] initialNextId eq_refl)
      as (_ & _ & _ & [[Hsame _]|(j & e & Hj & He & _)]).
    + split; [| exact Hsame]. rewrite Hthis. by destruct i.
    + destruct j; [| done]. injection Hj as <-. by vm_compute in He.
Defined.

Lemma strictEq_NaN_l (a : Value) : strictEq (VNum NaN) a = false.
Proof. by destruct a as [| | |[]| |]. Qed.

(** X8. The counter key of a model is its collection name without the last
    letter, and for the attendance model that key, ["attendanc"], is not among
    the counters.  So a new attendance document gets [NaN] as its [_id] and
    the counter of ["attendance"] stays as it is; no [findById] finds the
    document; and saving the returned instance again appends a second
    document. *)
Theorem attendance_documents_get_NaN_ids
    (parseInt : Value → Number) (this : Doc) (createdAt updatedAt createdAt' updatedAt' : Value)
    (collection : list Doc) (nextId : gmap string Number) :
  truthy (get this "_id") = false →
  nextId !! "attendanc" = None →
  let result := save "attendance" this createdAt updatedAt collection nextId in
  let this' := fst (fst result) in
  let collection' := snd (fst result) in
  let nextId' := snd result in
  let again := save "attendance" this' createdAt' updatedAt' collection' nextId' in
  get this' "_id" = VNum NaN
  ∧ collection' = collection ++ [this']
  ∧ nextId' !! "attendance" = nextId !! "attendance"
  ∧ nextId' !! "attendanc" = Some NaN
  ∧ (∀ id, findById parseInt id collection' = findById parseInt id collection)
  ∧ get (fst (fst again)) "_id" = VNum NaN
  ∧ snd (fst again) = collection ++ [this'; fst (fst again)].
Proof.
  intros Hfalsy Hcounter.
  set (this' := <["updatedAt" := updatedAt]> (<["createdAt" := createdAt]>
                  (<["_id" := VNum NaN]> this))).
  assert (Hfirst : save "attendance" this createdAt updatedAt collection nextId
                   = (this', collection ++ [this'], <["attendanc" := NaN]> nextId)).
  { unfold save. rewrite Hfalsy. change (dropLast "attendance") with "attendanc".
    unfold postIncrement. by rewrite Hcounter. }
  rewrite Hfirst. simpl.
  assert (Hid : get this' "_id" = VNum NaN).
  { unfold get, this'. by rewrite !lookup_insert_ne, lookup_insert_eq by done. }
  split; [done |]. split; [done |]. split; [by rewrite lookup_insert_ne |].
  split; [by rewrite lookup_insert_eq |]. split.
  - intros id. unfold findById.
    set (wanted := match id with VStr _ => VNum (parseInt id) | _ => id end).
    destruct (list_find (λ item, strictEq (get item "_id") wanted = true) collection)
      as [[i d]|] eqn:Hfind.
    + by rewrite (list_find_app_l _ _ _ _ _ Hfind).
    + rewrite (list_find_app_r _ _ _ Hfind). simpl.
      rewrite Hid, strictEq_NaN_l. by rewrite decide_False.
  - unfold save. rewrite Hid. simpl. change (dropLast "attendance") with "attendanc".
    unfold postIncrement. rewrite lookup_insert_eq. simpl. split.
    + unfold get. by rewrite !lookup_insert_ne, lookup_insert_eq by done.
    + by rewrite <- app_assoc.
Qed.

(** The first attendance document saved into the empty storage. *)
Lemma attendance_documents_get_NaN_ids_witness :
  let this : Doc := {["course" := VNum (Fin 1)]} in
  let result := save "attendance" this (VObj 1) (VObj 2) [] initialNextId in
  get (fst (fst result)) "_id" = VNum NaN
  ∧ findById (λ _, NaN) (get (fst (fst result)) "_id") (snd (fst result)) = None.
Proof.
  intros this result.
  destruct (attendance_documents_get_NaN_ids (λ _, NaN) this (VObj 1) (VObj 2) (VObj 3)
              (VObj 4) [] initialNextId eq_refl eq_refl)
    as (Hid & _ & _ & _ & Hfind & _).
  fold result in Hid, Hfind. split; [exact Hid |]. by rewrite Hfind.
Defined.

(** The attendance model is the only one whose counter key is missing. *)
Lemma counter_keys_of_the_models :
  Forall (λ name, name ≠ "attendance" → initialNextId !! dropLast name = Some (Fin 1))
    collectionNames
  ∧ initialNextId !! dropLast "attendance" = None
  ∧ "attendance" ∈ collectionNames.
Proof.
  split; [| split; [by vm_compute | unfold collectionNames; set_solver]].
  unfold collectionNames. repeat constructor; intros Hne; by vm_compute.
Qed.

End MockFacts.

(** ** Sequences of requests to one model class *)

Section MockSequences.

Import Mock.

(** Two values that are strictly equal compare alike with every value. *)
Lemma strictEq_congr (a b x : Value) :
  strictEq a b = true → strictEq a x = strictEq b x.
Proof.
  intros Hab. destruct (strictEq a x) eqn:Hax, (strictEq b x) eqn:Hbx; try done.
  - rewrite strictEq_sym in Hab. by rewrite (strictEq_trans b a x Hab Hax) in Hbx.
  - by rewrite (strictEq_trans a b x Hab Hbx) in Hax.
Qed.

Lemma sameIds_idsBelow (bound : Q) (l l' : list Doc) :
  sameIds l l' → idsBelow bound l → idsBelow bound l'.
Proof.
  unfold idsBelow. induction 1 as [|d d' l l' Hd _ IH]; [done |].
  intros [(q & Hq & Hlt) Hl]%Forall_cons. apply Forall_cons. split; [| by apply IH].
  rewrite Hq in Hd. apply strictEq_Fin_inv in Hd as (y & Hy & Hqy).
  exists y. split; [done | lra].
Qed.

Lemma sameIds_idsDistinct (l l' : list Doc) :
  sameIds l l' → idsDistinct l → idsDistinct l'.
Proof.
  induction 1 as [|d d' l l' Hd Hl IH]; [done |]. simpl. intros [Hrest Hdist].
  split; [| by apply IH]. clear IH Hdist.
  induction Hl as [|e e' l l' He _ IH]; [done |].
  apply Forall_cons in Hrest as [Hde Hrest]. apply Forall_cons. split; [| by apply IH].
  rewrite <- (strictEq_congr _ _ _ Hd), strictEq_sym.
  by rewrite <- (strictEq_congr _ _ _ He), strictEq_sym.
Qed.

Lemma sameIds_refl (bound : Q) (l : list Doc) : idsBelow bound l → sameIds l l.
Proof.
  induction 1 as [|d l (q & Hq & _) _ IH]; [by constructor |].
  constructor; [| done]. rewrite Hq. by apply strictEq_Fin.
Qed.

Lemma sameIds_insert (bound : Q) (l : list Doc) (i : nat) (d d' : Doc) :
  idsBelow bound l → l !! i = Some d →
  strictEq (get d "_id") (get d' "_id") = true →
  sameIds l (<[i := d']> l).
Proof.
  intros Hbelow Hi Hd. unfold sameIds.
  rewrite <- (list_insert_id l i d Hi) at 1.
  apply Forall2_insert; [by apply (sameIds_refl bound) | done].
Qed.

Lemma Forall_sublist {A} (P : A → Prop) (l' l : list A) :
  l' `sublist_of` l → Forall P l → Forall P l'.
Proof.
  induction 1 as [|x l' l _ IH|x l' l _ IH]; [done | |].
  - intros [Hx Hl]%Forall_cons. apply Forall_cons. split; [done | by apply IH].
  - intros [_ Hl]%Forall_cons. by apply IH.
Qed.

Lemma updateMany_spec_lookup (query : Query) (updates : Doc) (updatedAt : nat → Value)
    (collection : list Doc) :
  length (snd (updateMany query updates updatedAt collection)) = length collection
  ∧ ∀ i, snd (updateMany query updates updatedAt collection) !! i
         = (λ d, if matches query d then merge d updates (updatedAt i) else d)
           <$> collection !! i.
Proof.
  destruct (updateManyFrom_spec query updates updatedAt collection 0) as [_ Hat].
  fold (updateMany query updates updatedAt collection) in Hat. split; [| exact Hat].
  apply Nat.le_antisymm.
  - apply Nat.nlt_ge. intros Hlt. apply lookup_lt_is_Some_2 in Hlt.
    rewrite Hat in Hlt. apply fmap_is_Some in Hlt. apply lookup_lt_is_Some_1 in Hlt. lia.
  - apply Nat.nlt_ge. intros Hlt. apply lookup_lt_is_Some_2 in Hlt.
    eapply fmap_is_Some in Hlt. rewrite <- Hat in Hlt.
    apply lookup_lt_is_Some_1 in Hlt. lia.
Qed.

Lemma merge_keeps_id (item updates : Doc) (updatedAt : Value) :
  updates !! "_id" = None → get (merge item updates updatedAt) "_id" = get item "_id".
Proof. intros H. rewrite get_merge, H. by rewrite decide_False. Qed.

Lemma idsBelow_sublist (bound : Q) (l l' : list Doc) :
  l' `sublist_of` l → idsBelow bound l → idsBelow bound l'.
Proof. intros Hsub. unfold idsBelow. by apply Forall_sublist. Qed.

Lemma idsDistinct_sublist (l l' : list Doc) :
  l' `sublist_of` l → idsDistinct l → idsDistinct l'.
Proof.
  induction 1 as [|d l' l Hsub IH|d l' l Hsub IH]; simpl; [done | |].
  - intros [Hd Hl]. split; [| by apply IH]. by apply (Forall_sublist _ l' l).
  - intros [_ Hl]. by apply IH.
Qed.

Lemma filter_sublist (f : Doc → bool) (l : list Doc) : List.filter f l `sublist_of` l.
Proof.
  induction l as [|d l IH]; simpl; [constructor |].
  destruct (f d); by constructor.
Qed.

Lemma idsDistinct_snoc (l : list Doc) (d : Doc) :
  idsDistinct l → Forall (λ e, strictEq (get e "_id") (get d "_id") = false) l →
  idsDistinct (l ++ [d]).
Proof.
  induction l as [|e l IH]; simpl; [done |].
  intros [He Hl] [Hed Hld]%Forall_cons. split; [| by apply IH].
  apply Forall_app. split; [done |]. by apply Forall_singleton.
Qed.

Lemma handle_wellNumbered (collectionName : string) (r : Request) (n : Q)
    (state : list Doc * gmap string Number) :
  keepsId r → wellNumbered collectionName n state →
  ∃ n' : Q, (n <= n')%Q ∧ wellNumbered collectionName n' (handle collectionName r state).
Proof.
  destruct state as [collection nextId]. intros Hkeep (Hdist & Hcounter & Hbelow).
  simpl in Hdist, Hcounter, Hbelow. unfold wellNumbered.
  assert (Hsame : ∀ collection',
            sameIds collection collection' →
            ∃ n' : Q, (n <= n')%Q ∧ idsDistinct collection'
                      ∧ nextId !! dropLast collectionName = Some (Fin n')
                      ∧ idsBelow n' collection').
  { intros collection' Hsame. exists n. split; [lra |].
    split; [by apply (sameIds_idsDistinct collection) |]. split; [done |].
    by apply (sameIds_idsBelow n collection). }
  assert (Hsub : ∀ collection',
            collection' `sublist_of` collection →
            ∃ n' : Q, (n <= n')%Q ∧ idsDistinct collection'
                      ∧ nextId !! dropLast collectionName = Some (Fin n')
                      ∧ idsBelow n' collection').
  { intros collection' Hsub. exists n. split; [lra |].
    split; [by apply (idsDistinct_sublist collection) |]. split; [done |].
    by apply (idsBelow_sublist n collection). }
  destruct r as [this createdAt updatedAt|query updates updatedAt|query updates updatedAt
                 |query|query]; simpl in *.
  - unfold save. destruct (truthy (get this "_id")) eqn:Htruthy.
    + destruct (list_find _ collection) as [[i d]|] eqn:Hfind; simpl;
        [| by apply Hsub].
      apply list_find_Some in Hfind as (Hi & Hd & _).
      apply Hsame. by apply (sameIds_insert n collection i d this).
    + unfold postIncrement. rewrite Hcounter. simpl.
      set (this' := <["updatedAt" := updatedAt]> (<["createdAt" := createdAt]>
                      (<["_id" := VNum (Fin n)]> this))).
      assert (Hid : get this' "_id" = VNum (Fin n)).
      { unfold get, this'. by rewrite !lookup_insert_ne, lookup_insert_eq by done. }
      exists (Qred (n + 1)). split; [rewrite Qred_correct; lra |]. split; [| split].
      * apply idsDistinct_snoc; [done |]. rewrite Hid.
        eapply Forall_impl; [exact Hbelow |]. intros e (q & Hq & Hlt). rewrite Hq.
        destruct (strictEq (VNum (Fin q)) (VNum (Fin n))) eqn:E; [| done].
        apply strictEq_Fin in E. lra.
      * by rewrite lookup_insert_eq.
      * apply Forall_app. split.
        -- apply (idsBelow_weaken n); [rewrite Qred_correct; lra | done].
        -- apply Forall_singleton. exists n. split; [done |]. rewrite Qred_correct. lra.
  - unfold updateOne.
    destruct (list_find _ collection) as [[i d]|] eqn:Hfind; simpl; [| by apply Hsub].
    apply list_find_Some in Hfind as (Hi & _ & _).
    apply Hsame. apply (sameIds_insert n _ _ d); [done | done |].
    rewrite merge_keeps_id by done.
    unfold idsBelow in Hbelow. rewrite Forall_lookup in Hbelow.
    destruct (Hbelow i d Hi) as (q & -> & _). by apply strictEq_Fin.
  - destruct (updateMany_spec_lookup query updates updatedAt collection) as [Hlen Hat].
    apply Hsame. apply Forall2_same_length_lookup. split; [done |].
    intros i d d' Hi Hi'. rewrite Hat, Hi in Hi'. simpl in Hi'. injection Hi' as <-.
    unfold idsBelow in Hbelow. rewrite Forall_lookup in Hbelow.
    destruct (Hbelow i d Hi) as (q & Hq & _).
    destruct (matches query d); rewrite ?merge_keeps_id by done; rewrite Hq;
      by apply strictEq_Fin.
  - apply Hsub. unfold deleteOne.
    destruct (list_find _ collection) as [[i d]|]; simpl; [| done]. apply sublist_delete.
  - apply Hsub. unfold deleteMany. simpl.
    rewrite (deleteManyLoop_spec query (length collection) collection) by done.
    rewrite drop_all, app_nil_r, firstn_all. apply filter_sublist.
Qed.

Lemma serve_wellNumbered (collectionName : string) (requests : list Request) :
  ∀ (n : Q) (state : list Doc * gmap string Number),
    Forall keepsId requests → wellNumbered collectionName n state →
    ∃ n' : Q, (n <= n')%Q ∧ wellNumbered collectionName n' (serve collectionName requests state).
Proof.
  induction requests as [|r requests IH]; intros n state Hkeep Hwell; simpl.
  - exists n. split; [lra | done].
  - apply Forall_cons in Hkeep as [Hr Hrest].
    destruct (handle_wellNumbered collectionName r n state Hr Hwell) as (m & Hnm & Hm).
    destruct (IH m _ Hrest Hm) as (n' & Hmn' & Hn'). exists n'. split; [lra | done].
Qed.

Lemma idsDistinct_lookup (l : list Doc) (i j : nat) (d e : Doc) :
  idsDistinct l → l !! i = Some d → l !! j = Some e → i < j →
  strictEq (get d "_id") (get e "_id") = false.
Proof.
  revert i j. induction l as [|x l IH]; intros i j Hdist Hi Hj Hlt; [done |].
  destruct Hdist as [Hx Hl]. destruct j as [|j]; [lia |]. destruct i as [|i]; simpl in *.
  - injection Hi as ->. rewrite Forall_lookup in Hx. by apply (Hx j).
  - apply (IH i j); [done | done | done | lia].
Qed.

(** X9. When the ids of a collection are distinct numbers below the counter
    of its model, they stay so through every sequence of saves, updates that
    leave [_id] alone, and deletions; the counter never goes down; and
    afterwards [findById] with the [_id] of a stored document returns that
    very document. *)
Theorem ids_stay_keys
    (parseInt : Value → Number) (collectionName : string) (requests : list Request)
    (collection : list Doc) (nextId : gmap string Number) (n : Q) :
  idsDistinct collection →
  nextId !! dropLast collectionName = Some (Fin n) →
  idsBelow n collection →
  Forall keepsId requests →
  let collection' := fst (serve collectionName requests (collection, nextId)) in
  let nextId' := snd (serve collectionName requests (collection, nextId)) in
  idsDistinct collection'
  ∧ (∃ n' : Q, nextId' !! dropLast collectionName = Some (Fin n')
               ∧ (n <= n')%Q ∧ idsBelow n' collection')
  ∧ ∀ d, d ∈ collection' → findById parseInt (get d "_id") collection' = Some d.
Proof.
  intros Hdist Hcounter Hbelow Hkeep collection' nextId'.
  destruct (serve_wellNumbered collectionName requests n (collection, nextId) Hkeep)
    as (n' & Hnn' & Hdist' & Hcounter' & Hbelow'); [done |].
  fold collection' in Hdist', Hbelow'. fold nextId' in Hcounter'.
  split; [done |]. split; [by exists n' |].
  intros d [i Hi]%list_elem_of_lookup_1. unfold findById.
  pose proof Hbelow' as Hall. unfold idsBelow in Hall. rewrite Forall_lookup in Hall.
  destruct (Hall i d Hi) as (q & Hq & _). rewrite Hq.
  destruct (list_find_elem_of
              (λ item, strictEq (get item "_id") (VNum (Fin q)) = true) collection' d)
    as [[j e] Hfound]; [by apply list_elem_of_lookup_2 in Hi
                       | rewrite Hq; by apply strictEq_Fin |].
  rewrite Hfound. simpl. f_equal.
  apply list_find_Some in Hfound as (Hj & He & Hfirst).
  destruct (Nat.lt_trichotomy j i) as [Hlt|[->|Hgt]].
  - pose proof (idsDistinct_lookup collection' j i e d Hdist' Hj Hi Hlt) as Hne.
    rewrite Hq in Hne. by rewrite Hne in He.
  - congruence.
  - specialize (Hfirst i d Hi Hgt). rewrite Hq in Hfirst. destruct Hfirst.
    by apply strictEq_Fin.
Qed.

(** Three courses are saved, the first is deleted between the second and the
    third, and all are updated. *)
Lemma ids_stay_keys_witness :
  let requests :=
    [Save {["title" := VStr "Logic"]} (VObj 1) (VObj 2);
     Save {["title" := VStr "Sets"]} (VObj 3) (VObj 4);
     DeleteOne [("title", VStr "Logic")];
     Save {["title" := VStr "Categories"]} (VObj 5) (VObj 6);
     UpdateMany [] {["credits" := VNum (Fin 3)]} (λ i, VObj (N.of_nat i))] in
  let collection := fst (serve "courses" requests ([], initialNextId)) in
  idsDistinct collection
  ∧ map (λ d, get d "_id") collection = [VNum (Fin 2); VNum (Fin 3)].
Proof.
  intros requests collection.
  destruct (ids_stay_keys (λ _, NaN) "courses" requests [] initialNextId 1
              I eq_refl ltac:(by constructor)) as (Hdistinct & _).
  { subst requests. repeat constructor. }
  split; [exact Hdistinct | by vm_compute].
Defined.

(** X10. [save] of the user model hashes a password once.  A password that
    starts with ["$2"] is stored as it is, any other one as [bcrypt.hash]
    returns it; and as the hashes of bcrypt start with ["$2"], saving the
    returned instance again changes neither the stored password nor the
    collection nor the counters. *)
Theorem user_password_hashed_once
    (hash : Value → Outcome Value) (this : Doc)
    (createdAt updatedAt createdAt' updatedAt' : Value)
    (collection : list Doc) (nextId : gmap string Number) (n : Q) (password : string) :
  truthy (get this "_id") = false →
  get this "password" = VStr password →
  nextId !! "user" = Some (Fin n) →
  ¬ n == 0 →
  idsBelow n collection →
  (∀ s h, hash (VStr s) = Returned h → ∃ h', h = VStr h' ∧ String.prefix "$2" h' = true) →
  match userSave hash this createdAt updatedAt collection nextId with
  | Thrown _ => String.prefix "$2" password = false ∧ ∃ m, hash (VStr password) = Thrown m
  | Returned (this', collection', nextId') =>
      (if String.prefix "$2" password
       then get this' "password" = VStr password
       else hash (VStr password) = Returned (get this' "password"))
      ∧ collection' = collection ++ [this']
      ∧ userSave hash this' createdAt' updatedAt' collection' nextId'
        = Returned (this', collection', nextId')
  end.
Proof.
  intros Hfalsy Hpw Hcounter Hn Hbelow Hbcrypt.
  assert (Hsaved : ∀ (that : Doc) (stored : string),
            truthy (get that "_id") = false →
            get that "password" = VStr stored →
            String.prefix "$2" stored = true →
            match save "users" that createdAt updatedAt collection nextId with
            | (this', collection', nextId') =>
                get this' "password" = VStr stored
                ∧ collection' = collection ++ [this']
                ∧ userSave hash this' createdAt' updatedAt' collection' nextId'
                  = Returned (this', collection', nextId')
            end).
  { intros that stored Hthat Hstored Hprefix. unfold save. rewrite Hthat.
    change (dropLast "users") with "user". unfold postIncrement. rewrite Hcounter. simpl.
    set (this' := <["updatedAt" := updatedAt]> (<["createdAt" := createdAt]>
                    (<["_id" := VNum (Fin n)]> that))).
    assert (Hid : get this' "_id" = VNum (Fin n)).
    { unfold get, this'. by rewrite !lookup_insert_ne, lookup_insert_eq by done. }
    assert (Hpw' : get this' "password" = VStr stored).
    { rewrite <- Hstored. unfold get, this'. by rewrite !lookup_insert_ne by done. }
    split; [done |]. split; [done |].
    unfold userSave. rewrite Hpw', Hprefix. f_equal. unfold save. rewrite Hid.
    assert (Htruthy : truthy (VNum (Fin n)) = true).
    { simpl. destruct (Qeq_bool n 0) eqn:E; [| done]. by apply Qeq_bool_iff in E. }
    rewrite Htruthy.
    rewrite list_find_app_r
      by (apply (idsBelow_no_match n); [done | by apply strictEq_Fin]).
    simpl. rewrite Hid. rewrite decide_True by by apply strictEq_Fin. simpl.
    f_equal. f_equal. rewrite insert_app_r_alt by done. by rewrite Nat.sub_diag. }
  unfold userSave at 1. rewrite Hpw.
  destruct (String.prefix "$2" password) eqn:Hprefix.
  - specialize (Hsaved this password Hfalsy Hpw Hprefix).
    by destruct (save "users" this createdAt updatedAt collection nextId) as [[? ?] ?].
  - destruct (hash (VStr password)) as [hashed|message] eqn:Hhash; [| by eauto].
    destruct (Hbcrypt password hashed Hhash) as (h' & -> & Hh').
    assert (Hthat : truthy (get (<["password" := VStr h']> this) "_id") = false).
    { unfold get. by rewrite lookup_insert_ne. }
    assert (Hstored : get (<["password" := VStr h']> this) "password" = VStr h').
    { unfold get. by rewrite lookup_insert_eq. }
    specialize (Hsaved _ h' Hthat Hstored Hh').
    destruct (save "users" _ createdAt updatedAt collection nextId) as [[this' ?] ?].
    destruct Hsaved as (Hp & ? & ?). by rewrite Hp.
Qed.

(** A user with the password "secret" is saved twice. *)
Lemma user_password_hashed_once_witness :
  let hash := λ _ : Value, Returned (VStr "$2b$12$hash") in
  let this : Doc := {["email" := VStr "ada@example.org"; "password" := VStr "secret"]} in
  ∃ this' collection' nextId',
    userSave hash this (VObj 1) (VObj 2) [] initialNextId
    = Returned (this', collection', nextId')
    ∧ get this' "password" = VStr "$2b$12$hash"
    ∧ userSave hash this' (VObj 3) (VObj 4) collection' nextId'
      = Returned (this', collection', nextId').
Proof.
  intros hash this.
  pose proof (user_password_hashed_once hash this (VObj 1) (VObj 2) (VObj 3) (VObj 4) []
                initialNextId 1 "secret" eq_refl eq_refl eq_refl
                ltac:(done) ltac:(by constructor)
                ltac:(intros s h [= <-]; by eexists)) as H.
  destruct (userSave hash this (VObj 1) (VObj 2) [] initialNextId)
    as [[[this' collection'] nextId']|message] eqn:Hsave.
  - exists this', collection', nextId'. destruct H as (Hhash & _ & Hagain).
    split; [done |]. split; [| exact Hagain]. simpl in Hhash. by injection Hhash as <-.
  - destruct H as [_ [m Hm]]. done.
Defined.

End MockSequences.

(** ** The mock database and its user model *)

Section MockDbFacts.

Import Mock(Value, VUndefined, VNull, VBool, VNum, VStr, VObj, Outcome, Returned, Thrown).

Lemma get_created (id : Number) (data : Mock.Doc) (createdAt updatedAt : Value)
    (key : string) :
  Mock.get (MockDb.created id data createdAt updatedAt) key
  = if decide (key = "updatedAt") then updatedAt
    else if decide (key = "createdAt") then createdAt
    else match data !! key with
         | Some value => value
         | None => if decide (key = "_id") then VNum id else VUndefined
         end.
Proof.
  unfold Mock.get, MockDb.created.
  destruct (decide (key = "updatedAt")) as [->|H1]; [by rewrite lookup_insert_eq |].
  rewrite lookup_insert_ne by done.
  destruct (decide (key = "createdAt")) as [->|H2]; [by rewrite lookup_insert_eq |].
  rewrite lookup_insert_ne by done. rewrite lookup_union.
  destruct (data !! key) as [value|] eqn:Hdata.
  - by destruct ({["_id" := VNum id]} !! key).
  - destruct (decide (key = "_id")) as [->|H3].
    + by rewrite lookup_singleton_eq.
    + by rewrite lookup_singleton_ne.
Qed.

Lemma list_find_snoc_none {A} (P : A → Prop) `{!∀ x, Decision (P x)} (l : list A) (x : A) :
  list_find P l = None → P x → snd <$> list_find P (l ++ [x]) = Some x.
Proof.
  intros Hnone Hx. rewrite (list_find_app_r _ _ _ Hnone). simpl.
  by rewrite decide_True by done.
Qed.

(** X11. [createUser] with data that has no [_id] of its own, on users whose
    ids are below the counter: the user gets the counter as [_id] and the data
    as its other properties, is appended, and is what [findUserById] then
    returns for that id; the counter advances by one.  The e-mail address is
    not checked: [findUserByEmail] goes on returning an earlier user with the
    same address, and returns the new user only when there is none. *)
Theorem createUser_then_find
    (parseInt : Value → Number) (userData : Mock.Doc) (createdAt updatedAt : Value)
    (db : MockDb.t) (n : Q) :
  userData !! "_id" = None →
  MockDb.nextUserId db = Fin n →
  Mock.idsBelow n (MockDb.users db) →
  parseInt (VNum (Fin n)) = Fin n →
  let user := fst (MockDb.createUser userData createdAt updatedAt db) in
  let db' := snd (MockDb.createUser userData createdAt updatedAt db) in
  let email := Mock.get userData "email" in
  Mock.get user "_id" = VNum (Fin n)
  ∧ (∀ key, key ≠ "_id" → key ≠ "createdAt" → key ≠ "updatedAt" →
            Mock.get user key = Mock.get userData key)
  ∧ MockDb.users db' = MockDb.users db ++ [user]
  ∧ MockDb.findUserById parseInt (VNum (Fin n)) db' = Some user
  ∧ (∃ n' : Q, MockDb.nextUserId db' = Fin n' ∧ n' == n + 1
               ∧ Mock.idsBelow n' (MockDb.users db'))
  ∧ (∀ u, MockDb.findUserByEmail email db = Some u →
          MockDb.findUserByEmail email db' = Some u)
  ∧ (MockDb.findUserByEmail email db = None → Mock.strictEq email email = true →
     MockDb.findUserByEmail email db' = Some user).
Proof.
  intros Hnoid Hcounter Hbelow Hparse user db' email.
  assert (Hid : Mock.get user "_id" = VNum (Fin n)).
  { subst user. unfold MockDb.createUser. simpl. rewrite get_created, Hnoid, Hcounter.
    by rewrite !decide_False, decide_True by done. }
  assert (Hkeys : ∀ key, key ≠ "_id" → key ≠ "createdAt" → key ≠ "updatedAt" →
                         Mock.get user key = Mock.get userData key).
  { intros key H1 H2 H3. subst user. unfold MockDb.createUser. simpl.
    rewrite get_created, !decide_False by done. unfold Mock.get.
    by destruct (userData !! key). }
  assert (Husers : MockDb.users db' = MockDb.users db ++ [user]) by done.
  split; [done |]. split; [done |]. split; [done |]. split; [| split; [| split]].
  - unfold MockDb.findUserById. rewrite Husers, Hparse.
    rewrite (list_find_snoc_none _ _ user); [done | | by rewrite Hid; apply strictEq_Fin].
    apply (idsBelow_no_match n); [done | by apply strictEq_Fin].
  - exists (Qred (n + 1)). split; [subst db'; simpl; by rewrite Hcounter |].
    split; [apply Qred_correct |]. rewrite Husers. apply Forall_app. split.
    + apply (idsBelow_weaken n); [rewrite Qred_correct; lra | done].
    + apply Forall_singleton. exists n. split; [done |]. rewrite Qred_correct. lra.
  - intros u Hu. unfold MockDb.findUserByEmail in *. rewrite Husers.
    destruct (list_find _ (MockDb.users db)) as [[i x]|] eqn:Hfind; [| done].
    by rewrite (list_find_app_l _ _ _ _ _ Hfind).
  - intros Hnone Hself. unfold MockDb.findUserByEmail in *. rewrite Husers.
    destruct (list_find _ (MockDb.users db)) as [[i x]|] eqn:Hfind; [done |].
    rewrite (list_find_snoc_none _ _ user); [done | done |].
    rewrite (Hkeys "email") by done. exact Hself.
Qed.

(** A second user with the e-mail address of the default admin. *)
Lemma createUser_then_find_witness :
  let parseInt := λ id, match id with VNum n => n | _ => NaN end in
  let db := MockDb.initial (VObj 1) (VObj 2) in
  let userData : Mock.Doc :=
    {["email" := VStr "admin@edumanage.com"; "role" := VStr "student"]} in
  let user := fst (MockDb.createUser userData (VObj 3) (VObj 4) db) in
  let db' := snd (MockDb.createUser userData (VObj 3) (VObj 4) db) in
  Mock.get user "_id" = VNum (Fin 2)
  ∧ MockDb.findUserById parseInt (VNum (Fin 2)) db' = Some user
  ∧ ∃ u, MockDb.findUserByEmail (VStr "admin@edumanage.com") db' = Some u
         ∧ Mock.get u "role" = VStr "admin".
Proof.
  intros parseInt db userData user db'.
  destruct (createUser_then_find parseInt userData (VObj 3) (VObj 4) db 2
              eq_refl eq_refl) as (Hid & _ & _ & Hfind & _ & Hemail & _).
  { repeat constructor. exists 1%Q. split; [done | lra]. }
  { done. }
  fold user in Hid. fold db' in Hfind, Hemail.
  split; [exact Hid |]. split; [exact Hfind |].
  change (Mock.get userData "email") with (VStr "admin@edumanage.com") in Hemail.
  exists (MockDb.created (Fin 1) MockDb.adminData (VObj 1) (VObj 2)).
  split; [by apply Hemail | done].
Defined.

(** X12. A property [_id] of the data given to [createUser] replaces the id
    of the counter, which is advanced all the same.  When a stored user has
    that id already, the new user is stored beside it and [findUserById] keeps
    returning the earlier one. *)
Theorem createUser_own_id_wins
    (parseInt : Value → Number) (userData : Mock.Doc) (createdAt updatedAt : Value)
    (db : MockDb.t) (id : Value) :
  userData !! "_id" = Some id →
  let user := fst (MockDb.createUser userData createdAt updatedAt db) in
  let db' := snd (MockDb.createUser userData createdAt updatedAt db) in
  Mock.get user "_id" = id
  ∧ MockDb.users db' = MockDb.users db ++ [user]
  ∧ MockDb.nextUserId db' = (MockDb.nextUserId db + Fin 1)%js
  ∧ ∀ wanted u, MockDb.findUserById parseInt wanted db = Some u →
                MockDb.findUserById parseInt wanted db' = Some u.
Proof.
  intros Hid user db'. split; [| split; [done | split; [done |]]].
  - subst user. unfold MockDb.createUser. simpl. rewrite get_created, Hid.
    by rewrite !decide_False by done.
  - intros wanted u. unfold MockDb.findUserById. subst db'. simpl.
    destruct (list_find _ (MockDb.users db)) as [[i x]|] eqn:Hfind; [| done].
    by rewrite (list_find_app_l _ _ _ _ _ Hfind).
Qed.

(** A user created with the id of the default admin. *)
Lemma createUser_own_id_wins_witness :
  let parseInt := λ id, match id with VNum n => n | _ => NaN end in
  let db := MockDb.initial (VObj 1) (VObj 2) in
  let userData : Mock.Doc := {["_id" := VNum (Fin 1); "role" := VStr "student"]} in
  let user := fst (MockDb.createUser userData (VObj 3) (VObj 4) db) in
  let db' := snd (MockDb.createUser userData (VObj 3) (VObj 4) db) in
  Mock.get user "_id" = VNum (Fin 1)
  ∧ MockDb.nextUserId db' = Fin 3
  ∧ ∃ u, MockDb.findUserById parseInt (VNum (Fin 1)) db' = Some u
         ∧ Mock.get u "role" = VStr "admin".
Proof.
  intros parseInt db userData user db'.
  destruct (createUser_own_id_wins parseInt userData (VObj 3) (VObj 4) db (VNum (Fin 1))
              eq_refl) as (Hid & _ & Hcounter & Hfind).
  fold user in Hid. fold db' in Hcounter, Hfind.
  split; [exact Hid |]. split; [by rewrite Hcounter |].
  exists (MockDb.created (Fin 1) MockDb.adminData (VObj 1) (VObj 2)).
  split; [by apply Hfind | done].
Defined.

Lemma filter_all {A} (f : A → bool) (l : list A) :
  Forall (λ x, f x = true) l → List.filter f l = l.
Proof. induction 1 as [|x l Hx _ IH]; [done |]. simpl. by rewrite Hx, IH. Qed.

Lemma list_find_filter_keep {A} (P : A → Prop) `{!∀ x, Decision (P x)}
    (f : A → bool) (l : list A) :
  Forall (λ x, P x → f x = true) l →
  snd <$> list_find P (List.filter f l) = snd <$> list_find P l.
Proof.
  induction 1 as [|x l Hx _ IH]; [done |]. simpl.
  destruct (decide (P x)) as [HP|HP].
  - rewrite (Hx HP). simpl. by rewrite decide_True.
  - destruct (f x); simpl; [rewrite decide_False by done |];
      destruct (list_find P (List.filter f l)) as [[i a]|],
               (list_find P l) as [[j b]|]; simpl in *; congruence.
Qed.

(** X13. [deleteUser] compares the id as it is given, while [findUserById]
    parses it first.  On users with numeric ids, [deleteUser] with a string
    deletes nobody, whatever [findUserById] finds for that string; with a
    number it deletes every user with that id, so that [findUserById] finds
    none for it, and what [findUserById] finds for other ids stays. *)
Theorem deleteUser_compares_strictly
    (parseInt : Value → Number) (db : MockDb.t) (n : Q) :
  Mock.idsBelow n (MockDb.users db) →
  (∀ s, MockDb.deleteUser (VStr s) db = db)
  ∧ ∀ q : Q,
      let db' := MockDb.deleteUser (VNum (Fin q)) db in
      (∀ id, parseInt id = Fin q → MockDb.findUserById parseInt id db' = None)
      ∧ (∀ id, ¬ (parseInt id ≈ Fin q)%js →
               MockDb.findUserById parseInt id db' = MockDb.findUserById parseInt id db).
Proof.
  intros Hbelow. split.
  - intros s. unfold MockDb.deleteUser. rewrite filter_all; [by destruct db |].
    eapply Forall_impl; [exact Hbelow |]. intros u (q & -> & _). done.
  - intros q db'. split.
    + intros id Hid. unfold MockDb.findUserById. rewrite Hid. subst db'. simpl.
      replace (list_find _ _) with (@None (nat * Mock.Doc)); [done |]. symmetry.
      apply list_find_None, Forall_forall. intros u Hu%list_elem_of_In.
      apply List.filter_In in Hu as [_ Hu]. intros Heq. simpl in Heq.
      by rewrite Heq in Hu.
    + intros id Hne. unfold MockDb.findUserById. subst db'. simpl.
      apply list_find_filter_keep. eapply Forall_impl; [exact Hbelow |].
      intros u (y & Hy & _) Hu. simpl in Hu. rewrite Hy in Hu |- *.
      apply strictEq_Fin_inv in Hu as (z & [= Hz] & Hyz). rewrite Hz in Hne. simpl in Hne.
      destruct (Mock.strictEq (VNum (Fin y)) (VNum (Fin q))) eqn:E; [| done].
      apply strictEq_Fin in E. destruct Hne. by rewrite <- Hyz.
Qed.

(** The default admin and the string "1". *)
Lemma deleteUser_compares_strictly_witness :
  let parseInt := λ id, match id with VNum n => n | VStr "1" => Fin 1 | _ => NaN end in
  let db := MockDb.initial (VObj 1) (VObj 2) in
  is_Some (MockDb.findUserById parseInt (VStr "1") db)
  ∧ MockDb.deleteUser (VStr "1") db = db
  ∧ MockDb.findUserById parseInt (VStr "1") (MockDb.deleteUser (VNum (Fin 1)) db) = None.
Proof.
  intros parseInt db.
  destruct (deleteUser_compares_strictly parseInt db 2) as [Hstring Hnumber].
  { repeat constructor. exists 1%Q. split; [done | lra]. }
  split; [by eexists |]. split; [apply Hstring |].
  by apply (proj1 (Hnumber 1%Q)).
Defined.

(** The users of the unsaved instance are not among the stored ones. *)
Lemma existsb_sameId_below (n : Q) (users : list Mock.Doc) (id : Value) :
  Mock.idsBelow n users → Mock.strictEq (VNum (Fin n)) id = true →
  existsb (λ u, Mock.strictEq (Mock.get u "_id") id) users = false.
Proof.
  intros Hbelow Hid. apply Bool.not_true_is_false. intros (u & Hu & Heq)%existsb_exists.
  apply list_elem_of_In in Hu. unfold Mock.idsBelow in Hbelow.
  rewrite Forall_forall in Hbelow. destruct (Hbelow u Hu) as (q & Hq & Hlt).
  rewrite Hq in Heq. apply strictEq_Fin_inv in Hid as (y & -> & Hy).
  apply strictEq_Fin in Heq. lra.
Qed.

(** X14. [new MockUser(data).save()] for data without an [_id], on users
    whose ids are below the counter.  The constructor takes the counter as the
    [_id] of the instance, and [save], which finds no stored user with it,
    takes the next one: the stored user has the id after the counter, the
    counter has advanced by two, and no stored user has the id the constructor
    took.  The password is stored as [bcrypt.hash] returns it.  Without a
    password [save] throws and stores nothing, and the id of the constructor is
    spent all the same. *)
Theorem new_user_takes_two_ids
    (hash : Value → Outcome Value) (data : Mock.Doc) (createdAt updatedAt : Value)
    (db : MockDb.t) (n : Q) :
  Mock.truthy (Mock.get data "_id") = false →
  MockDb.nextUserId db = Fin n →
  Mock.idsBelow n (MockDb.users db) →
  let this := fst (MockUser.construct data db) in
  let db1 := snd (MockUser.construct data db) in
  Mock.get this "_id" = VNum (Fin n)
  ∧ MockDb.users db1 = MockDb.users db
  ∧ MockDb.nextUserId db1 = Fin (Qred (n + 1))
  ∧ (Mock.truthy (Mock.get data "password") = false →
     MockUser.save hash this createdAt updatedAt db1 = Thrown "Password is required")
  ∧ ∀ hashed,
      Mock.truthy (Mock.get data "password") = true →
      hash (Mock.get data "password") = Returned hashed →
      ∃ (saved : Mock.Doc) (db2 : MockDb.t) (n1 n2 : Q),
        MockUser.save hash this createdAt updatedAt db1 = Returned (saved, db2)
        ∧ Mock.get saved "_id" = VNum (Fin n1) ∧ n1 == n + 1
        ∧ Mock.get saved "password" = hashed
        ∧ MockDb.users db2 = MockDb.users db ++ [saved]
        ∧ MockDb.nextUserId db2 = Fin n2 ∧ n2 == n + 2
        ∧ Mock.idsBelow n2 (MockDb.users db2)
        ∧ Forall (λ u, Mock.strictEq (Mock.get u "_id") (VNum (Fin n)) = false)
            (MockDb.users db2).
Proof.
  intros Hfalsy Hcounter Hbelow this db1.
  assert (Hthis : this = <["_id" := VNum (Fin n)]> data).
  { subst this. unfold MockUser.construct. by rewrite Hfalsy, Hcounter. }
  assert (Hdb1 : db1 = MockDb.setNextUserId (Fin (Qred (n + 1))) db).
  { subst db1. unfold MockUser.construct. by rewrite Hfalsy, Hcounter. }
  assert (Hid : Mock.get this "_id" = VNum (Fin n)).
  { rewrite Hthis. unfold Mock.get. by rewrite lookup_insert_eq. }
  assert (Hpw : Mock.get this "password" = Mock.get data "password").
  { rewrite Hthis. unfold Mock.get. by rewrite lookup_insert_ne. }
  assert (Hnew : existsb (λ u, Mock.strictEq (Mock.get u "_id") (Mock.get this "_id"))
                   (MockDb.users db1) = false).
  { rewrite Hdb1, Hid. simpl. apply (existsb_sameId_below n); [done |]. by apply strictEq_Fin. }
  split; [done |]. split; [by rewrite Hdb1 |]. split; [by rewrite Hdb1 |]. split.
  - intros Hnopw. unfold MockUser.save. by rewrite Hnew, Bool.andb_false_r, Hpw, Hnopw.
  - intros hashed Hhaspw Hhash. unfold MockUser.save.
    rewrite Hnew, Bool.andb_false_r, Hpw, Hhaspw, Hhash. simpl.
    eexists _, _, (Qred (n + 1)), (Qred (Qred (n + 1) + 1)). split; [reflexivity |].
    assert (Hn1 : Qred (n + 1) == n + 1) by apply Qred_correct.
    assert (Hn2 : Qred (Qred (n + 1) + 1) == n + 2) by (rewrite Qred_correct; lra).
    rewrite Hdb1. simpl.
    split; [unfold Mock.get; by rewrite !lookup_insert_ne, lookup_insert_eq by done |].
    split; [done |].
    split; [unfold Mock.get;
            by rewrite !lookup_insert_ne, lookup_insert_eq by done |].
    split; [done |]. split; [done |]. split; [done |]. split.
    + apply Forall_app. split.
      * apply (idsBelow_weaken n); [lra | done].
      * apply Forall_singleton. exists (Qred (n + 1)). split; [| lra].
        unfold Mock.get. by rewrite !lookup_insert_ne, lookup_insert_eq by done.
    + apply Forall_app. split.
      * eapply Forall_impl; [exact Hbelow |]. intros u (q & -> & Hlt).
        destruct (Mock.strictEq (VNum (Fin q)) (VNum (Fin n))) eqn:E; [| done].
        apply strictEq_Fin in E. lra.
      * apply Forall_singleton. unfold Mock.get.
        rewrite !lookup_insert_ne, lookup_insert_eq by done. simpl.
        destruct (Mock.strictEq (VNum (Fin (Qred (n + 1)))) (VNum (Fin n))) eqn:E; [| done].
        apply strictEq_Fin in E. lra.
Qed.

(** The first user registered beside the default admin. *)
Lemma new_user_takes_two_ids_witness :
  let hash := λ _ : Value, Returned (VStr "$2b$12$hash") in
  let db := MockDb.initial (VObj 1) (VObj 2) in
  let data : Mock.Doc := {["email" := VStr "ada@example.org"; "password" := VStr "secret"]} in
  let this := fst (MockUser.construct data db) in
  let db1 := snd (MockUser.construct data db) in
  Mock.get this "_id" = VNum (Fin 2)
  ∧ ∃ (saved : Mock.Doc) (db2 : MockDb.t) (n1 n2 : Q),
      MockUser.save hash this (VObj 3) (VObj 4) db1 = Returned (saved, db2)
      ∧ Mock.get saved "_id" = VNum (Fin n1) ∧ n1 == 3
      ∧ MockDb.nextUserId db2 = Fin n2 ∧ n2 == 4.
Proof.
  intros hash db data this db1.
  destruct (new_user_takes_two_ids hash data (VObj 3) (VObj 4) db 2 eq_refl eq_refl)
    as (Hid & _ & _ & _ & Hsave).
  { repeat constructor. exists 1%Q. split; [done | lra]. }
  fold this in Hid, Hsave. fold db1 in Hsave. split; [exact Hid |].
  destruct (Hsave (VStr "$2b$12$hash") eq_refl eq_refl)
    as (saved & db2 & n1 & n2 & Hsaved & Hn1 & Hn1' & _ & _ & Hn2 & Hn2' & _).
  exists saved, db2, n1, n2. by repeat split.
Defined.

(** X15. [save] of an instance whose [_id] is that of a stored user
    overwrites the first such user with the instance as it is: [bcrypt.hash]
    is not called and the password is not checked, so a password set on the
    instance is stored as given; the counter stays. *)
Theorem save_existing_user_skips_hashing
    (hash : Value → Outcome Value) (this : Mock.Doc) (createdAt updatedAt : Value)
    (db : MockDb.t) (i : nat) (u : Mock.Doc) :
  Mock.truthy (Mock.get this "_id") = true →
  MockDb.users db !! i = Some u →
  Mock.strictEq (Mock.get u "_id") (Mock.get this "_id") = true →
  ∃ (j : nat) (db' : MockDb.t),
    MockUser.save hash this createdAt updatedAt db = Returned (this, db')
    ∧ j ≤ i
    ∧ MockDb.users db' = <[j := this]> (MockDb.users db)
    ∧ MockDb.users db' !! j = Some this
    ∧ MockDb.nextUserId db' = MockDb.nextUserId db
    ∧ MockUser.findOne {["_id" := Mock.get this "_id"]} db' = Some this.
Proof.
  intros Htruthy Hi Hsame. unfold MockUser.save. rewrite Htruthy. simpl.
  assert (Hin : u ∈ MockDb.users db) by by apply list_elem_of_lookup_2 in Hi.
  destruct (list_find_elem_of
              (λ x, Mock.strictEq (Mock.get x "_id") (Mock.get this "_id") = true)
              (MockDb.users db) u Hin Hsame) as [[j x] Hfind].
  assert (Hex : existsb (λ x, Mock.strictEq (Mock.get x "_id") (Mock.get this "_id"))
                  (MockDb.users db) = true).
  { apply existsb_exists. exists u. split; [by apply list_elem_of_In | done]. }
  rewrite Hex, Hfind. exists j, (MockDb.setUsers (<[j := this]> (MockDb.users db)) db).
  pose proof Hfind as (Hj & Hx & Hfirst)%list_find_Some.
  split; [done |]. split.
  { destruct (decide (j ≤ i)) as [|Hgt]; [done |]. destruct (Hfirst i u Hi); [lia | done]. }
  split; [done |]. split.
  { simpl. apply list_lookup_insert_eq. by apply lookup_lt_Some in Hj. }
  split; [done |].
  assert (Hqid : Mock.get ({["_id" := Mock.get this "_id"]} : Mock.Doc) "_id"
                 = Mock.get this "_id").
  { unfold Mock.get at 1. by rewrite lookup_singleton_eq. }
  assert (Hqemail : Mock.get ({["_id" := Mock.get this "_id"]} : Mock.Doc) "email"
                    = VUndefined).
  { unfold Mock.get at 1. by rewrite lookup_singleton_ne. }
  unfold MockUser.findOne. rewrite Hqemail, Hqid, Htruthy. simpl.
  rewrite (list_find_insert_found _ _ _ x this Hfind); [done |].
  apply (strictEq_refl_of _ (Mock.get u "_id")). by rewrite strictEq_sym.
Qed.

(** A new password set on the default admin. *)
Lemma save_existing_user_skips_hashing_witness :
  let hash := λ _ : Value, Returned (VStr "$2b$12$hash") in
  let db := MockDb.initial (VObj 1) (VObj 2) in
  let this : Mock.Doc := {["_id" := VNum (Fin 1); "password" := VStr "plain"]} in
  ∃ db', MockUser.save hash this (VObj 3) (VObj 4) db = Returned (this, db')
         ∧ MockDb.users db' = [this].
Proof.
  intros hash db this.
  destruct (save_existing_user_skips_hashing hash this (VObj 3) (VObj 4) db 0
              (MockDb.created (Fin 1) MockDb.adminData (VObj 1) (VObj 2))
              eq_refl eq_refl eq_refl) as (j & db' & Hsave & Hj & Husers & _).
  exists db'. split; [exact Hsave |]. rewrite Husers.
  by replace j with 0 by lia.
Defined.

End MockDbFacts.

(** ** More on grades, attendance, due dates and middleware *)

Section GradePointFacts.

Import GradeTables.

Ltac decide_bound_at q :=
  match goal with
  | |- context [(Fin q >=? Fin ?b)%js] =>
      let E := fresh in
      destruct (Fin q >=? Fin b)%js eqn:E;
      [apply geb_Fin in E | apply geb_Fin_false in E]; try lra
  end.

(** X16. The GPA of the course-grade hook never falls when the percentage
    rises, lies between 0 and 4, and is 4 exactly from 93 percent on; a
    percentage that is not a number gets GPA 0. *)
Theorem gpa_is_monotone :
  (∀ p q : Q, (p <= q)%Q →
     ∃ x y : Q, gradeGpa (Fin p) = Fin x ∧ gradeGpa (Fin q) = Fin y
                ∧ (0 <= x)%Q ∧ (x <= y)%Q ∧ (y <= 4)%Q)
  ∧ (∀ p : Q, gradeGpa (Fin p) = Fin 4 ↔ (93 <= p)%Q)
  ∧ gradeGpa NaN = Fin 0.
Proof.
  split; [| split; [| done]].
  - intros p q Hpq. unfold gradeGpa.
    repeat decide_bound_at p; repeat decide_bound_at q;
      (eexists _, _; split; [reflexivity |]; split; [reflexivity |]; lra).
  - intros p. unfold gradeGpa. repeat decide_bound_at p; split; intros Hgpa; try done; try lra; try (by vm_compute in Hgpa).
Qed.

End GradePointFacts.

Section AttendanceLedgerFacts.

Import AttendanceRoutes.

Lemma markEnrollment_inRange (courses : gmap Id Course.t) (st : Attendance.Status)
    (e e' : Enrollment.t) :
  AttendanceLedger.inRange e → markEnrollment courses st e = Ok e' →
  AttendanceLedger.inRange e'.
Proof.
  intros [Hcount _]. unfold markEnrollment, Enrollment.save.
  destruct (Enrollment.courseCheck courses (marked st e)); [| done].
  intros [= <-]. unfold AttendanceLedger.inRange, Enrollment.preSave, marked. simpl.
  destruct (Z.gtb_spec (Enrollment.totalClasses (Enrollment.attendance e) + 1) 0);
    [| lia].
  simpl. split; [destruct (Attendance.attended st); lia | done].
Qed.

Lemma updateEnrollments_inRange (courses : gmap Id Course.t) (courseId : Id)
    (entries : list Attendance.Entry) :
  ∀ (es : list Enrollment.t) (n : nat),
    Forall AttendanceLedger.inRange es →
    Forall AttendanceLedger.inRange (snd (updateEnrollments courses courseId entries es n)).
Proof.
  induction entries as [|entry rest IH]; intros es n Hes; simpl; [done |].
  destruct (findEnrollment (Attendance.student entry) courseId es) as [[i e]|] eqn:Hfind;
    [| done].
  destruct (markEnrollment courses (Attendance.status entry) e) as [e'|err] eqn:Hsave;
    [| done].
  apply IH. apply Forall_insert; [done |].
  apply (markEnrollment_inRange courses (Attendance.status entry) e e'); [| done].
  apply list_find_Some in Hfind as (Hi & _ & _).
  rewrite Forall_lookup in Hes. by apply (Hes i).
Qed.

(** X17. Through every history of attendance sessions, those that fail
    included, every enrollment keeps its attendance summary in range: the
    classes attended are among the classes held, and once a class was held
    the percentage is the one of the counters. *)
Theorem attendance_stays_in_range (sessions : list Attendance.t) (db : Storage) :
  Forall AttendanceLedger.inRange (enrollments db) →
  Forall AttendanceLedger.inRange (enrollments (AttendanceLedger.serve sessions db)).
Proof.
  revert db. induction sessions as [|s sessions IH]; intros db Hdb; [done |].
  simpl. apply IH. unfold markAttendance.
  destruct (existsb _ (attendance db)); [done |]. simpl.
  pose proof (updateEnrollments_inRange (courses db) (Attendance.course s)
                (Attendance.students s) (enrollments db) 0 Hdb) as Hloop.
  by destruct (updateEnrollments _ _ _ (enrollments db) 0) as [r es].
Qed.

(** Three sessions for one enrollment of a course with free seats: the
    second fails on a student without enrollment, the third is a
    duplicate. *)
Lemma attendance_stays_in_range_witness :
  let e0 := Enrollment.mk 1 7 1 0 Enrollment.enrolled (Enrollment.mkAttendance 0 0 (Fin 0)) None in
  let db0 := setEnrollments [e0] (setCourses {[1%N := Course.mk 30 1 true true]} emptyStorage) in
  let sessions :=
    [Attendance.mk 1 100 9 [Attendance.mkEntry 7 Attendance.present];
     Attendance.mk 1 101 9 [Attendance.mkEntry 7 Attendance.absent;
                            Attendance.mkEntry 8 Attendance.present];
     Attendance.mk 1 101 9 [Attendance.mkEntry 7 Attendance.late]] in
  Forall AttendanceLedger.inRange (enrollments (AttendanceLedger.serve sessions db0))
  ∧ Enrollment.attendance <$> enrollments (AttendanceLedger.serve sessions db0)
    = [Enrollment.mkAttendance 2 1 (Fin 50)].
Proof.
  intros e0 db0 sessions. split; [| by vm_compute].
  apply attendance_stays_in_range. repeat constructor; simpl; lia.
Defined.

(** The loop stops at the first listed student without an enrollment in the
    course or whose enrollment is not saved, with the students listed before
    marked. *)
Lemma updateEnrollments_stops (courses : gmap Id Course.t) (courseId : Id)
    (entries : list Attendance.Entry) (err : Error) :
  ∀ (es es' : list Enrollment.t) (n : nat),
    updateEnrollments courses courseId entries es n = (Err err, es') →
    ∃ (before after : list Attendance.Entry) (entry : Attendance.Entry),
      entries = before ++ entry :: after
      ∧ updateEnrollments courses courseId before es n = (Ok (n + length before), es')
      ∧ match findEnrollment (Attendance.student entry) courseId es' with
        | None => err = UnknownEnrollmentError
        | Some (_, e) => markEnrollment courses (Attendance.status entry) e = Err err
        end.
Proof.
  induction entries as [|entry rest IH]; intros es es' n Hrun; simpl in Hrun; [done |].
  destruct (findEnrollment (Attendance.student entry) courseId es) as [[i e]|] eqn:Hfind.
  - destruct (markEnrollment courses (Attendance.status entry) e) as [e'|err'] eqn:Hsave.
    + destruct (IH _ _ _ Hrun) as (before & after & x & -> & Hbefore & Hx).
      exists (entry :: before), after, x. split; [done |]. split; [| done].
      simpl. rewrite Hfind, Hsave, Hbefore. do 2 f_equal. lia.
    + injection Hrun as <- <-. exists [], rest, entry. split; [done |]. split.
      * simpl. do 2 f_equal. lia.
      * by rewrite Hfind.
  - injection Hrun as <- <-. exists [], rest, entry. split; [done |]. split.
    + simpl. do 2 f_equal. lia.
    + by rewrite Hfind.
Qed.

(** X18. A session is not marked as a whole.  When the loop over the listed
    students throws, at a student without an enrollment in the course or at
    an enrollment whose save the course check refuses, the call fails, but
    the attendance document of the session is stored and the students listed
    before that one are marked; and as there is one document per course and
    date, every further call for that course and date fails as a duplicate
    and changes nothing, so the students listed after are never marked for
    the session. *)
Theorem failed_session_cannot_be_repeated
    (instructorId courseId : Id) (date : Date) (students : list Attendance.Entry)
    (db : Storage) (err : Error) :
  fst (markAttendance instructorId courseId date students db) = Err err →
  err ≠ DuplicateSessionError →
  let db' := snd (markAttendance instructorId courseId date students db) in
  attendance db' = attendance db ++ [Attendance.mk courseId date instructorId students]
  ∧ (∃ (before after : list Attendance.Entry) (entry : Attendance.Entry),
       students = before ++ entry :: after
       ∧ updateEnrollments (courses db) courseId before (enrollments db) 0
         = (Ok (length before), enrollments db')
       ∧ match findEnrollment (Attendance.student entry) courseId (enrollments db') with
         | None => err = UnknownEnrollmentError
         | Some (_, e) => markEnrollment (courses db) (Attendance.status entry) e = Err err
         end)
  ∧ ∀ (instructorId' : Id) (students' : list Attendance.Entry),
      markAttendance instructorId' courseId date students' db'
      = (Err DuplicateSessionError, db').
Proof.
  unfold markAttendance.
  destruct (existsb _ (attendance db)) eqn:Hdup; simpl.
  { intros [= <-]. done. }
  destruct (updateEnrollments (courses db) courseId students (enrollments db) 0)
    as [r es] eqn:Hloop.
  simpl. intros -> _. split; [done |]. split.
  - destruct (updateEnrollments_stops _ _ _ _ _ _ _ Hloop) as (before & after & entry & H).
    by exists before, after, entry.
  - intros instructorId' students'. rewrite existsb_app. simpl.
    by rewrite N.eqb_refl, Z.eqb_refl, Bool.orb_true_r.
Qed.

(** A session of a course with free seats that lists an enrolled student and
    then one who is not. *)
Lemma failed_session_cannot_be_repeated_witness :
  let e0 := Enrollment.mk 1 7 1 0 Enrollment.enrolled (Enrollment.mkAttendance 0 0 (Fin 0)) None in
  let db0 := setEnrollments [e0] (setCourses {[1%N := Course.mk 30 1 true true]} emptyStorage) in
  let students := [Attendance.mkEntry 7 Attendance.present;
                   Attendance.mkEntry 8 Attendance.present] in
  let db1 := snd (markAttendance 9 1 100 students db0) in
  length (attendance db1) = 1
  ∧ Enrollment.attendance <$> enrollments db1 = [Enrollment.mkAttendance 1 1 (Fin 100)]
  ∧ markAttendance 9 1 100 students db1 = (Err DuplicateSessionError, db1).
Proof.
  intros e0 db0 students db1.
  destruct (failed_session_cannot_be_repeated 9 1 100 students db0 UnknownEnrollmentError
              eq_refl ltac:(discriminate))
    as (Hstored & _ & Hagain).
  fold db1 in Hstored, Hagain.
  split; [by rewrite Hstored |]. split; [by vm_compute | apply Hagain].
Defined.

End AttendanceLedgerFacts.

Section AssignmentVirtualFacts.

Import AssignmentVirtuals.

Lemma length_append (a b : string) :
  String.length (a +:+ b) = String.length a + String.length b.
Proof. induction a as [|c a IH]; [done |]. simpl. by rewrite IH. Qed.

Lemma ceilDiv_sign (diffTime : Z) :
  let diffDays := ceilDiv diffTime msPerDay in
  ((diffDays < 0 ↔ diffTime <= - msPerDay)
   ∧ (diffDays = 0 ↔ - msPerDay < diffTime <= 0)
   ∧ (msPerDay * (diffDays - 1) < diffTime <= msPerDay * diffDays))%Z.
Proof.
  intros diffDays. subst diffDays. unfold ceilDiv. change msPerDay with 86400000%Z.
  pose proof (Z.div_mod (- diffTime) 86400000 ltac:(lia)) as Hdiv.
  pose proof (Z.mod_pos_bound (- diffTime) 86400000 ltac:(lia)) as Hmod.
  lia.
Qed.

(** X19. [timeUntilDue] reads ["Due today"] exactly when the due date is
    now or has passed by less than a day, which but for the instant of the
    due date itself is when [isOverdue] holds already; an assignment that is
    due later, be it in an hour, reads as days remaining, at least one; and
    one that is a day or more past reads as days overdue, the full days
    counted. *)
Theorem due_today_means_just_overdue (now due : Date) :
  (timeUntilDue now (Some due) = "Due today" ↔ (now - msPerDay < due <= now)%Z)
  ∧ ((now - msPerDay < due < now)%Z →
     isOverdue now (Some due) = true ∧ timeUntilDue now (Some due) = "Due today")
  ∧ ((now < due)%Z →
     isOverdue now (Some due) = false
     ∧ ∃ days : Z, timeUntilDue now (Some due) = pretty days +:+ " days remaining"
                   ∧ (1 <= days)%Z
                   ∧ (msPerDay * (days - 1) < due - now <= msPerDay * days)%Z)
  ∧ ((due <= now - msPerDay)%Z →
     isOverdue now (Some due) = true
     ∧ ∃ days : Z, timeUntilDue now (Some due) = pretty days +:+ " days overdue"
                   ∧ (1 <= days)%Z
                   ∧ (msPerDay * days <= now - due < msPerDay * (days + 1))%Z).
Proof.
  pose proof (ceilDiv_sign (due - now)) as (Hneg & Hzero & Hbounds).
  assert (Hday : (0 < msPerDay)%Z) by done.
  unfold timeUntilDue, isOverdue.
  destruct (Z.ltb_spec (ceilDiv (due - now) msPerDay) 0) as [Hlt|Hge].
  - split; [| split; [| split]].
    + split; [| lia]. intros Heq. apply (f_equal String.length) in Heq.
      rewrite length_append in Heq. simpl in Heq. lia.
    + lia.
    + lia.
    + intros Hpast. split; [apply Z.gtb_lt; lia |].
      exists (Z.abs (ceilDiv (due - now) msPerDay)). split; [done |]. lia.
  - destruct (Z.eqb_spec (ceilDiv (due - now) msPerDay) 0) as [Heq|Hne].
    + split; [| split; [| split]].
      * split; [lia | done].
      * intros Hwindow. split; [apply Z.gtb_lt; lia | done].
      * lia.
      * lia.
    + split; [| split; [| split]].
      * split; [| lia]. intros Heq. apply (f_equal String.length) in Heq.
        rewrite length_append in Heq. simpl in Heq. lia.
      * lia.
      * intros Hfuture. split.
        { destruct (Z.gtb_spec now due); [lia | done]. }
        exists (ceilDiv (due - now) msPerDay). split; [done |]. lia.
      * lia.
Qed.

End AssignmentVirtualFacts.

Section MiddlewareFacts.

Import Middleware.

(** X20. Behind [authorize('instructor')] the two documented versions of
    [checkApproval] decide alike: the handler is reached exactly by an
    approved instructor.  On their own they differ exactly on a user who is
    not approved and is neither a student nor an instructor, an admin for
    one: the first refuses such a user and the second lets them through. *)
Theorem approval_checks_agree_behind_authorize :
  (∀ user : option User,
     let first := chain [authorize ["instructor"]; checkApproval] user in
     let second := chain [authorize ["instructor"]; checkApprovalOfInstructors] user in
     (first = Next ↔ second = Next)
     ∧ (first = Next
        ↔ ∃ u, user = Some u ∧ role u = "instructor" ∧ isApproved u = true))
  ∧ ∀ u : User,
      let other := isApproved u = false ∧ role u ≠ "student" ∧ role u ≠ "instructor" in
      (other →
       checkApproval (Some u)
       = Status 403 "Account pending approval. Please contact administrator."
       ∧ checkApprovalOfInstructors (Some u) = Next)
      ∧ (¬ other →
         (checkApproval (Some u) = Next ↔ checkApprovalOfInstructors (Some u) = Next)).
Proof.
  split.
  - intros [[id r approved]|]; simpl; [| split; [done |]; split; [done | by intros (u & ? & _)]].
    destruct (decide (r = "instructor")) as [->|Hne].
    + simpl. destruct approved; simpl.
      * split; [done |]. split; [intros _; by eexists | done].
      * split; [done |]. split; [done | intros (u & [= <-] & _ & Hu); done].
    + rewrite bool_decide_eq_false_2 by (intros ->%list_elem_of_singleton; done).
      split; [done |]. split; [done | intros (u & [= <-] & Hu & _); done].
  - intros [id r approved] other. subst other. simpl.
    destruct approved; simpl;
      [rewrite Bool.andb_false_r; split; [by intros [? _] | done] |].
    rewrite Bool.andb_true_r.
    destruct (String.eqb_spec r "student") as [->|Hstudent]; simpl.
    + split; [by intros (_ & ? & _) |]. intros _.
      by destruct (String.eqb_spec "student" "instructor").
    + destruct (String.eqb_spec r "instructor") as [->|Hinstructor]; simpl.
      * split; [by intros (_ & _ & ?) | done].
      * split; [done |]. intros Hnot. destruct Hnot. done.
Qed.

(** X21. On the route that puts [authorize('instructor')] before
    [checkCourseOwnership], the handler is reached exactly by an instructor
    on a course of their own.  The exception that [checkCourseOwnership]
    makes for an admin never applies there: an admin, whom
    [checkCourseOwnership] alone lets through on every course that exists, is
    refused by the route with status 403. *)
Theorem course_route_is_closed_to_admins (course : option Id) (user : option User) :
  let route := chain [authorize ["instructor"]; checkCourseOwnership course] user in
  (route = Next
   ↔ ∃ u, user = Some u ∧ role u = "instructor" ∧ course = Some (_id u))
  ∧ ∀ u, user = Some u → role u = "admin" →
         (∃ message, route = Status 403 message)
         ∧ (is_Some course → checkCourseOwnership course user = Next).
Proof.
  intros route. subst route. split.
  - destruct user as [[id r approved]|]; simpl; [| split; [done | by intros (u & ? & _)]].
    destruct (decide (r = "instructor")) as [->|Hne].
    + simpl. destruct course as [instructor|]; simpl.
      * rewrite Bool.andb_true_r. destruct (N.eqb_spec instructor id) as [->|Hid]; simpl.
        -- split; [intros _; by eexists | done].
        -- split; [done | intros (u & [= <-] & _ & [= Hu]); done].
      * split; [done | by intros (u & _ & _ & ?)].
    + rewrite bool_decide_eq_false_2 by (intros ->%list_elem_of_singleton; done).
      split; [done | intros (u & [= <-] & Hu & _); done].
  - intros [id r approved] -> Hr. simpl in Hr. subst r. simpl. split; [by eexists |].
    intros [instructor ->]. simpl. by rewrite Bool.andb_false_r.
Qed.

End MiddlewareFacts.
